(** * Perpetual-futures clearing engine: a shallow embedding of the contracts

    The Solidity sources under [src/perp/contracts] are embedded as pure
    functions over explicit contract states.  A call either returns the new
    state together with its return value or reverts; a reverted call leaves
    the state it started from.

    - [uint256] and [int256] values are integers of [Z]; Solidity 0.8 checked
      arithmetic is written out (a result outside the type's range panics),
      explicit casts between the two types wrap around.
    - [mapping]s are finite maps read with the all-zero default.
    - [msg.sender] and [block.timestamp] are explicit arguments. *)

From Stdlib Require Import ZArith Lia String List Bool.
From stdpp Require Import base option gmap.

Local Open Scope Z_scope.

(** ** Reverts *)

Inductive PanicCode :=
| ArithmeticOverflow   (* Panic(0x11) *)
| DivisionByZero.      (* Panic(0x12) *)

Inductive Error :=
| RequireFailed (msg : string)
| Panic (code : PanicCode).

Inductive result (A : Type) :=
| Ok (a : A)
| Revert (e : Error).
Arguments Ok {A} a.
Arguments Revert {A} e.

#[global] Instance result_ret : MRet result := fun A a => Ok a.
#[global] Instance result_bind : MBind result := fun A B f m =>
  match m with
  | Ok a => f a
  | Revert e => Revert e
  end.

Definition require (cond : bool) (msg : string) : result unit :=
  if cond then Ok tt else Revert (RequireFailed msg).

(** The state a call leaves behind: the new state on success, the old one
    when the call reverts. *)
Definition commit {S A : Type} (s : S) (r : result (S * A)) : S :=
  match r with
  | Ok (s', _) => s'
  | Revert _ => s
  end.

Definition succeeds {A : Type} (r : result A) : Prop := exists a, r = Ok a.

(** ** Machine integers *)

Definition address := N.

Definition MAX_UINT256 : Z := 2 ^ 256 - 1.
Definition MAX_INT256 : Z := 2 ^ 255 - 1.
Definition MIN_INT256 : Z := - 2 ^ 255.

Definition in_uint256 (x : Z) : Prop := 0 <= x <= MAX_UINT256.
Definition in_int256 (x : Z) : Prop := MIN_INT256 <= x <= MAX_INT256.

Definition fits_uint256 (x : Z) : bool := (0 <=? x) && (x <=? MAX_UINT256).
Definition fits_int256 (x : Z) : bool := (MIN_INT256 <=? x) && (x <=? MAX_INT256).

(** Checked [uint256] operators. *)
Definition uadd (a b : Z) : result Z :=
  if fits_uint256 (a + b) then Ok (a + b) else Revert (Panic ArithmeticOverflow).
Definition usub (a b : Z) : result Z :=
  if fits_uint256 (a - b) then Ok (a - b) else Revert (Panic ArithmeticOverflow).
Definition umul (a b : Z) : result Z :=
  if fits_uint256 (a * b) then Ok (a * b) else Revert (Panic ArithmeticOverflow).
Definition udiv (a b : Z) : result Z :=
  if b =? 0 then Revert (Panic DivisionByZero) else Ok (a / b).

(** Checked [int256] operators; division truncates toward zero. *)
Definition sadd (a b : Z) : result Z :=
  if fits_int256 (a + b) then Ok (a + b) else Revert (Panic ArithmeticOverflow).
Definition ssub (a b : Z) : result Z :=
  if fits_int256 (a - b) then Ok (a - b) else Revert (Panic ArithmeticOverflow).
Definition smul (a b : Z) : result Z :=
  if fits_int256 (a * b) then Ok (a * b) else Revert (Panic ArithmeticOverflow).
Definition sneg (a : Z) : result Z :=
  if fits_int256 (- a) then Ok (- a) else Revert (Panic ArithmeticOverflow).
Definition sdiv (a b : Z) : result Z :=
  if b =? 0 then Revert (Panic DivisionByZero)
  else if fits_int256 (Z.quot a b) then Ok (Z.quot a b)
  else Revert (Panic ArithmeticOverflow).

(** Explicit conversions [int256(x)] and [uint256(x)]: no check, two's
    complement reinterpretation. *)
Definition to_int256 (u : Z) : Z :=
  if u <=? MAX_INT256 then u else u - 2 ^ 256.
Definition to_uint256 (i : Z) : Z := i mod 2 ^ 256.

Definition UNIT : Z := 10 ^ 18.

(** ** libraries/Decimal.sol *)

Module Decimal.

Record D256 := d256 { value : Z }.

Definition zero : D256 := d256 0.
Definition one : D256 := d256 (10 ^ 18).

Definition add (self b : D256) : result D256 :=
  v ← uadd (value self) (value b); Ok (d256 v).
Definition sub (self b : D256) : result D256 :=
  v ← usub (value self) (value b); Ok (d256 v).
Definition mul (self : D256) (b : Z) : result D256 :=
  v ← umul (value self) b; Ok (d256 v).
Definition div (self : D256) (b : Z) : result D256 :=
  v ← udiv (value self) b; Ok (d256 v).
Definition mulD (self b : D256) : result D256 :=
  p ← umul (value self) (value b); v ← udiv p (10 ^ 18); Ok (d256 v).
Definition divD (self b : D256) : result D256 :=
  p ← umul (value self) (10 ^ 18); v ← udiv p (value b); Ok (d256 v).

Definition isZero (self : D256) : bool := value self =? 0.
Definition gte (self b : D256) : bool := value b <=? value self.
Definition lte (self b : D256) : bool := value self <=? value b.
Definition gt (self b : D256) : bool := value b <? value self.
Definition lt (self b : D256) : bool := value self <? value b.

End Decimal.

(** ** libraries/SignedDecimal.sol *)

Module SignedDecimal.

Record S256 := s256 { value : Z }.

Definition zero : S256 := s256 0.

Definition add (self b : S256) : result S256 :=
  v ← sadd (value self) (value b); Ok (s256 v).
Definition sub (self b : S256) : result S256 :=
  v ← ssub (value self) (value b); Ok (s256 v).

Definition abs (self : S256) : result Decimal.D256 :=
  if 0 <=? value self then Ok (Decimal.d256 (to_uint256 (value self)))
  else n ← sneg (value self); Ok (Decimal.d256 (to_uint256 n)).

Definition isNegative (self : S256) : bool := value self <? 0.
Definition isPositive (self : S256) : bool := 0 <? value self.

Definition toUnsigned (self : S256) : result Decimal.D256 :=
  _ ← require (0 <=? value self) "Cannot convert negative";
  Ok (Decimal.d256 (to_uint256 (value self))).

End SignedDecimal.

(** [Decimal.toSigned]: declared after [SignedDecimal] because it builds an
    [S256]. *)
Definition toSigned (self : Decimal.D256) : SignedDecimal.S256 :=
  SignedDecimal.s256 (to_int256 (Decimal.value self)).

(** ** amm/Vamm.sol *)

Module Vamm.
Import Decimal.

Definition FEE_RATIO : Z := 30.
Definition BASIS_POINTS : Z := 10000.

Record State := mkState {
  virtualBase : D256;
  virtualQuote : D256;
  k : D256;
  clearingHouse : address;
  admin : address;
  isPaused : bool
}.

Definition onlyClearingHouse (s : State) (sender : address) : result unit :=
  require (bool_decide (sender = clearingHouse s)) "Only ClearingHouse".
Definition onlyAdmin (s : State) (sender : address) : result unit :=
  require (bool_decide (sender = admin s)) "Only admin".
Definition whenNotPaused (s : State) : result unit :=
  require (negb (isPaused s)) "Trading paused".

Definition constructor (sender : address) (_virtualBase _virtualQuote : D256)
    (_clearingHouse : address) : result State :=
  _ ← require ((0 <? value _virtualBase) && (0 <? value _virtualQuote))
        "Invalid reserves";
  k0 ← mulD _virtualBase _virtualQuote;
  Ok (mkState _virtualBase _virtualQuote k0 _clearingHouse sender false).

(** The [Swapped] event only reports values already computed; it is not
    part of the state. *)
Definition swap (s : State) (sender : address)
    (isLong : bool) (amountIn minAmountOut : Z) : result (State * Z) :=
  _ ← onlyClearingHouse s sender;
  _ ← whenNotPaused s;
  _ ← require (0 <? amountIn) "Amount must be positive";
  let dAmountIn := d256 amountIn in
  feeN ← mul dAmountIn FEE_RATIO;
  fee ← div feeN BASIS_POINTS;
  amountInAfterFee ← sub dAmountIn fee;
  '(newBase, newQuote, amountOut) ←
    (if isLong then
       newQuote ← add (virtualQuote s) amountInAfterFee;
       newBase ← divD (k s) newQuote;
       amountOut ← sub (virtualBase s) newBase;
       Ok (newBase, newQuote, amountOut)
     else
       newBase ← add (virtualBase s) amountInAfterFee;
       newQuote ← divD (k s) newBase;
       amountOut ← sub (virtualQuote s) newQuote;
       Ok (newBase, newQuote, amountOut));
  _ ← require (minAmountOut <=? value amountOut) "Slippage exceeded";
  Ok (mkState newBase newQuote (k s) (clearingHouse s) (admin s) (isPaused s),
      value amountOut).

Definition getSpotPrice (s : State) : result D256 :=
  divD (virtualQuote s) (virtualBase s).

Definition getAmountOut (s : State) (isLong : bool) (amountIn : Z) : result Z :=
  if amountIn =? 0 then Ok 0 else
  let dAmountIn := d256 amountIn in
  feeN ← mul dAmountIn FEE_RATIO;
  fee ← div feeN BASIS_POINTS;
  amountInAfterFee ← sub dAmountIn fee;
  if isLong then
    newQuote ← add (virtualQuote s) amountInAfterFee;
    newBase ← divD (k s) newQuote;
    out ← sub (virtualBase s) newBase;
    Ok (value out)
  else
    newBase ← add (virtualBase s) amountInAfterFee;
    newQuote ← divD (k s) newBase;
    out ← sub (virtualQuote s) newQuote;
    Ok (value out).

Definition adjustReserves (s : State) (sender : address)
    (newBase newQuote : D256) : result (State * unit) :=
  _ ← onlyAdmin s sender;
  _ ← require ((0 <? value newBase) && (0 <? value newQuote)) "Invalid reserves";
  k' ← mulD newBase newQuote;
  Ok (mkState newBase newQuote k' (clearingHouse s) (admin s) (isPaused s), tt).

Definition setPaused (s : State) (sender : address) (_isPaused : bool)
    : result (State * unit) :=
  _ ← onlyAdmin s sender;
  Ok (mkState (virtualBase s) (virtualQuote s) (k s) (clearingHouse s)
        (admin s) _isPaused, tt).

Definition getK (s : State) : Z := value (k s).

(** A swap request, and the states a run of requests goes through: the
    run stops at the first request that reverts. *)
Record SwapCall := mkSwapCall {
  call_sender : address;
  call_isLong : bool;
  call_amountIn : Z;
  call_minAmountOut : Z
}.

Fixpoint swap_trace (s : State) (calls : list SwapCall) : result (list State) :=
  match calls with
  | [] => Ok []
  | c :: rest =>
      '(s', _) ← swap s (call_sender c) (call_isLong c) (call_amountIn c)
                   (call_minAmountOut c);
      tr ← swap_trace s' rest;
      Ok (s' :: tr)
  end.

(** The state-changing entry points as requests, for statements about
    every call at once; a request that reverts leaves the state as it was. *)
Inductive Call :=
| Swap (isLong : bool) (amountIn minAmountOut : Z)
| AdjustReserves (newBase newQuote : D256)
| SetPaused (_isPaused : bool).

Definition step (s : State) (sender : address) (c : Call) : State :=
  match c with
  | Swap isLong amountIn minAmountOut =>
      commit s (swap s sender isLong amountIn minAmountOut)
  | AdjustReserves newBase newQuote =>
      commit s (adjustReserves s sender newBase newQuote)
  | SetPaused p => commit s (setPaused s sender p)
  end.

End Vamm.

(** ** core/ClearingHouse.sol *)

Module ClearingHouse.

Record Position := mkPosition {
  size : Z;            (* int256: positive for long, negative for short *)
  collateral : Z;
  entryPrice : Z;
  fundingIndex : Z;    (* int256 *)
  lastUpdated : Z;
  openNotional : Z
}.

Record Market := mkMarket {
  baseToken : address;
  vamm : address;
  isActive : bool;
  maxLeverage : Z;
  maintenanceMarginRatio : Z;
  liquidationFeeRatio : Z
}.

Inductive Event :=
| PositionChanged (trader baseToken : address)
    (exchangedPositionSize exchangedPositionNotional fee realizedPnl : Z)
| PositionLiquidated (trader baseToken : address)
    (positionNotional liquidationFee : Z) (liquidator : address)
| MarketAdded (baseToken vamm : address) (maxLeverage : Z).

(** [events] is the log of the contract, most recent entry first. *)
Record State := mkState {
  vault : address;
  accountBalance : address;
  insuranceFund : address;
  exchange : address;
  admin : address;
  positions : gmap (address * address) Position;
  markets : gmap address Market;
  events : list Event
}.

Definition BASIS_POINTS : Z := 10000.
Definition INITIAL_MARGIN_RATIO : Z := 100.

Definition noPosition : Position := mkPosition 0 0 0 0 0 0.
Definition noMarket : Market := mkMarket 0%N 0%N false 0 0 0.

(** [positions[trader][baseToken]] and [markets[baseToken]] as reads. *)
Definition getPos (s : State) (trader token : address) : Position :=
  default noPosition (positions s !! (trader, token)).
Definition getMarket (s : State) (token : address) : Market :=
  default noMarket (markets s !! token).

Definition setPos (s : State) (trader token : address) (p : Position) : State :=
  mkState (vault s) (accountBalance s) (insuranceFund s) (exchange s) (admin s)
    (<[(trader, token) := p]> (positions s)) (markets s) (events s).
Definition deletePos (s : State) (trader token : address) : State :=
  mkState (vault s) (accountBalance s) (insuranceFund s) (exchange s) (admin s)
    (delete (trader, token) (positions s)) (markets s) (events s).
Definition emit (s : State) (e : Event) : State :=
  mkState (vault s) (accountBalance s) (insuranceFund s) (exchange s) (admin s)
    (positions s) (markets s) (e :: events s).

Definition constructor (sender _vault _accountBalance _insuranceFund _exchange : address)
    : State :=
  mkState _vault _accountBalance _insuranceFund _exchange sender ∅ ∅ [].

(** [uint256(pos.size > 0 ? pos.size : -pos.size)] *)
Definition absSize (sz : Z) : result Z :=
  if 0 <? sz then Ok (to_uint256 sz)
  else n ← sneg sz; Ok (to_uint256 n).

Definition openPosition (s : State) (sender : address) (timestamp : Z)
    (token : address) (isLong : bool)
    (collateralAmount leverage minBaseAmount : Z) : result (State * Z) :=
  let market := getMarket s token in
  _ ← require (isActive market) "Market not active";
  _ ← require (leverage <=? maxLeverage market) "Leverage too high";
  scaled ← umul collateralAmount leverage;
  openNotional' ← udiv scaled BASIS_POINTS;
  let baseAmount := openNotional' in
  _ ← require (minBaseAmount <=? baseAmount) "Slippage exceeded";
  newSize ← (if isLong then Ok (to_int256 baseAmount)
             else sneg (to_int256 baseAmount));
  let pos := getPos s sender token in
  pos' ←
    (if size pos =? 0 then
       n ← umul openNotional' (10 ^ 18);
       price ← udiv n baseAmount;
       Ok (mkPosition newSize collateralAmount price (fundingIndex pos)
             (lastUpdated pos) openNotional')
     else
       totalNotional ← uadd (openNotional pos) openNotional';
       posSize ← absSize (size pos);
       totalSize ← uadd posSize baseAmount;
       n ← umul totalNotional (10 ^ 18);
       price ← udiv n totalSize;
       size' ← sadd (size pos) newSize;
       coll' ← uadd (collateral pos) collateralAmount;
       Ok (mkPosition size' coll' price (fundingIndex pos)
             (lastUpdated pos) totalNotional));
  let pos'' := mkPosition (size pos') (collateral pos') (entryPrice pos')
                 (fundingIndex pos') timestamp (openNotional pos') in
  let s1 := setPos s sender token pos'' in
  Ok (emit s1 (PositionChanged sender token newSize openNotional' 0 0),
      baseAmount).

Definition closePosition (s : State) (sender : address) (timestamp : Z)
    (token : address) (closeRatio : Z) : result (State * Z) :=
  let pos := getPos s sender token in
  _ ← require (negb (size pos =? 0)) "No position";
  _ ← require (closeRatio <=? BASIS_POINTS) "Invalid ratio";
  let isLong := 0 <? size pos in
  posSize ← absSize (size pos);
  scaled ← umul posSize closeRatio;
  closeSize ← udiv scaled BASIS_POINTS;
  cn ← umul closeSize (entryPrice pos);
  closeNotional ← udiv cn (10 ^ 18);
  let currentPrice := entryPrice pos in
  cur ← umul closeSize currentPrice;
  currentNotional ← udiv cur (10 ^ 18);
  pnl ← (if isLong
         then ssub (to_int256 currentNotional) (to_int256 closeNotional)
         else ssub (to_int256 closeNotional) (to_int256 currentNotional));
  s1 ←
    (if closeRatio =? BASIS_POINTS then
       Ok (deletePos s sender token)
     else
       size' ← (if isLong then ssub (size pos) (to_int256 closeSize)
                else sadd (size pos) (to_int256 closeSize));
       keep ← usub BASIS_POINTS closeRatio;
       c ← umul (collateral pos) keep;
       coll' ← udiv c BASIS_POINTS;
       keep' ← usub BASIS_POINTS closeRatio;
       o ← umul (openNotional pos) keep';
       notional' ← udiv o BASIS_POINTS;
       Ok (setPos s sender token
             (mkPosition size' coll' (entryPrice pos) (fundingIndex pos)
                timestamp notional')));
  exchanged ← sneg (to_int256 closeSize);
  Ok (emit s1 (PositionChanged sender token exchanged closeNotional 0 pnl), pnl).

(** Lines 186-188 of [liquidate]: the margin ratio of a stored position. *)
Definition marginRatio (pos : Position) : result (Z * Z) :=
  posSize ← absSize (size pos);
  pv ← umul posSize (entryPrice pos);
  posValue ← udiv pv (10 ^ 18);
  c ← umul (collateral pos) BASIS_POINTS;
  ratio ← udiv c posValue;
  Ok (posValue, ratio).

Definition liquidate (s : State) (sender : address)
    (trader token : address) : result (State * unit) :=
  let pos := getPos s trader token in
  _ ← require (negb (size pos =? 0)) "No position";
  let market := getMarket s token in
  '(posValue, ratio) ← marginRatio pos;
  _ ← require (ratio <? maintenanceMarginRatio market) "Not liquidatable";
  f ← umul (collateral pos) (liquidationFeeRatio market);
  liquidationFee ← udiv f BASIS_POINTS;
  let s1 := deletePos s trader token in
  Ok (emit s1 (PositionLiquidated trader token posValue liquidationFee sender), tt).

Definition onlyAdmin (s : State) (sender : address) : result unit :=
  require (bool_decide (sender = admin s)) "Only admin".

Definition addMarket (s : State) (sender : address)
    (token vamm' : address) (maxLeverage' : Z) : result (State * unit) :=
  _ ← onlyAdmin s sender;
  let m := mkMarket token vamm' true maxLeverage' 50 500 in
  let s1 := mkState (vault s) (accountBalance s) (insuranceFund s) (exchange s)
              (admin s) (positions s) (<[token := m]> (markets s)) (events s) in
  Ok (emit s1 (MarketAdded token vamm' maxLeverage'), tt).

Definition getPosition (s : State) (trader token : address) : Z * Z * Z * Z :=
  let pos := getPos s trader token in
  (size pos, collateral pos, entryPrice pos, openNotional pos).

(** The three position operations as requests, and a run of them: a
    request that reverts leaves the state as it was. *)
Inductive Call :=
| OpenPosition (token : address) (isLong : bool)
    (collateralAmount leverage minBaseAmount : Z)
| ClosePosition (token : address) (closeRatio : Z)
| Liquidate (trader token : address).

Definition step (s : State) (sender : address) (timestamp : Z) (c : Call) : State :=
  match c with
  | OpenPosition token isLong coll lev minOut =>
      commit s (openPosition s sender timestamp token isLong coll lev minOut)
  | ClosePosition token ratio =>
      commit s (closePosition s sender timestamp token ratio)
  | Liquidate trader token =>
      commit s (liquidate s sender trader token)
  end.

Fixpoint run (s : State) (calls : list (address * Z * Call)) : State :=
  match calls with
  | [] => s
  | (sender, timestamp, c) :: rest => run (step s sender timestamp c) rest
  end.

(** Every state-changing entry point, [addMarket] included. *)
Inductive Action :=
| OnPosition (c : Call)
| AddMarket (token vamm' : address) (maxLeverage' : Z).

Definition act (s : State) (sender : address) (timestamp : Z) (a : Action) : State :=
  match a with
  | OnPosition c => step s sender timestamp c
  | AddMarket token vamm' maxLeverage' =>
      commit s (addMarket s sender token vamm' maxLeverage')
  end.

Fixpoint play (s : State) (actions : list (address * Z * Action)) : State :=
  match actions with
  | [] => s
  | (sender, timestamp, a) :: rest => play (act s sender timestamp a) rest
  end.

End ClearingHouse.

(** ** core/AccountBalance.sol *)

Module AccountBalance.
Import Decimal.

(** The events of this contract carry no state and are left out. *)
Record State := mkState {
  collateral : gmap address D256;
  positionValue : gmap (address * address) D256;
  unrealizedPnl : gmap (address * address) SignedDecimal.S256;
  clearingHouse : address;
  vault : address
}.

Definition INITIAL_MARGIN_RATIO : Z := 100.
Definition MAINTENANCE_MARGIN_RATIO : Z := 50.
Definition BASIS_POINTS : Z := 10000.

Definition getBalance (s : State) (trader : address) : D256 :=
  default zero (collateral s !! trader).
Definition getPnl (s : State) (trader token : address) : SignedDecimal.S256 :=
  default SignedDecimal.zero (unrealizedPnl s !! (trader, token)).

Definition setBalance (s : State) (trader : address) (v : D256) : State :=
  mkState (<[trader := v]> (collateral s)) (positionValue s) (unrealizedPnl s)
    (clearingHouse s) (vault s).
Definition setPnl (s : State) (trader token : address)
    (v : SignedDecimal.S256) : State :=
  mkState (collateral s) (positionValue s)
    (<[(trader, token) := v]> (unrealizedPnl s)) (clearingHouse s) (vault s).

Definition onlyClearingHouse (s : State) (sender : address) : result unit :=
  require (bool_decide (sender = clearingHouse s)) "Only ClearingHouse".

Definition constructor (_clearingHouse _vault : address) : State :=
  mkState ∅ ∅ ∅ _clearingHouse _vault.

Definition deposit (s : State) (sender : address) (trader : address)
    (amount : D256) : result (State * unit) :=
  _ ← onlyClearingHouse s sender;
  b ← add (getBalance s trader) amount;
  Ok (setBalance s trader b, tt).

Definition canWithdraw (s : State) (trader : address) (amount : D256)
    : result bool :=
  remainingCollateral ← sub (getBalance s trader) amount;
  Ok true.

Definition withdraw (s : State) (sender : address) (trader : address)
    (amount : D256) : result (State * unit) :=
  _ ← onlyClearingHouse s sender;
  _ ← require (gte (getBalance s trader) amount) "Insufficient collateral";
  ok ← canWithdraw s trader amount;
  _ ← require ok "Would violate margin requirements";
  b ← sub (getBalance s trader) amount;
  Ok (setBalance s trader b, tt).

Definition updatePosition (s : State) (sender : address) (trader token : address)
    (sizeDelta : SignedDecimal.S256) (openNotionalDelta : D256)
    : result (State * unit) :=
  _ ← onlyClearingHouse s sender;
  let oldPnl := getPnl s trader token in
  Ok (setPnl s trader token oldPnl, tt).

Definition realizePnl (s : State) (sender : address) (trader token : address)
    (pnl : SignedDecimal.S256) : result (State * unit) :=
  _ ← onlyClearingHouse s sender;
  s1 ←
    (if SignedDecimal.isPositive pnl then
       gain ← SignedDecimal.abs pnl;
       b ← add (getBalance s trader) gain;
       Ok (setBalance s trader b)
     else
       loss ← SignedDecimal.abs pnl;
       if gte (getBalance s trader) loss then
         b ← sub (getBalance s trader) loss;
         Ok (setBalance s trader b)
       else
         Ok (setBalance s trader zero));
  Ok (setPnl s1 trader token SignedDecimal.zero, tt).

Definition getAccountValue (s : State) (trader : address)
    : result SignedDecimal.S256 :=
  let totalValue := toSigned (getBalance s trader) in
  Ok totalValue.

Definition getMarginRatio (s : State) (trader : address) : result Z :=
  accountValue ← getAccountValue s trader;
  let totalPositionValue := zero in
  if isZero totalPositionValue then Ok 0 else
  u ← SignedDecimal.toUnsigned accountValue;
  n ← umul (value u) BASIS_POINTS;
  udiv n (value totalPositionValue).

Definition isLiquidatable (s : State) (trader : address) : result bool :=
  ratio ← getMarginRatio s trader;
  Ok ((ratio <? MAINTENANCE_MARGIN_RATIO) && (0 <? ratio)).

Definition getTotalCollateralValue (s : State) (trader : address) : D256 :=
  getBalance s trader.
Definition getCollateral (s : State) (trader : address) : Z :=
  value (getBalance s trader).

Definition getUnrealizedPnl (s : State) (trader token : address) : Z :=
  SignedDecimal.value (getPnl s trader token).

(** The state-changing entry points as requests. *)
Inductive Call :=
| Deposit (trader : address) (amount : D256)
| Withdraw (trader : address) (amount : D256)
| UpdatePosition (trader token : address) (sizeDelta : SignedDecimal.S256)
    (openNotionalDelta : D256)
| RealizePnl (trader token : address) (pnl : SignedDecimal.S256).

Definition step (s : State) (sender : address) (c : Call) : State :=
  match c with
  | Deposit t a => commit s (deposit s sender t a)
  | Withdraw t a => commit s (withdraw s sender t a)
  | UpdatePosition t b d n => commit s (updatePosition s sender t b d n)
  | RealizePnl t b p => commit s (realizePnl s sender t b p)
  end.

End AccountBalance.

(** ** core/Funding.sol *)

Module Funding.
Import SignedDecimal.

Record FundingGrowth := mkGrowth {
  longFundingRate : S256;
  shortFundingRate : S256;
  timestamp : Z;
  cumulativeFunding : S256
}.

(** The events of this contract carry no state and are left out. *)
Record State := mkState {
  fundingGrowth : gmap address FundingGrowth;
  traderFundingIndex : gmap (address * address) S256;
  fundingPeriod : Z;
  maxFundingRate : Z;
  clearingHouse : address;
  admin : address
}.

Definition BASIS_POINTS : Z := 10000.
Definition ONE_DAY : Z := 86400.
Definition EIGHT_HOURS : Z := 28800.

Definition noGrowth : FundingGrowth := mkGrowth zero zero 0 zero.

Definition getGrowth (s : State) (token : address) : FundingGrowth :=
  default noGrowth (fundingGrowth s !! token).
Definition getIndex (s : State) (trader token : address) : S256 :=
  default zero (traderFundingIndex s !! (trader, token)).

Definition onlyClearingHouse (s : State) (sender : address) : result unit :=
  require (bool_decide (sender = clearingHouse s)) "Only ClearingHouse".
Definition onlyAdmin (s : State) (sender : address) : result unit :=
  require (bool_decide (sender = admin s)) "Only admin".

Definition constructor (sender _clearingHouse : address) : State :=
  mkState ∅ ∅ EIGHT_HOURS 1000 _clearingHouse sender.

(** [longOpenInterest] and [shortOpenInterest] are accepted and unused. *)
Definition updateFundingRate (s : State) (sender : address) (now : Z)
    (token : address) (markPrice indexPrice : Z)
    (longOpenInterest shortOpenInterest : Z) : result (State * S256) :=
  _ ← onlyClearingHouse s sender;
  let growth := getGrowth s token in
  due ← uadd (timestamp growth) (fundingPeriod s);
  _ ← require (due <=? now) "Too early";
  diff ← ssub markPrice indexPrice;
  scaled ← smul diff (to_int256 BASIS_POINTS);
  premium ← sdiv scaled indexPrice;
  prorated ← smul premium (to_int256 (fundingPeriod s));
  rate0 ← sdiv prorated (to_int256 ONE_DAY);
  let cap := to_int256 (maxFundingRate s) in
  let rate1 := if cap <? rate0 then cap else rate0 in
  negCap ← sneg cap;
  let fundingRate := if rate1 <? negCap then negCap else rate1 in
  let signedRate := s256 fundingRate in
  negRate ← sneg fundingRate;
  cumulative ← add (cumulativeFunding growth) signedRate;
  let growth' := mkGrowth signedRate (s256 negRate) now cumulative in
  Ok (mkState (<[token := growth']> (fundingGrowth s)) (traderFundingIndex s)
        (fundingPeriod s) (maxFundingRate s) (clearingHouse s) (admin s),
      signedRate).

Definition settleFunding (s : State) (sender : address)
    (trader token : address) (positionSize : Z) : result (State * S256) :=
  _ ← onlyClearingHouse s sender;
  let growth := getGrowth s token in
  let lastIndex := getIndex s trader token in
  fundingDelta ← sub (cumulativeFunding growth) lastIndex;
  p ← smul positionSize (value fundingDelta);
  q ← sdiv p (to_int256 BASIS_POINTS);
  let fundingOwed := s256 q in
  Ok (mkState (fundingGrowth s)
        (<[(trader, token) := cumulativeFunding growth]> (traderFundingIndex s))
        (fundingPeriod s) (maxFundingRate s) (clearingHouse s) (admin s),
      fundingOwed).

Definition getPendingFunding (s : State) (trader token : address)
    (positionSize : Z) : result S256 :=
  let growth := getGrowth s token in
  let lastIndex := getIndex s trader token in
  fundingDelta ← sub (cumulativeFunding growth) lastIndex;
  p ← smul positionSize (value fundingDelta);
  q ← sdiv p (to_int256 BASIS_POINTS);
  Ok (s256 q).

Definition getFundingRate (s : State) (token : address) : Z * Z :=
  (value (longFundingRate (getGrowth s token)),
   value (shortFundingRate (getGrowth s token))).
Definition getCumulativeFunding (s : State) (token : address) : Z :=
  value (cumulativeFunding (getGrowth s token)).
Definition getLastFundingTime (s : State) (token : address) : Z :=
  timestamp (getGrowth s token).

Definition setFundingPeriod (s : State) (sender : address) (_fundingPeriod : Z)
    : result (State * unit) :=
  _ ← onlyAdmin s sender;
  _ ← require (0 <? _fundingPeriod) "Invalid period";
  Ok (mkState (fundingGrowth s) (traderFundingIndex s) _fundingPeriod
        (maxFundingRate s) (clearingHouse s) (admin s), tt).

Definition setMaxFundingRate (s : State) (sender : address) (_maxFundingRate : Z)
    : result (State * unit) :=
  _ ← onlyAdmin s sender;
  _ ← require (_maxFundingRate <=? BASIS_POINTS) "Rate too high";
  Ok (mkState (fundingGrowth s) (traderFundingIndex s) (fundingPeriod s)
        _maxFundingRate (clearingHouse s) (admin s), tt).

(** The state-changing entry points as requests; the views above do not
    take a state to a new one. *)
Inductive Call :=
| UpdateFundingRate (token : address) (markPrice indexPrice : Z)
    (longOpenInterest shortOpenInterest : Z)
| SettleFunding (trader token : address) (positionSize : Z)
| SetFundingPeriod (_fundingPeriod : Z)
| SetMaxFundingRate (_maxFundingRate : Z).

Definition step (s : State) (sender : address) (now : Z) (c : Call) : State :=
  match c with
  | UpdateFundingRate token mark index loi soi =>
      commit s (updateFundingRate s sender now token mark index loi soi)
  | SettleFunding trader token sz =>
      commit s (settleFunding s sender trader token sz)
  | SetFundingPeriod p => commit s (setFundingPeriod s sender p)
  | SetMaxFundingRate r => commit s (setMaxFundingRate s sender r)
  end.

Fixpoint run (s : State) (calls : list (address * Z * Call)) : State :=
  match calls with
  | [] => s
  | (sender, now, c) :: rest => run (step s sender now c) rest
  end.

End Funding.

(** ** periphery/ExchangeRouter.sol: closing through the router *)

Module ExchangeRouter.
Section Router.

(** The collateral token is an ERC20 contract from outside the repository:
    its state and its [transfer] (token state, sender, recipient, amount)
    are parameters. *)
Context {Token : Type}.
Variable transfer : Token -> address -> address -> Z -> result Token.

Definition BASIS_POINTS : Z := 10000.

(** [self] is the address of the router, the [msg.sender] of the calls it
    makes; the [PositionClosed] event carries no state. *)
Definition closePositionToCollateral (self : address)
    (h : ClearingHouse.State) (tk : Token) (sender : address) (timestamp : Z)
    (token : address) (closeRatio minQuoteAmount deadline : Z)
    : result (ClearingHouse.State * Token * Z) :=
  _ ← require (timestamp <=? deadline) "Deadline exceeded";
  _ ← require ((0 <? closeRatio) && (closeRatio <=? BASIS_POINTS)) "Invalid ratio";
  '(h', realizedPnL) ← ClearingHouse.closePosition h self timestamp token closeRatio;
  let collateralOut := if 0 <? realizedPnL then to_uint256 realizedPnL else 0 in
  _ ← require (minQuoteAmount <=? collateralOut) "Slippage exceeded";
  tk' ← (if 0 <? collateralOut then transfer tk self sender collateralOut
         else Ok tk);
  Ok (h', tk', realizedPnL).

End Router.

Section RouterCollateral.

(** The further calls the router makes on the collateral token, parameters
    like [transfer]: [transferFrom] (token state, caller, owner, recipient,
    amount) and [approve] (token state, caller, spender, amount). *)
Context {Token : Type}.
Variable transfer : Token -> address -> address -> Z -> result Token.
Variable transferFrom : Token -> address -> address -> address -> Z -> result Token.
Variable approve : Token -> address -> address -> Z -> result Token.

(** [house] and [ledgerAccount] are the addresses the router holds for the
    clearing house and the ledger. *)
Definition openPositionWithCollateral (self house : address)
    (h : ClearingHouse.State) (tk : Token) (sender : address) (timestamp : Z)
    (token : address) (isLong : bool)
    (collateralAmount leverage minBaseAmount deadline : Z)
    : result (ClearingHouse.State * Token * Z) :=
  _ ← require (timestamp <=? deadline) "Deadline exceeded";
  _ ← require (0 <? collateralAmount) "Invalid collateral";
  _ ← require ((0 <? leverage) && (leverage <=? 10000)) "Invalid leverage";
  tk1 ← transferFrom tk self sender self collateralAmount;
  tk2 ← approve tk1 self house collateralAmount;
  '(h', baseAmount) ← ClearingHouse.openPosition h self timestamp token isLong
                        collateralAmount leverage minBaseAmount;
  Ok (h', tk2, baseAmount).

Definition addCollateral (self ledgerAccount : address)
    (l : AccountBalance.State) (tk : Token) (sender : address) (amount : Z)
    : result (AccountBalance.State * Token) :=
  _ ← require (0 <? amount) "Invalid amount";
  tk1 ← transferFrom tk self sender ledgerAccount amount;
  '(l', _) ← AccountBalance.deposit l self sender (Decimal.d256 amount);
  Ok (l', tk1).

Definition removeCollateral (self : address)
    (l : AccountBalance.State) (tk : Token) (sender : address) (amount : Z)
    : result (AccountBalance.State * Token) :=
  _ ← require (0 <? amount) "Invalid amount";
  '(l', _) ← AccountBalance.withdraw l self sender (Decimal.d256 amount);
  tk1 ← transfer tk self sender amount;
  Ok (l', tk1).

Definition getMaxPositionSize (collateral leverage : Z) : result Z :=
  p ← umul collateral leverage; udiv p BASIS_POINTS.

End RouterCollateral.
End ExchangeRouter.

(** ** The deployed contracts side by side

    [ClearingHouse.openPosition], [closePosition] and [liquidate] call no
    other contract, and [AccountBalance.withdraw] calls none either: each
    operation changes the state of its own contract and leaves the others
    as they are. *)

Module System.

Record State := mkState {
  house : ClearingHouse.State;
  amm : Vamm.State;
  ledger : AccountBalance.State
}.

Definition openPosition (sys : State) (sender : address) (timestamp : Z)
    (token : address) (isLong : bool)
    (collateralAmount leverage minBaseAmount : Z) : result (State * Z) :=
  '(h, baseAmount) ← ClearingHouse.openPosition (house sys) sender timestamp
                       token isLong collateralAmount leverage minBaseAmount;
  Ok (mkState h (amm sys) (ledger sys), baseAmount).

Definition closePosition (sys : State) (sender : address) (timestamp : Z)
    (token : address) (closeRatio : Z) : result (State * Z) :=
  '(h, pnl) ← ClearingHouse.closePosition (house sys) sender timestamp
                token closeRatio;
  Ok (mkState h (amm sys) (ledger sys), pnl).

Definition withdraw (sys : State) (sender : address) (trader : address)
    (amount : Decimal.D256) : result (State * unit) :=
  '(l, _) ← AccountBalance.withdraw (ledger sys) sender trader amount;
  Ok (mkState (house sys) (amm sys) l, tt).

Definition deposit (sys : State) (sender : address) (trader : address)
    (amount : Decimal.D256) : result (State * unit) :=
  '(l, _) ← AccountBalance.deposit (ledger sys) sender trader amount;
  Ok (mkState (house sys) (amm sys) l, tt).

End System.

(** * Properties *)

(** ** Reasoning about reverting computations *)

Lemma bind_Ok {A B : Type} (m : result A) (f : A -> result B) (b : B) :
  m ≫= f = Ok b -> exists a, m = Ok a /\ f a = Ok b.
Proof. destruct m as [a|e]; simpl; [eauto | discriminate]. Qed.

Lemma require_Ok (c : bool) (msg : string) (u : unit) :
  require c msg = Ok u -> c = true.
Proof. destruct c; simpl; [reflexivity | discriminate]. Qed.

Lemma fits_uint256_spec (x : Z) : fits_uint256 x = true <-> in_uint256 x.
Proof. unfold fits_uint256, in_uint256. rewrite andb_true_iff, !Z.leb_le. tauto. Qed.

Lemma fits_int256_spec (x : Z) : fits_int256 x = true <-> in_int256 x.
Proof. unfold fits_int256, in_int256. rewrite andb_true_iff, !Z.leb_le. tauto. Qed.

Lemma uadd_Ok (a b c : Z) : uadd a b = Ok c -> c = a + b /\ in_uint256 (a + b).
Proof.
  unfold uadd. destruct (fits_uint256 (a + b)) eqn:E; [|discriminate].
  intros [= <-]. split; [reflexivity | now apply fits_uint256_spec].
Qed.

Lemma usub_Ok (a b c : Z) : usub a b = Ok c -> c = a - b /\ in_uint256 (a - b).
Proof.
  unfold usub. destruct (fits_uint256 (a - b)) eqn:E; [|discriminate].
  intros [= <-]. split; [reflexivity | now apply fits_uint256_spec].
Qed.

Lemma umul_Ok (a b c : Z) : umul a b = Ok c -> c = a * b /\ in_uint256 (a * b).
Proof.
  unfold umul. destruct (fits_uint256 (a * b)) eqn:E; [|discriminate].
  intros [= <-]. split; [reflexivity | now apply fits_uint256_spec].
Qed.

Lemma udiv_Ok (a b c : Z) : udiv a b = Ok c -> c = a / b /\ b <> 0.
Proof.
  unfold udiv. destruct (b =? 0) eqn:E; [discriminate|].
  intros [= <-]. split; [reflexivity | now apply Z.eqb_neq].
Qed.

Lemma sadd_Ok (a b c : Z) : sadd a b = Ok c -> c = a + b /\ in_int256 (a + b).
Proof.
  unfold sadd. destruct (fits_int256 (a + b)) eqn:E; [|discriminate].
  intros [= <-]. split; [reflexivity | now apply fits_int256_spec].
Qed.

Lemma ssub_Ok (a b c : Z) : ssub a b = Ok c -> c = a - b /\ in_int256 (a - b).
Proof.
  unfold ssub. destruct (fits_int256 (a - b)) eqn:E; [|discriminate].
  intros [= <-]. split; [reflexivity | now apply fits_int256_spec].
Qed.

Lemma sneg_Ok (a c : Z) : sneg a = Ok c -> c = - a /\ in_int256 (- a).
Proof.
  unfold sneg. destruct (fits_int256 (- a)) eqn:E; [|discriminate].
  intros [= <-]. split; [reflexivity | now apply fits_int256_spec].
Qed.

Lemma uadd_fits (a b : Z) : in_uint256 (a + b) -> uadd a b = Ok (a + b).
Proof. intros H. unfold uadd. now rewrite (proj2 (fits_uint256_spec _) H). Qed.

Lemma usub_fits (a b : Z) : in_uint256 (a - b) -> usub a b = Ok (a - b).
Proof. intros H. unfold usub. now rewrite (proj2 (fits_uint256_spec _) H). Qed.

Lemma umul_fits (a b : Z) : in_uint256 (a * b) -> umul a b = Ok (a * b).
Proof. intros H. unfold umul. now rewrite (proj2 (fits_uint256_spec _) H). Qed.

Lemma udiv_nonzero (a b : Z) : b <> 0 -> udiv a b = Ok (a / b).
Proof. intros H. unfold udiv. now rewrite (proj2 (Z.eqb_neq _ _) H). Qed.

Lemma sadd_fits (a b : Z) : in_int256 (a + b) -> sadd a b = Ok (a + b).
Proof. intros H. unfold sadd. now rewrite (proj2 (fits_int256_spec _) H). Qed.

Lemma ssub_fits (a b : Z) : in_int256 (a - b) -> ssub a b = Ok (a - b).
Proof. intros H. unfold ssub. now rewrite (proj2 (fits_int256_spec _) H). Qed.

Lemma smul_fits (a b : Z) : in_int256 (a * b) -> smul a b = Ok (a * b).
Proof. intros H. unfold smul. now rewrite (proj2 (fits_int256_spec _) H). Qed.

Lemma sneg_fits (a : Z) : in_int256 (- a) -> sneg a = Ok (- a).
Proof. intros H. unfold sneg. now rewrite (proj2 (fits_int256_spec _) H). Qed.

Lemma sdiv_fits (a b : Z) :
  b <> 0 -> in_int256 (Z.quot a b) -> sdiv a b = Ok (Z.quot a b).
Proof.
  intros Hb H. unfold sdiv.
  rewrite (proj2 (Z.eqb_neq _ _) Hb). now rewrite (proj2 (fits_int256_spec _) H).
Qed.

Lemma to_int256_small (u : Z) : u <= MAX_INT256 -> to_int256 u = u.
Proof. intros H. unfold to_int256. now rewrite (proj2 (Z.leb_le _ _) H). Qed.

Lemma to_uint256_small (i : Z) : in_uint256 i -> to_uint256 i = i.
Proof.
  unfold in_uint256, MAX_UINT256, to_uint256. intros H.
  apply Z.mod_small. lia.
Qed.

(** Splits a hypothesis [m ≫= f = Ok b] into the successful steps. *)
Ltac bind_inv H :=
  let a := fresh "v" in
  let Ha := fresh "E" in
  apply bind_Ok in H; destruct H as (a & Ha & H); cbv beta in H.

Tactic Notation "bind_as" hyp(H) ident(a) ident(Ha) :=
  apply bind_Ok in H; destruct H as (a & Ha & H); cbv beta in H.

Ltac binds_inv H :=
  repeat (match type of H with
          | _ ≫= _ = Ok _ => bind_inv H
          end).

(** ** The virtual market maker *)

Section VammProperties.
Import Decimal Vamm.

(** The reading of [base * quote == k] that the constructor establishes:
    the fixed-point product of the reserves is the stored [k]. *)
Definition on_curve (s : Vamm.State) : Prop :=
  mulD (virtualBase s) (virtualQuote s) = Ok (k s).

(** The other reading: the plain product of the two stored integers. *)
Definition raw_on_curve (s : Vamm.State) : Prop :=
  value (virtualBase s) * value (virtualQuote s) = value (k s).

(** What truncating division leaves of it: the 10^36-scaled product of the
    reserves is at most [k * 10^18] and misses it by less than the larger
    reserve. *)
Definition under_curve (s : Vamm.State) : Prop :=
  let b := value (virtualBase s) in
  let q := value (virtualQuote s) in
  b * q <= value (k s) * 10 ^ 18 < b * q + Z.max b q.

Lemma divD_floor (a b c : D256) :
  divD a b = Ok c ->
  0 < value b ->
  value c * value b <= value a * 10 ^ 18 < value c * value b + value b.
Proof.
  unfold divD. intros H Hb. binds_inv H. injection H as <-. simpl.
  apply umul_Ok in E as [-> _]. apply udiv_Ok in E0 as [-> _].
  pose proof (Z.mul_div_le (value a * 10 ^ 18) (value b) Hb).
  pose proof (Z.mul_succ_div_gt (value a * 10 ^ 18) (value b) Hb).
  lia.
Qed.

Lemma add_Ok (a b c : D256) :
  add a b = Ok c -> value c = value a + value b /\ in_uint256 (value c).
Proof.
  unfold add. intros H. binds_inv H. injection H as <-. simpl.
  apply uadd_Ok in E as [-> ?]. auto.
Qed.

Lemma divD_divisor_nonzero (a b c : D256) : divD a b = Ok c -> value b <> 0.
Proof.
  unfold divD. intros H. binds_inv H. now apply udiv_Ok in E0 as [_ ?].
Qed.

(** One successful swap: [k] and the access-control fields are kept, the
    reserve that takes the input grows by the input net of the fee, and
    the other reserve is the truncated quotient of [k] by it. *)
Lemma curve_step (r net r' kk o : D256) :
  add r net = Ok r' ->
  divD kk r' = Ok o ->
  value o * value r' <= value kk * 10 ^ 18 < value o * value r' + value r'.
Proof.
  intros Hadd Hdiv.
  pose proof (divD_divisor_nonzero _ _ _ Hdiv) as Hnz.
  apply add_Ok in Hadd as [_ [Hr _]].
  apply divD_floor; [assumption | lia].
Qed.

Lemma swap_correct (s s' : Vamm.State) (sender : address) (isLong : bool)
    (amountIn minAmountOut out : Z) :
  swap s sender isLong amountIn minAmountOut = Ok (s', out) ->
  k s' = k s /\ clearingHouse s' = clearingHouse s /\
  admin s' = admin s /\ isPaused s' = isPaused s /\ under_curve s'.
Proof.
  unfold swap. intros H.
  do 7 bind_inv H.
  match goal with
  | x : (D256 * D256 * D256)%type |- _ => destruct x as [[newBase newQuote] amountOut]
  end.
  bind_inv H. injection H as <- <-. simpl.
  repeat split; unfold under_curve; simpl;
    destruct isLong;
    match goal with
    | Hb : _ ≫= _ = Ok (newBase, newQuote, amountOut) |- _ =>
        do 3 bind_inv Hb; injection Hb as <- <- <-
    end;
    match goal with
    | Ha : add _ _ = Ok ?r', Hd : divD _ ?r' = Ok _ |- _ =>
        pose proof (curve_step _ _ _ _ _ Ha Hd)
    end; lia.
Qed.

(** The deployment of the test suite: 1000 base against 2,000,000 quote,
    deployed by account 1 for the clearing house at account 2. *)
Definition deployed : Vamm.State :=
  Vamm.mkState (d256 (1000 * 10 ^ 18)) (d256 (2000000 * 10 ^ 18))
    (d256 (2000000000 * 10 ^ 18)) 2%N 1%N false.

Definition after_long_swap : Vamm.State :=
  Vamm.mkState (d256 999501748378433350974) (d256 (2000997 * 10 ^ 18))
    (d256 (2000000000 * 10 ^ 18)) 2%N 1%N false.

Definition long_then_short : list SwapCall :=
  [ mkSwapCall 2%N true (1000 * 10 ^ 18) 0;
    mkSwapCall 2%N false (10 ^ 18) 0 ].

Lemma deployed_by_constructor :
  Vamm.constructor 1%N (d256 (1000 * 10 ^ 18)) (d256 (2000000 * 10 ^ 18)) 2%N
  = Ok deployed.
Proof. vm_compute. reflexivity. Qed.

Lemma deployed_on_curve : on_curve deployed.
Proof. vm_compute. reflexivity. Qed.

(** C1, as amended: along every run of successful swaps, each state the run
    goes through stores the [k] it started with, and its reserves sit on or
    just under the curve: [base * quote <= k * 10^18 < base * quote +
    max base quote].  The run produces one state per request. *)
Theorem C1_swaps_keep_k_under_curve
    (s0 : Vamm.State) (calls : list SwapCall) (tr : list Vamm.State) :
  swap_trace s0 calls = Ok tr ->
  length tr = length calls /\
  Forall (fun s => k s = k s0 /\ under_curve s) tr.
Proof.
  revert s0 tr. induction calls as [|c rest IH]; intros s0 tr H; simpl in H.
  - injection H as <-. split; [reflexivity | constructor].
  - bind_inv H.
    match goal with x : (Vamm.State * Z)%type |- _ => destruct x as [s1 out] end.
    bind_inv H. injection H as <-.
    match goal with
    | Hs : swap _ _ _ _ _ = Ok _ |- _ =>
        destruct (swap_correct _ _ _ _ _ _ _ Hs) as (Hk & _ & _ & _ & Hc)
    end.
    match goal with
    | Ht : swap_trace s1 rest = Ok _ |- _ => destruct (IH _ _ Ht) as [Hlen Hall]
    end.
    split; [simpl; now rewrite Hlen |].
    constructor; [now split |].
    eapply Forall_impl; [exact Hall |]. simpl. intros s [Hks Hcs].
    split; [congruence | assumption].
Qed.

(** A run of two swaps on the test deployment, one in each direction. *)
Lemma C1_swaps_keep_k_under_curve_witness :
  exists tr, swap_trace deployed long_then_short = Ok tr /\
    length tr = length long_then_short /\
    Forall (fun s => k s = k deployed /\ under_curve s) tr.
Proof.
  eexists. split; [vm_compute; reflexivity |].
  eapply (C1_swaps_keep_k_under_curve deployed long_then_short).
  vm_compute. reflexivity.
Defined.

(** C1 as stated fails on the spec's own scenario: a long swap of 1000 quote
    on the test deployment succeeds, keeps [k], and leaves reserves whose
    product is not [k], in the fixed-point reading and in the plain one. *)
Lemma C1_counterexample :
  on_curve deployed /\
  swap deployed 2%N true (1000 * 10 ^ 18) 0
    = Ok (after_long_swap, 498251621566649026) /\
  k after_long_swap = k deployed /\
  ~ on_curve after_long_swap /\
  ~ raw_on_curve after_long_swap.
Proof.
  split; [exact deployed_on_curve |].
  split; [vm_compute; reflexivity |].
  split; [reflexivity |].
  split; intros H; vm_compute in H; discriminate H.
Qed.

(** C10: a zero input is quoted as zero output in every state and
    direction, while a swap of zero reverts for every caller, with the
    message of the first guard that stops it, and the state stays as it
    was. *)
Theorem C10_zero_input_quote_and_swap_disagree
    (s : Vamm.State) (sender : address) (isLong : bool) (minAmountOut : Z) :
  getAmountOut s isLong 0 = Ok 0 /\
  swap s sender isLong 0 minAmountOut
    = Revert (RequireFailed
        (if bool_decide (sender = clearingHouse s)
         then if isPaused s then "Trading paused" else "Amount must be positive"
         else "Only ClearingHouse")) /\
  commit s (swap s sender isLong 0 minAmountOut) = s.
Proof.
  assert (Hswap : swap s sender isLong 0 minAmountOut
    = Revert (RequireFailed
        (if bool_decide (sender = clearingHouse s)
         then if isPaused s then "Trading paused" else "Amount must be positive"
         else "Only ClearingHouse"))).
  { unfold swap, onlyClearingHouse, whenNotPaused.
    destruct (bool_decide (sender = clearingHouse s)); simpl; [|reflexivity].
    destruct (isPaused s); reflexivity. }
  split; [reflexivity |]. split; [exact Hswap |].
  rewrite Hswap. reflexivity.
Qed.

End VammProperties.

(** ** The clearing house *)

Section ClearingHouseProperties.
Import ClearingHouse.

Lemma getPos_setPos (s : State) (trader token : address) (p : Position) :
  getPos (setPos s trader token p) trader token = p.
Proof. unfold getPos, setPos. simpl. now rewrite lookup_insert_eq. Qed.

Lemma getPos_deletePos (s : State) (trader token : address) :
  getPos (deletePos s trader token) trader token = noPosition.
Proof. unfold getPos, deletePos. simpl. now rewrite lookup_delete_eq. Qed.

Lemma getPos_emit (s : State) (e : Event) (trader token : address) :
  getPos (emit s e) trader token = getPos s trader token.
Proof. reflexivity. Qed.

Lemma notional_fits_int256 (a b : Z) :
  in_uint256 (a * b) -> 0 <= a * b / 10000 <= MAX_INT256.
Proof.
  unfold in_uint256. intros [Hlo Hhi]. split.
  - apply Z.div_pos; lia.
  - transitivity (MAX_UINT256 / 10000).
    + apply Z.div_le_mono; lia.
    + vm_compute. discriminate.
Qed.

(** What a successful [openPosition] does: the notional is
    [collateralAmount * leverage / 10000], the base amount returned is that
    same number, and the caller's position takes the signed size, the
    collateral and the notional; a position of size zero is overwritten,
    any other is added to. *)
Lemma openPosition_correct (s s' : State) (sender : address) (timestamp : Z)
    (token : address) (isLong : bool) (coll lev minOut out : Z) :
  openPosition s sender timestamp token isLong coll lev minOut = Ok (s', out) ->
  let old := getPos s sender token in
  let new := getPos s' sender token in
  isActive (getMarket s token) = true /\
  lev <= maxLeverage (getMarket s token) /\
  minOut <= out /\
  out = coll * lev / 10000 /\
  size new = size old + (if isLong then out else - out) /\
  collateral new = (if size old =? 0 then coll else collateral old + coll) /\
  openNotional new = (if size old =? 0 then out else openNotional old + out) /\
  events s' = PositionChanged sender token (if isLong then out else - out) out 0 0
                :: events s.
Proof.
  unfold openPosition. intros H.
  bind_as H u1 Hactive. apply require_Ok in Hactive.
  bind_as H u2 Hlev. apply require_Ok in Hlev. apply Z.leb_le in Hlev.
  bind_as H scaled Hscaled. apply umul_Ok in Hscaled as [-> Hfit].
  bind_as H notional Hnotional. apply udiv_Ok in Hnotional as [-> _].
  bind_as H u3 Hslip. apply require_Ok in Hslip. apply Z.leb_le in Hslip.
  unfold BASIS_POINTS in *.
  pose proof (notional_fits_int256 _ _ Hfit) as [Hlo Hhi].
  rewrite (to_int256_small _ Hhi) in H.
  bind_as H newSize HnewSize. bind_as H pos' Hpos'.
  injection H as <- <-.
  rewrite getPos_emit, getPos_setPos. simpl.
  assert (Hsize : newSize
                  = if isLong then coll * lev / 10000 else - (coll * lev / 10000)).
  { destruct isLong; [now injection HnewSize | now apply sneg_Ok in HnewSize as [-> _]]. }
  subst newSize.
  repeat split; try assumption.
  - destruct (size (getPos s sender token) =? 0) eqn:Hz.
    + apply Z.eqb_eq in Hz. rewrite Hz. do 2 bind_inv Hpos'. now injection Hpos' as <-.
    + do 7 bind_inv Hpos'. injection Hpos' as <-. simpl.
      match goal with Hs : sadd _ _ = Ok _ |- _ => now apply sadd_Ok in Hs as [-> _] end.
  - destruct (size (getPos s sender token) =? 0) eqn:Hz.
    + do 2 bind_inv Hpos'. now injection Hpos' as <-.
    + do 7 bind_inv Hpos'. injection Hpos' as <-. simpl.
      match goal with
      | Hs : uadd (collateral _) _ = Ok _ |- _ => now apply uadd_Ok in Hs as [-> _]
      end.
  - destruct (size (getPos s sender token) =? 0) eqn:Hz.
    + do 2 bind_inv Hpos'. now injection Hpos' as <-.
    + do 7 bind_inv Hpos'. injection Hpos' as <-. simpl.
      match goal with
      | Hs : uadd (openNotional _) _ = Ok _ |- _ => now apply uadd_Ok in Hs as [-> _]
      end.
Qed.

Lemma close_fraction_fits_int256 (a b : Z) :
  in_uint256 (a * b) -> a * b / 10000 <= MAX_INT256.
Proof. intros H. now apply notional_fits_int256. Qed.

(** What a successful [closePosition] does.  The realized PnL is the
    difference of two notionals computed from the same size and the same
    stored entry price, hence zero.  A close at 10000 removes the record; any
    smaller ratio keeps it, scales collateral and notional by
    [(10000 - closeRatio) / 10000] and moves the size toward zero by
    [|size| * closeRatio / 10000]. *)
Lemma closePosition_correct (s s' : State) (sender : address) (timestamp : Z)
    (token : address) (closeRatio pnl : Z) :
  closePosition s sender timestamp token closeRatio = Ok (s', pnl) ->
  let old := getPos s sender token in
  let new := getPos s' sender token in
  size old <> 0 /\
  closeRatio <= 10000 /\
  pnl = 0 /\
  (exists exchanged notional,
     events s' = PositionChanged sender token exchanged notional 0 pnl :: events s) /\
  (if closeRatio =? 10000 then
     positions s' !! (sender, token) = None /\ new = noPosition
   else
     exists posSize,
       absSize (size old) = Ok posSize /\
       size new = (if 0 <? size old
                   then size old - posSize * closeRatio / 10000
                   else size old + posSize * closeRatio / 10000) /\
       collateral new = collateral old * (10000 - closeRatio) / 10000 /\
       openNotional new = openNotional old * (10000 - closeRatio) / 10000 /\
       entryPrice new = entryPrice old /\
       lastUpdated new = timestamp).
Proof.
  unfold closePosition, BASIS_POINTS. intros H.
  bind_as H u1 Hsome. apply require_Ok in Hsome.
  apply negb_true_iff, Z.eqb_neq in Hsome.
  bind_as H u2 Hratio. apply require_Ok in Hratio. apply Z.leb_le in Hratio.
  bind_as H posSize HposSize.
  bind_as H scaled Hscaled. apply umul_Ok in Hscaled as [-> Hfit].
  bind_as H closeSize HcloseSize. apply udiv_Ok in HcloseSize as [-> _].
  bind_as H cn Hcn. bind_as H closeNotional HcloseNotional.
  bind_as H cur Hcur. bind_as H currentNotional HcurrentNotional.
  assert (currentNotional = closeNotional) as -> by congruence.
  bind_as H pnl' Hpnl. bind_as H s1 Hs1. bind_as H exchanged Hexchanged.
  injection H as <- <-.
  assert (Hzero : pnl' = 0).
  { destruct (0 <? size (getPos s sender token));
      apply ssub_Ok in Hpnl as [-> _]; lia. }
  split; [assumption |]. split; [assumption |]. split; [assumption |].
  assert (Hev : events s1 = events s).
  { destruct (closeRatio =? 10000); [now injection Hs1 as <- |].
    do 7 bind_inv Hs1. now injection Hs1 as <-. }
  split; [do 2 eexists; simpl; now rewrite Hev |].
  rewrite getPos_emit. simpl.
  destruct (closeRatio =? 10000) eqn:Hfull.
  - injection Hs1 as <-. split.
    + simpl. apply lookup_delete_eq.
    + apply getPos_deletePos.
  - rewrite (to_int256_small _ (close_fraction_fits_int256 _ _ Hfit)) in Hs1.
    bind_as Hs1 size' Hsize'.
    bind_as Hs1 keep Hkeep. apply usub_Ok in Hkeep as [-> _].
    bind_as Hs1 c Hc. apply umul_Ok in Hc as [-> _].
    bind_as Hs1 coll' Hcoll'. apply udiv_Ok in Hcoll' as [-> _].
    bind_as Hs1 keep' Hkeep'. apply usub_Ok in Hkeep' as [-> _].
    bind_as Hs1 o Ho. apply umul_Ok in Ho as [-> _].
    bind_as Hs1 notional' Hnotional'. apply udiv_Ok in Hnotional' as [-> _].
    injection Hs1 as <-. rewrite getPos_setPos. simpl.
    exists posSize. split; [exact HposSize |].
    split; [| repeat split].
    destruct (0 <? size (getPos s sender token)).
    + now apply ssub_Ok in Hsize' as [-> _].
    + now apply sadd_Ok in Hsize' as [-> _].
Qed.

Lemma absSize_abs (sz : Z) :
  Z.abs sz <= MAX_INT256 -> sz <> 0 -> absSize sz = Ok (Z.abs sz).
Proof.
  unfold absSize, MAX_INT256. intros Hr Hnz.
  destruct (0 <? sz) eqn:Hpos.
  - apply Z.ltb_lt in Hpos. rewrite to_uint256_small.
    + now rewrite Z.abs_eq by lia.
    + unfold in_uint256, MAX_UINT256. lia.
  - apply Z.ltb_ge in Hpos. rewrite sneg_fits.
    + simpl. rewrite to_uint256_small.
      * now rewrite Z.abs_neq by lia.
      * unfold in_uint256, MAX_UINT256. lia.
    + unfold in_int256, MIN_INT256, MAX_INT256. lia.
Qed.

(** A full close succeeds on every existing position whose size times
    10000 and whose size times entry price fit [uint256]: it deletes the
    record and returns a PnL of zero. *)
Lemma closePosition_full_succeeds (s : State) (sender : address) (timestamp : Z)
    (token : address) :
  let pos := getPos s sender token in
  size pos <> 0 ->
  in_uint256 (Z.abs (size pos) * 10000) ->
  in_uint256 (Z.abs (size pos) * entryPrice pos) ->
  closePosition s sender timestamp token 10000
  = Ok (emit (deletePos s sender token)
          (PositionChanged sender token (- Z.abs (size pos))
             (Z.abs (size pos) * entryPrice pos / 10 ^ 18) 0 0),
        0).
Proof.
  intros pos Hnz Hscaled Hnotional. unfold closePosition, BASIS_POINTS.
  fold pos. rewrite (proj2 (Z.eqb_neq _ _) Hnz). simpl.
  assert (Habs : 0 < Z.abs (size pos) <= MAX_INT256).
  { unfold in_uint256, MAX_UINT256, MAX_INT256 in *. lia. }
  rewrite absSize_abs; [| lia | assumption].
  simpl. rewrite (umul_fits _ _ Hscaled). simpl.
  rewrite Z.div_mul by lia.
  rewrite (umul_fits _ _ Hnotional). simpl.
  assert (Hcn : Z.abs (size pos) * entryPrice pos / 10 ^ 18 <= MAX_INT256).
  { transitivity (MAX_UINT256 / 10 ^ 18).
    - apply Z.div_le_mono; [lia | apply Hnotional].
    - vm_compute. discriminate. }
  assert (Hcn0 : 0 <= Z.abs (size pos) * entryPrice pos / 10 ^ 18).
  { apply Z.div_pos; [apply Hnotional | lia]. }
  rewrite (to_int256_small _ Hcn).
  rewrite (to_int256_small (Z.abs (size pos))) by lia.
  assert (Hpnl : (if 0 <? size pos
                  then ssub (Z.abs (size pos) * entryPrice pos / 10 ^ 18)
                         (Z.abs (size pos) * entryPrice pos / 10 ^ 18)
                  else ssub (Z.abs (size pos) * entryPrice pos / 10 ^ 18)
                         (Z.abs (size pos) * entryPrice pos / 10 ^ 18))
                 = Ok 0).
  { destruct (0 <? size pos); rewrite ssub_fits;
      try (f_equal; lia);
      unfold in_int256, MIN_INT256, MAX_INT256; lia. }
  rewrite Hpnl. simpl.
  rewrite sneg_fits by (unfold in_int256, MIN_INT256, MAX_INT256 in *; lia).
  reflexivity.
Qed.

(** The two guards of [closePosition], in the order the code applies them. *)
Lemma closePosition_no_position (s : State) (sender : address) (timestamp : Z)
    (token : address) (closeRatio : Z) :
  size (getPos s sender token) = 0 ->
  closePosition s sender timestamp token closeRatio
  = Revert (RequireFailed "No position").
Proof. intros Hz. unfold closePosition. rewrite Hz. reflexivity. Qed.

Lemma closePosition_invalid_ratio (s : State) (sender : address) (timestamp : Z)
    (token : address) (closeRatio : Z) :
  size (getPos s sender token) <> 0 ->
  10000 < closeRatio ->
  closePosition s sender timestamp token closeRatio
  = Revert (RequireFailed "Invalid ratio").
Proof.
  intros Hnz Hr. unfold closePosition, BASIS_POINTS.
  apply Z.eqb_neq in Hnz. rewrite Hnz. simpl.
  apply Z.leb_gt in Hr. rewrite Hr. reflexivity.
Qed.

(** [marginRatio] can only fail by a panic. *)
Lemma marginRatio_revert (pos : Position) (e : Error) :
  marginRatio pos = Revert e -> exists c, e = Panic c.
Proof.
  unfold marginRatio, absSize, sneg, umul, udiv.
  repeat (match goal with
          | |- context [if ?c then _ else _] => destruct c
          end; simpl);
    intros [= <-]; eauto.
Qed.

(** [liquidate] answers "Not liquidatable" exactly for an existing position
    whose margin ratio is at or above the market's maintenance ratio. *)
Lemma liquidate_not_liquidatable_iff (s : State) (sender trader token : address) :
  liquidate s sender trader token = Revert (RequireFailed "Not liquidatable")
  <-> size (getPos s trader token) <> 0 /\
      exists posValue ratio,
        marginRatio (getPos s trader token) = Ok (posValue, ratio) /\
        maintenanceMarginRatio (getMarket s token) <= ratio.
Proof.
  unfold liquidate.
  destruct (size (getPos s trader token) =? 0) eqn:Hz; simpl.
  - apply Z.eqb_eq in Hz. split; [discriminate | tauto].
  - apply Z.eqb_neq in Hz.
    destruct (marginRatio (getPos s trader token)) as [[posValue ratio]|e] eqn:Hm;
      simpl.
    + destruct (ratio <? maintenanceMarginRatio (getMarket s token)) eqn:Hlt; simpl.
      * apply Z.ltb_lt in Hlt. split.
        -- unfold umul, udiv.
           repeat (match goal with
                   | |- context [if ?c then _ else _] => destruct c
                   end; simpl); discriminate.
        -- intros (_ & pv & r & [= <- <-] & Hge). lia.
      * apply Z.ltb_ge in Hlt. split; [|reflexivity].
        intros _. split; [assumption | eauto].
    + split.
      * intros [= ->]. apply marginRatio_revert in Hm as [c Hc]. discriminate.
      * intros (_ & pv & r & Hok & _). discriminate.
Qed.

(** *** A deployment to evaluate the contracts on

    The set-up of the test suite: account 1 deploys, the clearing house is
    account 2, the market is keyed by account 3 with a maximum leverage of
    10000, and the trader is account 7. *)

Definition deployer : address := 1%N.
Definition houseAccount : address := 2%N.
Definition marketToken : address := 3%N.
Definition trader : address := 7%N.

Definition emptyHouse : ClearingHouse.State :=
  ClearingHouse.constructor deployer 0%N 5%N 6%N 0%N.

Definition house0 : ClearingHouse.State :=
  commit emptyHouse (addMarket emptyHouse deployer marketToken marketToken 10000).

Definition emptyLedger : AccountBalance.State :=
  AccountBalance.constructor houseAccount 0%N.

(** The trader's ledger balance is 100 units. *)
Definition ledger0 : AccountBalance.State :=
  commit emptyLedger
    (AccountBalance.deposit emptyLedger houseAccount trader
       (Decimal.d256 (100 * 10 ^ 18))).

Definition sys0 : System.State := System.mkState house0 deployed ledger0.

(** The trader has opened a long position with 100 units at leverage 1000. *)
Definition sys1 : System.State :=
  commit sys0
    (System.openPosition sys0 trader 1000 marketToken true (100 * 10 ^ 18) 1000 0).

(** The test "Should open and then close a position" of the test suite. *)
Example test_open_then_close :
  System.openPosition sys0 trader 1000 marketToken true (100 * 10 ^ 18) 1000 0
    = Ok (sys1, 10 * 10 ^ 18) /\
  getPosition (System.house sys1) trader marketToken
    = (10 * 10 ^ 18, 100 * 10 ^ 18, 10 ^ 18, 10 * 10 ^ 18) /\
  getPosition
    (System.house (commit sys1 (System.closePosition sys1 trader 1001 marketToken 10000)))
    trader marketToken = (0, 0, 0, 0).
Proof. vm_compute. auto. Qed.

(** The test "Should revert when leverage exceeds max". *)
Example test_leverage_too_high :
  System.openPosition sys0 trader 1000 marketToken true (10 * 10 ^ 18) 10001 0
    = Revert (RequireFailed "Leverage too high").
Proof. vm_compute. reflexivity. Qed.

(** C2, as amended: a successful [openPosition] needs an active market and
    a leverage of at most the market's maximum; its notional is
    [collateralAmount * leverage / 10000]; the size it returns is that
    notional itself, one to one, and the market maker is not called, so its
    reserves stay as they were; the collateral is written into the position
    and the ledger balances stay as they were. *)
Theorem C2_openPosition_notional_one_to_one
    (sys sys' : System.State) (sender : address) (timestamp : Z)
    (token : address) (isLong : bool) (coll lev minOut out : Z) :
  System.openPosition sys sender timestamp token isLong coll lev minOut
    = Ok (sys', out) ->
  let old := getPos (System.house sys) sender token in
  let new := getPos (System.house sys') sender token in
  isActive (getMarket (System.house sys) token) = true /\
  lev <= maxLeverage (getMarket (System.house sys) token) /\
  minOut <= out /\
  out = coll * lev / 10000 /\
  size new = size old + (if isLong then out else - out) /\
  openNotional new = (if size old =? 0 then out else openNotional old + out) /\
  collateral new = (if size old =? 0 then coll else collateral old + coll) /\
  System.amm sys' = System.amm sys /\
  System.ledger sys' = System.ledger sys.
Proof.
  unfold System.openPosition. intros H.
  bind_as H r Hopen. destruct r as [h out']. injection H as <- <-.
  destruct (openPosition_correct _ _ _ _ _ _ _ _ _ _ Hopen)
    as (Hact & Hlev & Hmin & Hout & Hsize & Hcoll & Hnot & _).
  simpl. repeat split; assumption.
Qed.

Lemma C2_openPosition_notional_one_to_one_witness :
  let old := getPos (System.house sys0) trader marketToken in
  let new := getPos (System.house sys1) trader marketToken in
  isActive (getMarket (System.house sys0) marketToken) = true /\
  1000 <= maxLeverage (getMarket (System.house sys0) marketToken) /\
  0 <= 10 * 10 ^ 18 /\
  10 * 10 ^ 18 = 100 * 10 ^ 18 * 1000 / 10000 /\
  size new = size old + (if true then 10 * 10 ^ 18 else - (10 * 10 ^ 18)) /\
  openNotional new = (if size old =? 0 then 10 * 10 ^ 18
                      else openNotional old + 10 * 10 ^ 18) /\
  collateral new = (if size old =? 0 then 100 * 10 ^ 18
                    else collateral old + 100 * 10 ^ 18) /\
  System.amm sys1 = System.amm sys0 /\
  System.ledger sys1 = System.ledger sys0.
Proof.
  apply (C2_openPosition_notional_one_to_one sys0 sys1 trader 1000 marketToken
           true (100 * 10 ^ 18) 1000 0 (10 * 10 ^ 18)).
  vm_compute. reflexivity.
Defined.

(** C2 as stated fails on the test deployment: the position opened with 100
    units at leverage 1000 has size 10 units, while the market maker quotes
    and swaps 10 units of notional into 0.00498... units of base; and the
    trader's ledger balance is 100 units before and after. *)
Lemma C2_counterexample :
  System.openPosition sys0 trader 1000 marketToken true (100 * 10 ^ 18) 1000 0
    = Ok (sys1, 10 * 10 ^ 18) /\
  (exists a, Vamm.swap (System.amm sys0) houseAccount true (10 * 10 ^ 18) 0
             = Ok (a, 4984975149898878)) /\
  10 * 10 ^ 18 <> 4984975149898878 /\
  AccountBalance.getCollateral (System.ledger sys0) trader = 100 * 10 ^ 18 /\
  AccountBalance.getCollateral (System.ledger sys1) trader
    <> 100 * 10 ^ 18 - 100 * 10 ^ 18.
Proof.
  split; [vm_compute; reflexivity |].
  split; [eexists; vm_compute; reflexivity |].
  split; [vm_compute; discriminate |].
  split; [vm_compute; reflexivity | vm_compute; discriminate].
Qed.

(** C3, as amended: a successful [closePosition] at ratio 10000 deletes the
    caller's position record, so that every field, the size first, reads
    zero; at a smaller ratio the collateral and the notional of the
    position are scaled by [(10000 - closeRatio) / 10000], rounded down.  In
    both cases the ledger balances stay as they were: no collateral moves
    to the free balance. *)
Theorem C3_closePosition_deletes_or_scales
    (sys sys' : System.State) (sender : address) (timestamp : Z)
    (token : address) (closeRatio pnl : Z) :
  System.closePosition sys sender timestamp token closeRatio = Ok (sys', pnl) ->
  let old := getPos (System.house sys) sender token in
  let new := getPos (System.house sys') sender token in
  size old <> 0 /\
  System.ledger sys' = System.ledger sys /\
  (if closeRatio =? 10000 then
     positions (System.house sys') !! (sender, token) = None /\
     new = noPosition /\ size new = 0
   else
     collateral new = collateral old * (10000 - closeRatio) / 10000 /\
     openNotional new = openNotional old * (10000 - closeRatio) / 10000).
Proof.
  unfold System.closePosition. intros H.
  bind_as H r Hclose. destruct r as [h pnl']. injection H as <- <-.
  destruct (closePosition_correct _ _ _ _ _ _ _ Hclose)
    as (Hsize & _ & _ & _ & Hcase).
  simpl. split; [assumption |]. split; [reflexivity |].
  destruct (closeRatio =? 10000).
  - destruct Hcase as [Hnone Hzero]. rewrite Hzero. auto.
  - destruct Hcase as (posSize & _ & _ & Hcoll & Hnot & _). auto.
Qed.

(** The position of [sys1] closed in full, and closed by a quarter. *)
Definition sys1_closed : System.State :=
  commit sys1 (System.closePosition sys1 trader 1001 marketToken 10000).
Definition sys1_reduced : System.State :=
  commit sys1 (System.closePosition sys1 trader 1001 marketToken 2500).

Lemma C3_closePosition_deletes_or_scales_witness :
  (let old := getPos (System.house sys1) trader marketToken in
   let new := getPos (System.house sys1_closed) trader marketToken in
   size old <> 0 /\
   System.ledger sys1_closed = System.ledger sys1 /\
   (if 10000 =? 10000 then
      positions (System.house sys1_closed) !! (trader, marketToken) = None /\
      new = noPosition /\ size new = 0
    else
      collateral new = collateral old * (10000 - 10000) / 10000 /\
      openNotional new = openNotional old * (10000 - 10000) / 10000)) /\
  (let old := getPos (System.house sys1) trader marketToken in
   let new := getPos (System.house sys1_reduced) trader marketToken in
   size old <> 0 /\
   System.ledger sys1_reduced = System.ledger sys1 /\
   (if 2500 =? 10000 then
      positions (System.house sys1_reduced) !! (trader, marketToken) = None /\
      new = noPosition /\ size new = 0
    else
      collateral new = collateral old * (10000 - 2500) / 10000 /\
      openNotional new = openNotional old * (10000 - 2500) / 10000)).
Proof.
  split.
  - apply (C3_closePosition_deletes_or_scales sys1 sys1_closed trader 1001
             marketToken 10000 0).
    vm_compute. reflexivity.
  - apply (C3_closePosition_deletes_or_scales sys1 sys1_reduced trader 1001
             marketToken 2500 0).
    vm_compute. reflexivity.
Defined.

(** C3 as stated fails on the test deployment: the full close of the
    position of [sys1], which holds 100 units of collateral, succeeds and
    leaves the trader's free balance at the 100 units it was, not at 200. *)
Lemma C3_counterexample :
  collateral (getPos (System.house sys1) trader marketToken) = 100 * 10 ^ 18 /\
  AccountBalance.getCollateral (System.ledger sys1) trader = 100 * 10 ^ 18 /\
  System.closePosition sys1 trader 1001 marketToken 10000 = Ok (sys1_closed, 0) /\
  AccountBalance.getCollateral (System.ledger sys1_closed) trader
    <> 100 * 10 ^ 18 + 100 * 10 ^ 18.
Proof.
  split; [vm_compute; reflexivity |]. split; [vm_compute; reflexivity |].
  split; [vm_compute; reflexivity | vm_compute; discriminate].
Qed.

(** A position opened where the caller held none: the record stored and
    the event logged, exactly.  The entry price is [out * 10^18 / out], one
    unit of quote per unit of base. *)
Lemma openPosition_fresh (s s1 : State) (sender : address) (timestamp : Z)
    (token : address) (isLong : bool) (coll lev minOut out : Z) :
  size (getPos s sender token) = 0 ->
  openPosition s sender timestamp token isLong coll lev minOut = Ok (s1, out) ->
  0 < out <= MAX_INT256 /\
  out = coll * lev / 10000 /\
  s1 = emit (setPos s sender token
               (mkPosition (if isLong then out else - out) coll (10 ^ 18)
                  (fundingIndex (getPos s sender token)) timestamp out))
         (PositionChanged sender token (if isLong then out else - out) out 0 0).
Proof.
  intros Hfresh H. unfold openPosition, BASIS_POINTS in H.
  bind_as H u1 Hactive. bind_as H u2 Hlev.
  bind_as H scaled Hscaled. apply umul_Ok in Hscaled as [-> Hfit].
  bind_as H notional Hnotional. apply udiv_Ok in Hnotional as [-> _].
  bind_as H u3 Hslip.
  pose proof (notional_fits_int256 _ _ Hfit) as [Hlo Hhi].
  rewrite (to_int256_small _ Hhi) in H.
  bind_as H newSize HnewSize. bind_as H pos' Hpos'.
  injection H as <- <-.
  rewrite Hfresh in Hpos'. change (0 =? 0) with true in Hpos'. cbv iota in Hpos'.
  bind_as Hpos' n Hn. apply umul_Ok in Hn as [-> _].
  bind_as Hpos' price Hprice. apply udiv_Ok in Hprice as [-> Hnz].
  injection Hpos' as <-. cbn [size collateral entryPrice fundingIndex openNotional].
  assert (Hsize : newSize
                  = if isLong then coll * lev / 10000 else - (coll * lev / 10000)).
  { destruct isLong; [now injection HnewSize | now apply sneg_Ok in HnewSize as [-> _]]. }
  subst newSize.
  rewrite (Z.mul_comm _ (10 ^ 18)), Z.div_mul by assumption.
  split; [lia |]. split; reflexivity.
Qed.

(** A successful close at ratio 10000, exactly: the record is deleted and
    the event carries the whole size, its notional at the stored entry
    price, a fee of zero and a PnL of zero. *)
Lemma closePosition_full_inv (s s2 : State) (sender : address) (timestamp : Z)
    (token : address) (pnl : Z) :
  Z.abs (size (getPos s sender token)) <= MAX_INT256 ->
  closePosition s sender timestamp token 10000 = Ok (s2, pnl) ->
  pnl = 0 /\
  s2 = emit (deletePos s sender token)
         (PositionChanged sender token
            (- Z.abs (size (getPos s sender token)))
            (Z.abs (size (getPos s sender token))
             * entryPrice (getPos s sender token) / 10 ^ 18) 0 0).
Proof.
  intros Habs H. unfold closePosition, BASIS_POINTS in H.
  bind_as H u1 Hsome. apply require_Ok in Hsome.
  apply negb_true_iff, Z.eqb_neq in Hsome.
  bind_as H u2 Hratio.
  bind_as H posSize HposSize.
  rewrite (absSize_abs _ Habs Hsome) in HposSize. injection HposSize as <-.
  bind_as H scaled Hscaled. apply umul_Ok in Hscaled as [-> Hfit].
  bind_as H closeSize HcloseSize. apply udiv_Ok in HcloseSize as [-> _].
  rewrite Z.div_mul in H by lia.
  bind_as H cn Hcn. apply umul_Ok in Hcn as [-> _].
  bind_as H closeNotional HcloseNotional.
  apply udiv_Ok in HcloseNotional as [-> _].
  bind_as H cur Hcur. apply umul_Ok in Hcur as [-> _].
  bind_as H currentNotional HcurrentNotional.
  apply udiv_Ok in HcurrentNotional as [-> _].
  bind_as H pnl' Hpnl. bind_as H s1 Hs1. bind_as H exchanged Hexchanged.
  injection H as <- <-.
  change (10000 =? 10000) with true in Hs1. injection Hs1 as <-.
  rewrite (to_int256_small _ Habs) in Hexchanged.
  apply sneg_Ok in Hexchanged as [-> _].
  assert (Hzero : pnl' = 0).
  { destruct (0 <? size (getPos s sender token));
      apply ssub_Ok in Hpnl as [-> _]; lia. }
  subst pnl'. split; reflexivity.
Qed.

(** C5, as amended: a trader who holds no position on a market opens one
    and later closes it in full.  Whatever the reserves of the market maker
    are at the close and whatever time has passed, the realized PnL is
    exactly zero and no trading fee is charged on either leg: the fee of
    both [PositionChanged] events is zero, the close event gives back
    exactly the size and the notional [collateral * leverage / 10000] of the
    open, the record is deleted, and neither the market maker nor the ledger
    is touched by the clearing house. *)
Theorem C5_round_trip_realizes_zero
    (sys sys1 sys2 : System.State) (amm' : Vamm.State) (sender : address)
    (tOpen tClose : Z) (token : address) (isLong : bool)
    (coll lev minOut out pnl : Z) :
  size (getPos (System.house sys) sender token) = 0 ->
  System.openPosition sys sender tOpen token isLong coll lev minOut
    = Ok (sys1, out) ->
  System.closePosition
    (System.mkState (System.house sys1) amm' (System.ledger sys1))
    sender tClose token 10000 = Ok (sys2, pnl) ->
  pnl = 0 /\
  out = coll * lev / 10000 /\
  0 < out /\
  events (System.house sys2)
    = PositionChanged sender token (- out) out 0 0
        :: PositionChanged sender token (if isLong then out else - out) out 0 0
        :: events (System.house sys) /\
  positions (System.house sys2)
    = delete (sender, token) (positions (System.house sys)) /\
  markets (System.house sys2) = markets (System.house sys) /\
  System.amm sys1 = System.amm sys /\
  System.amm sys2 = amm' /\
  System.ledger sys2 = System.ledger sys.
Proof.
  intros Hfresh Hopen Hclose.
  unfold System.openPosition in Hopen.
  bind_as Hopen r1 Hopen1. destruct r1 as [h1 out1]. injection Hopen as <- <-.
  unfold System.closePosition in Hclose. cbn [System.house System.amm System.ledger] in Hclose.
  bind_as Hclose r2 Hclose1. destruct r2 as [h2 pnl2]. injection Hclose as <- <-.
  destruct (openPosition_fresh _ _ _ _ _ _ _ _ _ _ Hfresh Hopen1)
    as (Hout & Houtval & Hh1).
  assert (Hpos1 : getPos h1 sender token
                  = mkPosition (if isLong then out1 else - out1) coll (10 ^ 18)
                      (fundingIndex (getPos (System.house sys) sender token))
                      tOpen out1).
  { rewrite Hh1. now rewrite getPos_emit, getPos_setPos. }
  assert (Habs : Z.abs (size (getPos h1 sender token)) = out1).
  { rewrite Hpos1. cbn [size]. destruct isLong; lia. }
  destruct (closePosition_full_inv h1 h2 sender tClose token pnl2
              ltac:(rewrite Habs; lia) Hclose1) as (Hpnl & Hh2).
  rewrite Habs in Hh2. rewrite Hpos1 in Hh2. cbn [entryPrice] in Hh2.
  rewrite Z.div_mul in Hh2 by lia.
  cbn [System.house System.amm System.ledger].
  split; [exact Hpnl |]. split; [exact Houtval |]. split; [lia |].
  rewrite Hh2, Hh1. cbn [events positions markets emit deletePos setPos].
  split; [reflexivity |].
  split; [apply delete_insert_eq |].
  repeat split.
Qed.

(** The position of [sys1] closed in full thirty days later, after a swap
    of another trader has moved the reserves of the market maker. *)
Definition sys1_moved : System.State :=
  System.mkState (System.house sys1) after_long_swap (System.ledger sys1).
Definition sys1_moved_closed : System.State :=
  commit sys1_moved
    (System.closePosition sys1_moved trader 2593000 marketToken 10000).

Lemma C5_round_trip_realizes_zero_witness :
  0 = 0 /\
  10 * 10 ^ 18 = 100 * 10 ^ 18 * 1000 / 10000 /\
  0 < 10 * 10 ^ 18 /\
  events (System.house sys1_moved_closed)
    = PositionChanged trader marketToken (- (10 * 10 ^ 18)) (10 * 10 ^ 18) 0 0
        :: PositionChanged trader marketToken
             (if true then 10 * 10 ^ 18 else - (10 * 10 ^ 18)) (10 * 10 ^ 18) 0 0
        :: events (System.house sys0) /\
  positions (System.house sys1_moved_closed)
    = delete (trader, marketToken) (positions (System.house sys0)) /\
  markets (System.house sys1_moved_closed) = markets (System.house sys0) /\
  System.amm sys1 = System.amm sys0 /\
  System.amm sys1_moved_closed = after_long_swap /\
  System.ledger sys1_moved_closed = System.ledger sys0.
Proof.
  apply (C5_round_trip_realizes_zero sys0 sys1 sys1_moved_closed after_long_swap
           trader 1000 2593000 marketToken true (100 * 10 ^ 18) 1000 0
           (10 * 10 ^ 18) 0).
  - vm_compute. reflexivity.
  - vm_compute. reflexivity.
  - vm_compute. reflexivity.
Defined.

(** C5 as stated fails on the test deployment.  The trader opens 10 units of
    notional and closes in full at once; the reserves of the market maker,
    and so the spot price, are the same before and after the open.  The
    fee of the market, 30 basis points of the input as [Vamm.swap] takes it,
    is 0.03 units on the opening leg alone, yet the realized PnL is zero:
    it is not within one unit of minus the fees, whatever the closing leg
    would have cost. *)
Lemma C5_counterexample :
  System.openPosition sys0 trader 1000 marketToken true (100 * 10 ^ 18) 1000 0
    = Ok (sys1, 10 * 10 ^ 18) /\
  System.closePosition sys1 trader 1001 marketToken 10000 = Ok (sys1_closed, 0) /\
  Vamm.getSpotPrice (System.amm sys1) = Vamm.getSpotPrice (System.amm sys0) /\
  (exists a,
     Vamm.swap (System.amm sys0) houseAccount true (10 * 10 ^ 18) 0
       = Ok (a, 4984975149898878) /\
     Decimal.value (Vamm.virtualQuote a)
       = Decimal.value (Vamm.virtualQuote (System.amm sys0))
         + (10 * 10 ^ 18 - 3 * 10 ^ 16)) /\
  10 * 10 ^ 18 * Vamm.FEE_RATIO / Vamm.BASIS_POINTS = 3 * 10 ^ 16 /\
  (forall feeClose, 0 <= feeClose ->
     ~ Z.abs (0 + (3 * 10 ^ 16 + feeClose)) <= 1).
Proof.
  split; [vm_compute; reflexivity |].
  split; [vm_compute; reflexivity |].
  split; [vm_compute; reflexivity |].
  split; [eexists; split; vm_compute; reflexivity |].
  split; [vm_compute; reflexivity |].
  intros feeClose Hfee.
  assert (H : 3 * 10 ^ 16 = 30000000000000000) by (vm_compute; reflexivity).
  rewrite H. lia.
Qed.

(** *** Opposite orders that cancel

    The trader opens a long position and then a short position of the same
    notional. *)
Definition long_then_equal_short : list (address * Z * Call) :=
  [ (trader, 1000, OpenPosition marketToken true (100 * 10 ^ 18) 10000 0);
    (trader, 1001, OpenPosition marketToken false (100 * 10 ^ 18) 10000 0) ].

Definition house_long : State :=
  commit house0
    (openPosition house0 trader 1000 marketToken true (100 * 10 ^ 18) 10000 0).
Definition house_flat : State := run house0 long_then_equal_short.

(** C6 on the code: both orders succeed, and the stored position then has
    size zero with 200 units of collateral and 200 units of notional still
    in it.  The record is treated as absent from then on: it cannot be
    closed, and the next order overwrites the collateral. *)
Lemma C6_zero_size_with_collateral :
  openPosition house0 trader 1000 marketToken true (100 * 10 ^ 18) 10000 0
    = Ok (house_long, 100 * 10 ^ 18) /\
  openPosition house_long trader 1001 marketToken false (100 * 10 ^ 18) 10000 0
    = Ok (house_flat, 100 * 10 ^ 18) /\
  size (getPos house_flat trader marketToken) = 0 /\
  collateral (getPos house_flat trader marketToken) = 200 * 10 ^ 18 /\
  openNotional (getPos house_flat trader marketToken) = 200 * 10 ^ 18 /\
  closePosition house_flat trader 1002 marketToken 10000
    = Revert (RequireFailed "No position") /\
  collateral
    (getPos
       (step house_flat trader 1003
          (OpenPosition marketToken true (10 ^ 18) 10000 0))
       trader marketToken) = 10 ^ 18.
Proof.
  split; [vm_compute; reflexivity |].
  split; [vm_compute; reflexivity |].
  split; [vm_compute; reflexivity |].
  split; [vm_compute; reflexivity |].
  split; [vm_compute; reflexivity |].
  split; vm_compute; reflexivity.
Qed.

Definition sys1_touched : State :=
  commit (System.house sys1)
    (closePosition (System.house sys1) trader 1001 marketToken 0).

(** The router refuses a ratio of zero before it calls the clearing house. *)
Lemma router_rejects_zero_ratio {Token : Type}
    (transfer : Token -> address -> address -> Z -> result Token)
    (self : address) (h : State) (tk : Token) (sender : address)
    (timestamp : Z) (token : address) (minQuoteAmount deadline : Z) :
  timestamp <= deadline ->
  ExchangeRouter.closePositionToCollateral transfer self h tk sender timestamp
    token 0 minQuoteAmount deadline
  = Revert (RequireFailed "Invalid ratio").
Proof.
  intros Hd. unfold ExchangeRouter.closePositionToCollateral.
  rewrite (proj2 (Z.leb_le _ _) Hd). reflexivity.
Qed.

(** C8 on the code: a close at ratio zero on the open position of [sys1] is
    accepted by the clearing house; it returns a PnL of zero and stores the
    position again with the same size, collateral and notional.  The same
    ratio sent through the router is refused with "Invalid ratio". *)
Lemma C8_zero_ratio_accepted :
  size (getPos (System.house sys1) trader marketToken) <> 0 /\
  closePosition (System.house sys1) trader 1001 marketToken 0
    = Ok (sys1_touched, 0) /\
  getPosition sys1_touched trader marketToken
    = getPosition (System.house sys1) trader marketToken /\
  lastUpdated (getPos sys1_touched trader marketToken) = 1001 /\
  ExchangeRouter.closePositionToCollateral (fun (tk : unit) _ _ _ => Ok tk)
    9%N (System.house sys1) tt trader 1001 marketToken 0 0 2000
    = Revert (RequireFailed "Invalid ratio").
Proof.
  split; [vm_compute; discriminate |].
  split; [vm_compute; reflexivity |].
  split; [vm_compute; reflexivity |].
  split; vm_compute; reflexivity.
Qed.

End ClearingHouseProperties.

(** ** The account ledger *)

Section AccountBalanceProperties.
Import Decimal AccountBalance.

Lemma getBalance_setBalance (s : AccountBalance.State) (t : address) (v : D256) :
  getBalance (setBalance s t v) t = v.
Proof. unfold getBalance, setBalance. simpl. now rewrite lookup_insert_eq. Qed.

(** No position value is ever summed, so the margin ratio reads zero for
    every trader, and the zero ratio is excluded by [isLiquidatable]. *)
Lemma getMarginRatio_zero (s : AccountBalance.State) (t : address) :
  getMarginRatio s t = Ok 0.
Proof. reflexivity. Qed.

Lemma isLiquidatable_false (s : AccountBalance.State) (t : address) :
  isLiquidatable s t = Ok false.
Proof. reflexivity. Qed.

Lemma isLiquidatable_true_iff (s : AccountBalance.State) (t : address) :
  isLiquidatable s t = Ok true
  <-> exists ratio, getMarginRatio s t = Ok ratio /\
        0 < ratio /\ ratio < MAINTENANCE_MARGIN_RATIO.
Proof.
  unfold isLiquidatable.
  destruct (getMarginRatio s t) as [ratio|e]; simpl.
  - split.
    + intros [= H]. apply andb_true_iff in H as [H1 H2].
      apply Z.ltb_lt in H1, H2. eauto.
    + intros (r & [= <-] & H1 & H2). f_equal.
      apply andb_true_iff. split; now apply Z.ltb_lt.
  - split; [discriminate | intros (r & Hr & _); discriminate].
Qed.

(** [withdraw], called by the clearing house on well-formed amounts, is
    decided by the balance alone. *)
Lemma withdraw_correct (s : AccountBalance.State) (t : address) (amount : D256) :
  in_uint256 (value (getBalance s t)) ->
  in_uint256 (value amount) ->
  withdraw s (clearingHouse s) t amount
  = if value (getBalance s t) <? value amount
    then Revert (RequireFailed "Insufficient collateral")
    else Ok (setBalance s t (d256 (value (getBalance s t) - value amount)), tt).
Proof.
  intros Hb Ha. unfold withdraw, onlyClearingHouse, canWithdraw, gte, sub.
  rewrite bool_decide_eq_true_2 by reflexivity. simpl.
  destruct (value (getBalance s t) <? value amount) eqn:Hlt.
  - apply Z.ltb_lt in Hlt.
    rewrite (proj2 (Z.leb_gt _ _) Hlt). reflexivity.
  - apply Z.ltb_ge in Hlt.
    rewrite (proj2 (Z.leb_le _ _) Hlt). simpl.
    rewrite usub_fits by (unfold in_uint256 in *; lia).
    reflexivity.
Qed.

End AccountBalanceProperties.

(** ** Margin checks across the clearing house and the ledger *)

Section MarginProperties.
Import Decimal.

(** The margin test of the withdrawal guard, in the spec's words: after the
    withdrawal an open position needs free collateral of at least its
    notional times the initial margin ratio. *)
Definition below_initial_margin (remaining : Z) (pos : ClearingHouse.Position) : Prop :=
  ClearingHouse.size pos <> 0 /\
  remaining < ClearingHouse.openNotional pos * AccountBalance.INITIAL_MARGIN_RATIO
              / AccountBalance.BASIS_POINTS.

(** All of the trader's 100 units withdrawn while the position of [sys1]
    is open. *)
Definition sys1_drained : System.State :=
  commit sys1
    (System.withdraw sys1 houseAccount trader (d256 (100 * 10 ^ 18))).

(** C4, as amended: called by the clearing house with well-formed amounts,
    [withdraw] fails with "Insufficient collateral" when the amount exceeds
    the trader's balance, and otherwise succeeds and debits the amount,
    whatever positions the trader holds; it never fails with "Would violate
    margin requirements"; a failed call leaves the state as it was. *)
Theorem C4_withdraw_checks_balance_only
    (sys : System.State) (t : address) (amount : D256) :
  in_uint256 (value (AccountBalance.getBalance (System.ledger sys) t)) ->
  in_uint256 (value amount) ->
  let l := System.ledger sys in
  let r := System.withdraw sys (AccountBalance.clearingHouse l) t amount in
  r = (if value (AccountBalance.getBalance l t) <? value amount
       then Revert (RequireFailed "Insufficient collateral")
       else Ok (System.mkState (System.house sys) (System.amm sys)
                  (AccountBalance.setBalance l t
                     (d256 (value (AccountBalance.getBalance l t) - value amount))),
                tt)) /\
  r <> Revert (RequireFailed "Would violate margin requirements") /\
  (if value (AccountBalance.getBalance l t) <? value amount
   then commit sys r = sys
   else AccountBalance.getCollateral (System.ledger (commit sys r)) t
        = value (AccountBalance.getBalance l t) - value amount).
Proof.
  intros Hb Ha l r.
  assert (Hr : r = if value (AccountBalance.getBalance l t) <? value amount
       then Revert (RequireFailed "Insufficient collateral")
       else Ok (System.mkState (System.house sys) (System.amm sys)
                  (AccountBalance.setBalance l t
                     (d256 (value (AccountBalance.getBalance l t) - value amount))),
                tt)).
  { subst r l. unfold System.withdraw.
    rewrite (withdraw_correct _ _ _ Hb Ha).
    destruct (value (AccountBalance.getBalance (System.ledger sys) t) <? value amount);
      reflexivity. }
  split; [exact Hr |]. rewrite Hr.
  destruct (value (AccountBalance.getBalance l t) <? value amount).
  - split; [discriminate | reflexivity].
  - split; [discriminate |]. simpl.
    unfold AccountBalance.getCollateral. now rewrite getBalance_setBalance.
Qed.

Lemma C4_withdraw_checks_balance_only_witness :
  let l := System.ledger sys1 in
  let r := System.withdraw sys1 (AccountBalance.clearingHouse l) trader
             (d256 (100 * 10 ^ 18)) in
  r = (if value (AccountBalance.getBalance l trader) <? value (d256 (100 * 10 ^ 18))
       then Revert (RequireFailed "Insufficient collateral")
       else Ok (System.mkState (System.house sys1) (System.amm sys1)
                  (AccountBalance.setBalance l trader
                     (d256 (value (AccountBalance.getBalance l trader)
                            - value (d256 (100 * 10 ^ 18))))),
                tt)) /\
  r <> Revert (RequireFailed "Would violate margin requirements") /\
  (if value (AccountBalance.getBalance l trader) <? value (d256 (100 * 10 ^ 18))
   then commit sys1 r = sys1
   else AccountBalance.getCollateral (System.ledger (commit sys1 r)) trader
        = value (AccountBalance.getBalance l trader) - value (d256 (100 * 10 ^ 18))).
Proof.
  apply (C4_withdraw_checks_balance_only sys1 trader (d256 (100 * 10 ^ 18))).
  - vm_compute. split; discriminate.
  - vm_compute. split; discriminate.
Defined.

(** C4 as stated fails on the test deployment: with the position of [sys1]
    open (notional 10 units, so an initial margin of 0.1 unit), the trader
    withdraws the whole balance of 100 units; the call succeeds and the
    remaining balance of zero is below the initial margin. *)
Lemma C4_counterexample :
  System.withdraw sys1 houseAccount trader (d256 (100 * 10 ^ 18))
    = Ok (sys1_drained, tt) /\
  AccountBalance.getCollateral (System.ledger sys1_drained) trader = 0 /\
  below_initial_margin
    (AccountBalance.getCollateral (System.ledger sys1) trader - 100 * 10 ^ 18)
    (ClearingHouse.getPos (System.house sys1) trader marketToken).
Proof.
  split; [vm_compute; reflexivity |].
  split; [vm_compute; reflexivity |].
  split; vm_compute; [discriminate | reflexivity].
Qed.

(** *** A market that allows high leverage

    The market is added with a maximum leverage of 3,000,000.  One unit of
    collateral at leverage 2,000,000 gives a position of margin ratio 50,
    the maintenance ratio; at leverage 2,010,000 the ratio is 49. *)
Definition leveredHouse : ClearingHouse.State :=
  commit emptyHouse
    (ClearingHouse.addMarket emptyHouse deployer marketToken marketToken 3000000).

Definition house_at_threshold : ClearingHouse.State :=
  commit leveredHouse
    (ClearingHouse.openPosition leveredHouse trader 1000 marketToken true
       (10 ^ 18) 2000000 0).

Definition house_below_threshold : ClearingHouse.State :=
  commit leveredHouse
    (ClearingHouse.openPosition leveredHouse trader 1000 marketToken true
       (10 ^ 18) 2010000 0).

Definition house_liquidated : ClearingHouse.State :=
  commit house_below_threshold
    (ClearingHouse.liquidate house_below_threshold 8%N trader marketToken).

(** Scenario 4 of the spec on [liquidate]: rejected at the threshold,
    accepted one unit below it, with the event carrying the 5% fee. *)
Example liquidate_at_and_below_threshold :
  ClearingHouse.marginRatio (ClearingHouse.getPos house_at_threshold trader marketToken)
    = Ok (200 * 10 ^ 18, 50) /\
  ClearingHouse.liquidate house_at_threshold 8%N trader marketToken
    = Revert (RequireFailed "Not liquidatable") /\
  ClearingHouse.marginRatio (ClearingHouse.getPos house_below_threshold trader marketToken)
    = Ok (201 * 10 ^ 18, 49) /\
  ClearingHouse.liquidate house_below_threshold 8%N trader marketToken
    = Ok (house_liquidated, tt) /\
  ClearingHouse.getPos house_liquidated trader marketToken = ClearingHouse.noPosition /\
  head (ClearingHouse.events house_liquidated)
    = Some (ClearingHouse.PositionLiquidated trader marketToken (201 * 10 ^ 18)
              (5 * 10 ^ 16) 8%N).
Proof.
  split; [vm_compute; reflexivity |].
  split; [vm_compute; reflexivity |].
  split; [vm_compute; reflexivity |].
  split; [vm_compute; reflexivity |].
  split; vm_compute; reflexivity.
Qed.

(** The tests "Should revert liquidation when position not liquidatable"
    and "Should return zero margin ratio when no positions". *)
Example test_not_liquidatable :
  ClearingHouse.liquidate (System.house sys1) 8%N trader marketToken
    = Revert (RequireFailed "Not liquidatable") /\
  AccountBalance.getMarginRatio emptyLedger trader = Ok 0.
Proof. split; vm_compute; reflexivity. Qed.

(** The test "Should allow deposit and withdraw by clearingHouse": 50
    units deposited, 20 withdrawn, 30 left. *)
Example test_deposit_then_withdraw :
  AccountBalance.getCollateral
    (commit
       (commit emptyLedger
          (AccountBalance.deposit emptyLedger houseAccount trader
             (d256 (50 * 10 ^ 18))))
       (AccountBalance.withdraw
          (commit emptyLedger
             (AccountBalance.deposit emptyLedger houseAccount trader
                (d256 (50 * 10 ^ 18))))
          houseAccount trader (d256 (20 * 10 ^ 18))))
    trader
  = 30 * 10 ^ 18.
Proof. vm_compute. reflexivity. Qed.

(** C7, as amended: [liquidate] fails with "Not liquidatable" exactly when
    the position exists, its margin ratio is computed, and that ratio is at
    or above the market's maintenance ratio; so a position exactly at the
    threshold is never liquidated.  The read-only [isLiquidatable] returns
    true exactly when the ledger's margin ratio is strictly between zero and
    the maintenance ratio; that ratio reads zero for every trader, so
    [isLiquidatable] returns false for every trader. *)
Theorem C7_liquidation_threshold
    (h : ClearingHouse.State) (sender owner token : address)
    (l : AccountBalance.State) (t : address) :
  (ClearingHouse.liquidate h sender owner token
     = Revert (RequireFailed "Not liquidatable")
   <-> ClearingHouse.size (ClearingHouse.getPos h owner token) <> 0 /\
       exists posValue ratio,
         ClearingHouse.marginRatio (ClearingHouse.getPos h owner token)
           = Ok (posValue, ratio) /\
         ClearingHouse.maintenanceMarginRatio (ClearingHouse.getMarket h token)
           <= ratio) /\
  (AccountBalance.isLiquidatable l t = Ok true
   <-> exists ratio, AccountBalance.getMarginRatio l t = Ok ratio /\
         0 < ratio /\ ratio < AccountBalance.MAINTENANCE_MARGIN_RATIO) /\
  AccountBalance.getMarginRatio l t = Ok 0 /\
  AccountBalance.isLiquidatable l t = Ok false.
Proof.
  split; [apply liquidate_not_liquidatable_iff |].
  split; [apply isLiquidatable_true_iff |].
  split; [apply getMarginRatio_zero | apply isLiquidatable_false].
Qed.

(** C7 as stated fails for [isLiquidatable]: the trader's margin ratio on
    the ledger is 0, strictly below the maintenance ratio of 50, and the
    trader's position in the clearing house has margin ratio 49 and is
    accepted by [liquidate]; yet [isLiquidatable] returns false. *)
Lemma C7_counterexample :
  AccountBalance.getMarginRatio ledger0 trader = Ok 0 /\
  0 < AccountBalance.MAINTENANCE_MARGIN_RATIO /\
  ClearingHouse.liquidate house_below_threshold 8%N trader marketToken
    = Ok (house_liquidated, tt) /\
  AccountBalance.isLiquidatable ledger0 trader <> Ok true.
Proof.
  split; [reflexivity |]. split; [reflexivity |].
  split; [vm_compute; reflexivity | discriminate].
Qed.

End MarginProperties.

(** ** The funding engine *)

Section FundingProperties.
Import SignedDecimal Funding.

(** The rate of the spec, in its words: the premium in basis points, scaled
    by the funding period over one day, clamped to the maximum rate.
    Division truncates toward zero. *)
Definition premiumBps (markPrice indexPrice : Z) : Z :=
  Z.quot ((markPrice - indexPrice) * 10000) indexPrice.

Definition rateBps (premium period : Z) : Z := Z.quot (premium * period) 86400.

Definition clampRate (maxRateBps rate : Z) : Z :=
  Z.max (- maxRateBps) (Z.min maxRateBps rate).

Definition specRate (s : Funding.State) (markPrice indexPrice : Z) : Z :=
  clampRate (maxFundingRate s)
    (rateBps (premiumBps markPrice indexPrice) (fundingPeriod s)).

(** The inputs on which no step of the computation leaves [int256]. *)
Definition rate_in_range (s : Funding.State) (token : address)
    (markPrice indexPrice : Z) : Prop :=
  indexPrice <> 0 /\
  in_int256 (markPrice - indexPrice) /\
  in_int256 ((markPrice - indexPrice) * 10000) /\
  0 <= fundingPeriod s <= MAX_INT256 /\
  in_int256 (premiumBps markPrice indexPrice * fundingPeriod s) /\
  0 <= maxFundingRate s <= MAX_INT256 /\
  in_int256 (value (cumulativeFunding (getGrowth s token))
             + specRate s markPrice indexPrice).

(** The state a settled update leaves. *)
Definition settled (s : Funding.State) (token : address) (now rate : Z)
    : Funding.State :=
  Funding.mkState
    (<[token := mkGrowth (s256 rate) (s256 (- rate)) now
                  (s256 (value (cumulativeFunding (getGrowth s token)) + rate))]>
       (fundingGrowth s))
    (traderFundingIndex s) (fundingPeriod s) (maxFundingRate s)
    (clearingHouse s) (admin s).

Definition is_update (c : Funding.Call) : bool :=
  match c with
  | UpdateFundingRate _ _ _ _ _ => true
  | _ => false
  end.

Lemma quot_abs_le (a b : Z) : b <> 0 -> Z.abs (Z.quot a b) <= Z.abs a.
Proof.
  intros Hb. rewrite <- Z.quot_abs by assumption.
  apply Z.quot_le_upper_bound; [lia | nia].
Qed.

Lemma premium_in_int256 (d indexPrice : Z) :
  indexPrice <> 0 -> in_int256 (d * 10000) ->
  in_int256 (Z.quot (d * 10000) indexPrice).
Proof.
  unfold in_int256, MIN_INT256, MAX_INT256. intros Hb Ha.
  pose proof (quot_abs_le (d * 10000) indexPrice Hb).
  assert (d * 10000 <> - 2 ^ 255) by lia.
  lia.
Qed.

Lemma day_quot_in_int256 (a : Z) : in_int256 a -> in_int256 (Z.quot a 86400).
Proof.
  unfold in_int256. intros [Hlo Hhi].
  pose proof (Z.quot_le_mono _ _ 86400 ltac:(lia) Hlo) as Hlo'.
  pose proof (Z.quot_le_mono _ _ 86400 ltac:(lia) Hhi) as Hhi'.
  split.
  - etransitivity; [|exact Hlo']. vm_compute. discriminate.
  - etransitivity; [exact Hhi'|]. vm_compute. discriminate.
Qed.

Lemma getGrowth_insert (s : Funding.State) (token token' : address)
    (g : FundingGrowth) :
  default noGrowth (<[token := g]> (fundingGrowth s) !! token')
  = if decide (token = token') then g else getGrowth s token'.
Proof.
  unfold getGrowth. rewrite lookup_insert.
  destruct (decide (token = token')); reflexivity.
Qed.

(** A call that gets past the caller check and whose due time is
    representable answers "Too early" exactly before the due time. *)
Lemma updateFundingRate_too_early_iff (s : Funding.State) (now : Z)
    (token : address) (markPrice indexPrice loi soi : Z) :
  in_uint256 (timestamp (getGrowth s token) + fundingPeriod s) ->
  updateFundingRate s (clearingHouse s) now token markPrice indexPrice loi soi
    = Revert (RequireFailed "Too early")
  <-> now < timestamp (getGrowth s token) + fundingPeriod s.
Proof.
  intros Hdue. unfold updateFundingRate, onlyClearingHouse.
  rewrite bool_decide_eq_true_2 by reflexivity. simpl.
  rewrite (uadd_fits _ _ Hdue). simpl.
  destruct (timestamp (getGrowth s token) + fundingPeriod s <=? now) eqn:Hle; simpl.
  - apply Z.leb_le in Hle. split; [|lia].
    unfold ssub, smul, sdiv, sneg, add, sadd.
    repeat (match goal with
            | |- context [if ?c then _ else _] => destruct c
            end; simpl); discriminate.
  - apply Z.leb_gt in Hle. split; [intros _; exact Hle | reflexivity].
Qed.

(** Once due, and on inputs in range, the update succeeds with the rate of
    the spec. *)
Lemma updateFundingRate_due (s : Funding.State) (now : Z)
    (token : address) (markPrice indexPrice loi soi : Z) :
  in_uint256 (timestamp (getGrowth s token) + fundingPeriod s) ->
  timestamp (getGrowth s token) + fundingPeriod s <= now ->
  rate_in_range s token markPrice indexPrice ->
  updateFundingRate s (clearingHouse s) now token markPrice indexPrice loi soi
  = Ok (settled s token now (specRate s markPrice indexPrice),
        s256 (specRate s markPrice indexPrice)).
Proof.
  intros Hdue Hnow (Hidx & Hdiff & Hscaled & Hperiod & Hpro & Hmax & Hcum).
  unfold updateFundingRate, onlyClearingHouse.
  rewrite bool_decide_eq_true_2 by reflexivity. simpl.
  rewrite (uadd_fits _ _ Hdue). simpl.
  rewrite (proj2 (Z.leb_le _ _) Hnow). simpl.
  rewrite (ssub_fits _ _ Hdiff). simpl.
  change (to_int256 BASIS_POINTS) with 10000.
  rewrite (smul_fits _ _ Hscaled). simpl.
  rewrite (sdiv_fits _ _ Hidx (premium_in_int256 _ _ Hidx Hscaled)). simpl.
  rewrite (to_int256_small (fundingPeriod s)) by lia.
  fold (premiumBps markPrice indexPrice).
  rewrite (smul_fits _ _ Hpro). simpl.
  change (to_int256 ONE_DAY) with 86400.
  rewrite (sdiv_fits _ 86400 ltac:(lia) (day_quot_in_int256 _ Hpro)). simpl.
  fold (rateBps (premiumBps markPrice indexPrice) (fundingPeriod s)).
  rewrite (to_int256_small (maxFundingRate s)) by lia.
  set (rate0 := rateBps (premiumBps markPrice indexPrice) (fundingPeriod s)) in *.
  assert (Hneg : in_int256 (- maxFundingRate s)).
  { unfold in_int256, MIN_INT256, MAX_INT256 in *. lia. }
  rewrite (sneg_fits _ Hneg). simpl.
  assert (Hrate : (if (if maxFundingRate s <? rate0 then maxFundingRate s else rate0)
                        <? - maxFundingRate s
                   then - maxFundingRate s
                   else if maxFundingRate s <? rate0 then maxFundingRate s else rate0)
                  = specRate s markPrice indexPrice).
  { unfold specRate, clampRate. fold rate0.
    destruct (maxFundingRate s <? rate0) eqn:H1;
      [apply Z.ltb_lt in H1 | apply Z.ltb_ge in H1].
    - destruct (maxFundingRate s <? - maxFundingRate s) eqn:H2;
        [apply Z.ltb_lt in H2 | apply Z.ltb_ge in H2]; lia.
    - destruct (rate0 <? - maxFundingRate s) eqn:H2;
        [apply Z.ltb_lt in H2 | apply Z.ltb_ge in H2]; lia. }
  rewrite Hrate.
  assert (Hbound : - maxFundingRate s <= specRate s markPrice indexPrice
                   <= maxFundingRate s).
  { unfold specRate, clampRate. lia. }
  assert (Hnegrate : in_int256 (- specRate s markPrice indexPrice)).
  { unfold in_int256, MIN_INT256, MAX_INT256 in *. lia. }
  rewrite (sneg_fits _ Hnegrate). simpl.
  unfold add. simpl. rewrite (sadd_fits _ _ Hcum). reflexivity.
Qed.

(** Every entry point other than [updateFundingRate] leaves the cumulative
    index of every market as it was, whoever calls it and whether or not it
    reverts. *)
Lemma other_calls_keep_cumulative (s : Funding.State) (sender : address)
    (now : Z) (c : Funding.Call) (token : address) :
  is_update c = false ->
  getCumulativeFunding (step s sender now c) token = getCumulativeFunding s token.
Proof.
  destruct c as [tk mark index loi soi | tr tk sz | p | r]; simpl;
    [discriminate | | |]; intros _.
  - destruct (settleFunding s sender tr tk sz) as [[s' owed]|e] eqn:H;
      [|reflexivity].
    unfold settleFunding in H. do 4 bind_inv H. now injection H as <- _.
  - destruct (setFundingPeriod s sender p) as [[s' u]|e] eqn:H; [|reflexivity].
    unfold setFundingPeriod in H. do 2 bind_inv H. now injection H as <- _.
  - destruct (setMaxFundingRate s sender r) as [[s' u]|e] eqn:H; [|reflexivity].
    unfold setMaxFundingRate in H. do 2 bind_inv H. now injection H as <- _.
Qed.

(** The contract as constructed by account 1 for the clearing house at
    account 2: a period of eight hours and a maximum rate of 1000. *)
Definition funding0 : Funding.State := Funding.constructor deployer houseAccount.

(** C9, as amended: called by the clearing house, with a representable
    due time and inputs in range, [updateFundingRate] fails with "Too
    early" exactly when
    [now < lastSettlement + fundingPeriod]; otherwise it succeeds, returns
    the premium in basis points scaled by the period over one day and
    clamped to the maximum rate, adds exactly that rate to the market's
    cumulative index and sets the last settlement time to [now].  The
    update leaves the index of every other market as it was, and so does
    every other entry point for every market. *)
Theorem C9_updateFundingRate_spec
    (s : Funding.State) (now : Z) (token : address)
    (markPrice indexPrice loi soi : Z) :
  in_uint256 (timestamp (getGrowth s token) + fundingPeriod s) ->
  rate_in_range s token markPrice indexPrice ->
  let due := timestamp (getGrowth s token) + fundingPeriod s in
  let rate := clampRate (maxFundingRate s)
                (rateBps (premiumBps markPrice indexPrice) (fundingPeriod s)) in
  let r := updateFundingRate s (clearingHouse s) now token
             markPrice indexPrice loi soi in
  (r = Revert (RequireFailed "Too early") <-> now < due) /\
  r = (if now <? due then Revert (RequireFailed "Too early")
       else Ok (settled s token now rate, s256 rate)) /\
  getCumulativeFunding (commit s r) token
    = (if now <? due then getCumulativeFunding s token
       else getCumulativeFunding s token + rate) /\
  getLastFundingTime (commit s r) token
    = (if now <? due then getLastFundingTime s token else now) /\
  (forall token', token' = token \/
     getCumulativeFunding (commit s r) token' = getCumulativeFunding s token') /\
  (forall (sender : address) (now' : Z) (c : Funding.Call) (token' : address),
     if is_update c then True
     else getCumulativeFunding (step s sender now' c) token'
          = getCumulativeFunding s token').
Proof.
  intros Hdue Hrange due rate r.
  pose proof (updateFundingRate_too_early_iff s now token markPrice indexPrice
                loi soi Hdue) as Hearly.
  fold r due in Hearly.
  assert (Hr : r = if now <? due then Revert (RequireFailed "Too early")
                   else Ok (settled s token now rate, s256 rate)).
  { destruct (now <? due) eqn:Hlt.
    - apply Hearly. now apply Z.ltb_lt.
    - apply Z.ltb_ge in Hlt. subst r.
      now rewrite (updateFundingRate_due s now token markPrice indexPrice
                     loi soi Hdue Hlt Hrange). }
  split; [exact Hearly |]. split; [exact Hr |].
  rewrite Hr.
  split; [| split; [| split]].
  - destruct (now <? due); [reflexivity |]. simpl.
    unfold getCumulativeFunding, getGrowth at 1, settled. simpl.
    now rewrite lookup_insert_eq.
  - destruct (now <? due); [reflexivity |]. simpl.
    unfold getLastFundingTime, getGrowth at 1, settled. simpl.
    now rewrite lookup_insert_eq.
  - intros token'. destruct (decide (token' = token)) as [Heq | Hne];
      [left; exact Heq | right].
    destruct (now <? due); [reflexivity |]. simpl.
    unfold getCumulativeFunding, getGrowth at 1, settled. simpl.
    now rewrite lookup_insert_ne by congruence.
  - intros sender now' c token'. destruct (is_update c) eqn:Hc; [exact I |].
    now apply other_calls_keep_cumulative.
Qed.

(** A first update of a market at the end of the first period, with the
    mark price 5% above the index price. *)
Lemma C9_updateFundingRate_spec_witness :
  let due := timestamp (getGrowth funding0 marketToken) + fundingPeriod funding0 in
  let rate := clampRate (maxFundingRate funding0)
                (rateBps (premiumBps (2100 * 10 ^ 18) (2000 * 10 ^ 18))
                   (fundingPeriod funding0)) in
  let r := updateFundingRate funding0 (clearingHouse funding0) 28800 marketToken
             (2100 * 10 ^ 18) (2000 * 10 ^ 18) 0 0 in
  (r = Revert (RequireFailed "Too early") <-> 28800 < due) /\
  r = (if 28800 <? due then Revert (RequireFailed "Too early")
       else Ok (settled funding0 marketToken 28800 rate, s256 rate)) /\
  getCumulativeFunding (commit funding0 r) marketToken
    = (if 28800 <? due then getCumulativeFunding funding0 marketToken
       else getCumulativeFunding funding0 marketToken + rate) /\
  getLastFundingTime (commit funding0 r) marketToken
    = (if 28800 <? due then getLastFundingTime funding0 marketToken else 28800) /\
  (forall token', token' = marketToken \/
     getCumulativeFunding (commit funding0 r) token'
     = getCumulativeFunding funding0 token') /\
  (forall (sender : address) (now' : Z) (c : Funding.Call) (token' : address),
     if is_update c then True
     else getCumulativeFunding (step funding0 sender now' c) token'
          = getCumulativeFunding funding0 token').
Proof.
  apply (C9_updateFundingRate_spec funding0 28800 marketToken
           (2100 * 10 ^ 18) (2000 * 10 ^ 18) 0 0).
  - vm_compute. split; discriminate.
  - unfold rate_in_range, in_int256. vm_compute.
    repeat split; discriminate.
Defined.

(** C9 as stated fails on the contract as constructed.  Before the due
    time a caller other than the clearing house is turned away with "Only
    ClearingHouse", not "Too early".  At the due time, the clearing house's
    update with an index price of zero panics on the division, and one with
    a mark price near the top of [int256] panics on the multiplication by
    10000: neither answers "Too early", and neither computes a rate or
    moves the cumulative index or the settlement time. *)
Lemma C9_counterexample :
  0 < timestamp (getGrowth funding0 marketToken) + fundingPeriod funding0 /\
  updateFundingRate funding0 trader 0 marketToken
    (2100 * 10 ^ 18) (2000 * 10 ^ 18) 0 0
    = Revert (RequireFailed "Only ClearingHouse") /\
  timestamp (getGrowth funding0 marketToken) + fundingPeriod funding0 <= 28800 /\
  updateFundingRate funding0 houseAccount 28800 marketToken
    (2100 * 10 ^ 18) 0 0 0
    = Revert (Panic DivisionByZero) /\
  updateFundingRate funding0 houseAccount 28800 marketToken
    MAX_INT256 1 0 0
    = Revert (Panic ArithmeticOverflow) /\
  getCumulativeFunding
    (step funding0 houseAccount 28800
       (UpdateFundingRate marketToken (2100 * 10 ^ 18) 0 0 0)) marketToken
    = getCumulativeFunding funding0 marketToken /\
  getLastFundingTime
    (step funding0 houseAccount 28800
       (UpdateFundingRate marketToken (2100 * 10 ^ 18) 0 0 0)) marketToken
    <> 28800.
Proof.
  split; [vm_compute; reflexivity |].
  split; [vm_compute; reflexivity |].
  split; [vm_compute; discriminate |].
  split; [vm_compute; reflexivity |].
  split; [vm_compute; reflexivity |].
  split; [vm_compute; reflexivity | vm_compute; discriminate].
Qed.

(** The same update on concrete numbers: a premium of 500 basis points over
    an eight-hour period gives a rate of 166, and a second update one hour
    later is too early. *)
Example update_after_first_period :
  premiumBps (2100 * 10 ^ 18) (2000 * 10 ^ 18) = 500 /\
  specRate funding0 (2100 * 10 ^ 18) (2000 * 10 ^ 18) = 166 /\
  updateFundingRate funding0 houseAccount 28800 marketToken
    (2100 * 10 ^ 18) (2000 * 10 ^ 18) 0 0
  = Ok (settled funding0 marketToken 28800 166, s256 166) /\
  updateFundingRate (settled funding0 marketToken 28800 166) houseAccount 32400
    marketToken (2100 * 10 ^ 18) (2000 * 10 ^ 18) 0 0
  = Revert (RequireFailed "Too early").
Proof.
  split; [vm_compute; reflexivity |].
  split; [vm_compute; reflexivity |].
  split; vm_compute; reflexivity.
Qed.

(** The test "Should update and settle funding": with a period of one
    second the prorated rate truncates to zero; after settling, nothing is
    pending for the trader. *)
Definition funding_fast : Funding.State :=
  commit funding0 (setFundingPeriod funding0 deployer 1).
Definition funding_updated : Funding.State :=
  commit funding_fast
    (updateFundingRate funding_fast houseAccount 1700000000 marketToken
       (2100 * 10 ^ 18) (2000 * 10 ^ 18) 0 0).
Definition funding_settled : Funding.State :=
  commit funding_updated
    (settleFunding funding_updated houseAccount trader marketToken (10 ^ 18)).

Example test_update_and_settle :
  updateFundingRate funding_fast houseAccount 1700000000 marketToken
    (2100 * 10 ^ 18) (2000 * 10 ^ 18) 0 0
    = Ok (funding_updated, s256 0) /\
  getLastFundingTime funding_updated marketToken = 1700000000 /\
  settleFunding funding_updated houseAccount trader marketToken (10 ^ 18)
    = Ok (funding_settled, s256 0) /\
  getPendingFunding funding_settled trader marketToken (10 ^ 18) = Ok (s256 0).
Proof.
  split; [vm_compute; reflexivity |].
  split; [vm_compute; reflexivity |].
  split; vm_compute; reflexivity.
Qed.

End FundingProperties.

(** * Further properties of the contracts *)

(** ** The virtual market maker: quotes, pause, rebalancing, callers *)

Section VammFurther.
Import Decimal Vamm.

(** Case analysis on every check of a computation, outermost first. *)
Ltac case_checks :=
  repeat (match goal with
          | |- context [if ?c then _ else _] => destruct c eqn:?
          end; simpl).

(** The input net of the 30 basis point fee, and the state a swap of output
    [out] commits: the reserve on the input side grows by the net input,
    the other one shrinks by the output. *)
Definition netInput (amountIn : Z) : Z :=
  amountIn - amountIn * FEE_RATIO / BASIS_POINTS.

Definition after_swap (s : Vamm.State) (isLong : bool) (amountIn out : Z)
    : Vamm.State :=
  if isLong then
    Vamm.mkState (d256 (value (virtualBase s) - out))
      (d256 (value (virtualQuote s) + netInput amountIn))
      (k s) (clearingHouse s) (admin s) (isPaused s)
  else
    Vamm.mkState (d256 (value (virtualBase s) + netInput amountIn))
      (d256 (value (virtualQuote s) - out))
      (k s) (clearingHouse s) (admin s) (isPaused s).

Lemma swap_as_quote (s : Vamm.State) (isLong : bool) (amountIn minAmountOut : Z) :
  isPaused s = false ->
  0 < amountIn ->
  swap s (clearingHouse s) isLong amountIn minAmountOut
  = match getAmountOut s isLong amountIn with
    | Ok out =>
        if minAmountOut <=? out then Ok (after_swap s isLong amountIn out, out)
        else Revert (RequireFailed "Slippage exceeded")
    | Revert e => Revert e
    end.
Proof.
  intros Hpaused Hpos.
  unfold swap, getAmountOut, onlyClearingHouse, whenNotPaused, after_swap, netInput.
  rewrite bool_decide_eq_true_2 by reflexivity. rewrite Hpaused. simpl.
  rewrite (proj2 (Z.ltb_lt _ _) Hpos).
  rewrite (proj2 (Z.eqb_neq _ _)) by lia. simpl.
  unfold mul, div, sub, add, divD, umul, udiv, usub, uadd. simpl.
  destruct isLong; case_checks; try reflexivity;
    do 2 f_equal; f_equal; f_equal; lia.
Qed.

(** A quote is never negative: it is the result of a checked subtraction. *)
Lemma getAmountOut_nonneg (s : Vamm.State) (isLong : bool) (amountIn out : Z) :
  getAmountOut s isLong amountIn = Ok out -> 0 <= out.
Proof.
  unfold getAmountOut. destruct (amountIn =? 0); [intros [= <-]; lia |].
  intros H. do 3 bind_inv H.
  destruct isLong; do 3 bind_inv H; injection H as <-;
    match goal with
    | Hs : sub _ _ = Ok ?o |- 0 <= value ?o =>
        unfold sub in Hs; bind_inv Hs; injection Hs as <-; simpl;
        match goal with
        | Hu : usub _ _ = Ok _ |- _ => apply usub_Ok in Hu as [-> [? _]]; assumption
        end
    end.
Qed.

(** A quote can only fail by a panic. *)
Lemma getAmountOut_revert (s : Vamm.State) (isLong : bool) (amountIn : Z) (e : Error) :
  getAmountOut s isLong amountIn = Revert e -> exists c, e = Panic c.
Proof.
  unfold getAmountOut, mul, div, sub, add, divD, umul, udiv, usub, uadd. simpl.
  destruct isLong; case_checks; intros [= <-]; eauto.
Qed.

(** X1: for the clearing house on an unpaused market and a positive input,
    [swap] is decided by the quote: it succeeds with output [out] exactly
    when [getAmountOut] quotes [out] and [out] reaches the minimum asked
    for, and it fails with "Slippage exceeded" exactly when the quote is
    below that minimum. *)
Theorem X1_swap_is_decided_by_quote
    (s : Vamm.State) (isLong : bool) (amountIn minAmountOut out : Z) :
  isPaused s = false ->
  0 < amountIn ->
  ((exists s', swap s (clearingHouse s) isLong amountIn minAmountOut = Ok (s', out))
   <-> getAmountOut s isLong amountIn = Ok out /\ minAmountOut <= out) /\
  (swap s (clearingHouse s) isLong amountIn minAmountOut
     = Revert (RequireFailed "Slippage exceeded")
   <-> exists quoted, getAmountOut s isLong amountIn = Ok quoted /\
                      quoted < minAmountOut).
Proof.
  intros Hpaused Hpos.
  rewrite (swap_as_quote s isLong amountIn minAmountOut Hpaused Hpos).
  destruct (getAmountOut s isLong amountIn) as [quoted|e] eqn:Hq.
  - destruct (minAmountOut <=? quoted) eqn:Hmin;
      [apply Z.leb_le in Hmin | apply Z.leb_gt in Hmin].
    + split; split.
      * intros [s' [= _ <-]]. auto.
      * intros [[= <-] _]. eauto.
      * discriminate.
      * intros (q & [= <-] & Hlt). lia.
    + split; split.
      * intros [s' H]. discriminate.
      * intros [[= <-] Hle]. lia.
      * eauto.
      * reflexivity.
  - split; split.
    + intros [s' H]. discriminate.
    + intros [H _]. discriminate.
    + intros [= ->].
      destruct (getAmountOut_revert s isLong amountIn _ Hq) as [c Hc].
      discriminate.
    + intros (q & H & _). discriminate.
Qed.

Lemma X1_swap_is_decided_by_quote_witness :
  ((exists s', swap deployed (clearingHouse deployed) true (1000 * 10 ^ 18) 0
               = Ok (s', 498251621566649026))
   <-> getAmountOut deployed true (1000 * 10 ^ 18) = Ok 498251621566649026 /\
       0 <= 498251621566649026) /\
  (swap deployed (clearingHouse deployed) true (1000 * 10 ^ 18) 0
     = Revert (RequireFailed "Slippage exceeded")
   <-> exists quoted, getAmountOut deployed true (1000 * 10 ^ 18) = Ok quoted /\
                      quoted < 0).
Proof.
  apply (X1_swap_is_decided_by_quote deployed true (1000 * 10 ^ 18) 0
           498251621566649026).
  - reflexivity.
  - reflexivity.
Defined.

(** X2: a successful swap is made by the clearing house on an unpaused
    market with a positive input; it adds the input net of the fee
    [amountIn * 30 / 10000] to the reserve on the input side (quote for a
    long, base for a short), takes the output out of the other reserve,
    never more than that reserve holds, and changes nothing else. *)
Theorem X2_swap_moves_reserves
    (s s' : Vamm.State) (sender : address) (isLong : bool)
    (amountIn minAmountOut out : Z) :
  swap s sender isLong amountIn minAmountOut = Ok (s', out) ->
  sender = clearingHouse s /\ isPaused s = false /\ 0 < amountIn /\
  s' = after_swap s isLong amountIn out /\
  minAmountOut <= out /\
  0 <= out <= value (if isLong then virtualBase s else virtualQuote s).
Proof.
  intros H.
  assert (Hguards : sender = clearingHouse s /\ isPaused s = false /\ 0 < amountIn).
  { unfold swap, onlyClearingHouse, whenNotPaused in H.
    bind_as H u1 Hs. apply require_Ok in Hs. apply bool_decide_eq_true_1 in Hs.
    bind_as H u2 Hp. apply require_Ok in Hp. apply negb_true_iff in Hp.
    bind_as H u3 Ha. apply require_Ok in Ha. apply Z.ltb_lt in Ha. auto. }
  destruct Hguards as (-> & Hpaused & Hpos).
  rewrite (swap_as_quote s isLong amountIn minAmountOut Hpaused Hpos) in H.
  destruct (getAmountOut s isLong amountIn) as [quoted|e] eqn:Hq; [|discriminate].
  destruct (minAmountOut <=? quoted) eqn:Hmin; [|discriminate].
  injection H as <- <-. apply Z.leb_le in Hmin.
  pose proof (getAmountOut_nonneg _ _ _ _ Hq) as Hnn.
  repeat split; try assumption.
  unfold getAmountOut in Hq. rewrite (proj2 (Z.eqb_neq _ _)) in Hq by lia.
  do 3 bind_inv Hq.
  destruct isLong; do 3 bind_inv Hq; injection Hq as <-;
    match goal with
    | Hs : sub ?r _ = Ok ?o |- value ?o <= value ?r =>
        unfold sub in Hs; bind_inv Hs; injection Hs as <-; simpl;
        match goal with
        | Hu : usub _ ?x = Ok _, Hd : divD _ _ = Ok ?nb |- _ =>
            apply usub_Ok in Hu as [-> _];
            unfold divD in Hd; do 2 bind_inv Hd; injection Hd as <-; simpl;
            match goal with
            | Hm : umul _ _ = Ok ?p, Hv : udiv ?p ?d = Ok _ |- _ =>
                apply umul_Ok in Hm as [-> [Hp0 _]];
                apply udiv_Ok in Hv as [-> Hd0]
            end
        end
    end;
    match goal with
    | |- _ - ?n / ?d <= _ =>
        assert (0 <= n / d)
          by (match goal with
              | Ha : add _ _ = Ok _ |- _ => apply add_Ok in Ha as [_ [? _]]
              end; apply Z.div_pos; lia);
        lia
    end.
Qed.

Lemma X2_swap_moves_reserves_witness :
  2%N = clearingHouse deployed /\ isPaused deployed = false /\
  0 < 1000 * 10 ^ 18 /\
  after_long_swap = after_swap deployed true (1000 * 10 ^ 18) 498251621566649026 /\
  0 <= 498251621566649026 /\
  0 <= 498251621566649026 <= value (if true then virtualBase deployed
                                    else virtualQuote deployed).
Proof.
  apply (X2_swap_moves_reserves deployed after_long_swap 2%N true
           (1000 * 10 ^ 18) 0 498251621566649026).
  vm_compute. reflexivity.
Defined.

(** X3: the admin can always pause.  While paused, every swap of the
    clearing house fails with "Trading paused", the quote and the spot
    price are the ones from before the pause, and setting the flag back
    restores the state exactly. *)
Theorem X3_pause_blocks_swaps_only (s : Vamm.State) :
  let paused := step s (admin s) (SetPaused true) in
  setPaused s (admin s) true = Ok (paused, tt) /\
  isPaused paused = true /\
  (forall isLong amountIn minAmountOut,
     swap paused (clearingHouse s) isLong amountIn minAmountOut
     = Revert (RequireFailed "Trading paused")) /\
  (forall isLong amountIn,
     getAmountOut paused isLong amountIn = getAmountOut s isLong amountIn) /\
  getSpotPrice paused = getSpotPrice s /\
  step paused (admin s) (SetPaused (isPaused s)) = s.
Proof.
  unfold step, setPaused, onlyAdmin.
  rewrite bool_decide_eq_true_2 by reflexivity. simpl.
  repeat split.
  - intros isLong amountIn minAmountOut.
    unfold swap, onlyClearingHouse, whenNotPaused. simpl.
    now rewrite bool_decide_eq_true_2 by reflexivity.
  - rewrite bool_decide_eq_true_2 by reflexivity. simpl. now destruct s.
Qed.

(** X4: a successful [adjustReserves] is made by the admin with two
    positive reserves; it stores them and a [k] that is their fixed-point
    product, so the state is exactly on the curve again, and it keeps the
    pause flag and both privileged addresses. *)
Theorem X4_adjustReserves_restarts_the_curve
    (s s' : Vamm.State) (sender : address) (newBase newQuote : D256) :
  adjustReserves s sender newBase newQuote = Ok (s', tt) ->
  sender = admin s /\
  0 < value newBase /\ 0 < value newQuote /\
  virtualBase s' = newBase /\ virtualQuote s' = newQuote /\
  value (k s') = value newBase * value newQuote / 10 ^ 18 /\
  on_curve s' /\
  isPaused s' = isPaused s /\ admin s' = admin s /\
  clearingHouse s' = clearingHouse s.
Proof.
  unfold adjustReserves, onlyAdmin. intros H.
  bind_as H u1 Hs. apply require_Ok in Hs. apply bool_decide_eq_true_1 in Hs.
  bind_as H u2 Hr. apply require_Ok in Hr. apply andb_true_iff in Hr as [Hb Hq].
  apply Z.ltb_lt in Hb, Hq.
  bind_as H k' Hk. injection H as <-. simpl.
  repeat split; try assumption.
  unfold mulD in Hk. do 2 bind_inv Hk. injection Hk as <-. simpl.
  match goal with
  | Hm : umul _ _ = Ok _, Hv : udiv _ _ = Ok _ |- _ =>
      apply umul_Ok in Hm as [-> _]; now apply udiv_Ok in Hv as [-> _]
  end.
Qed.

Definition rebalanced : Vamm.State :=
  commit after_long_swap
    (adjustReserves after_long_swap 1%N (d256 (1000 * 10 ^ 18))
       (d256 (2000000 * 10 ^ 18))).

Lemma X4_adjustReserves_restarts_the_curve_witness :
  1%N = admin after_long_swap /\
  0 < value (d256 (1000 * 10 ^ 18)) /\ 0 < value (d256 (2000000 * 10 ^ 18)) /\
  virtualBase rebalanced = d256 (1000 * 10 ^ 18) /\
  virtualQuote rebalanced = d256 (2000000 * 10 ^ 18) /\
  value (k rebalanced)
    = value (d256 (1000 * 10 ^ 18)) * value (d256 (2000000 * 10 ^ 18)) / 10 ^ 18 /\
  on_curve rebalanced /\
  isPaused rebalanced = isPaused after_long_swap /\
  admin rebalanced = admin after_long_swap /\
  clearingHouse rebalanced = clearingHouse after_long_swap.
Proof.
  apply (X4_adjustReserves_restarts_the_curve after_long_swap rebalanced 1%N
           (d256 (1000 * 10 ^ 18)) (d256 (2000000 * 10 ^ 18))).
  vm_compute. reflexivity.
Defined.

(** An account that is neither the clearing house nor the admin cannot
    change the market maker. *)
Lemma vamm_outsiders_change_nothing
    (s : Vamm.State) (sender : address) (c : Vamm.Call) :
  sender <> clearingHouse s ->
  sender <> admin s ->
  step s sender c = s.
Proof.
  intros Hch Hadmin.
  destruct c as [isLong amountIn minAmountOut | newBase newQuote | p]; simpl.
  - unfold swap, onlyClearingHouse.
    now rewrite bool_decide_eq_false_2 by assumption.
  - unfold adjustReserves, onlyAdmin.
    now rewrite bool_decide_eq_false_2 by assumption.
  - unfold setPaused, onlyAdmin.
    now rewrite bool_decide_eq_false_2 by assumption.
Qed.

End VammFurther.

(** ** libraries/SafeDecimalMath.sol *)

(** Checked [uint256] remainder. *)
Definition umod (a b : Z) : result Z :=
  if b =? 0 then Revert (Panic DivisionByZero) else Ok (a mod b).

Module SafeDecimalMath.

Definition mulDecimal (x y : Z) : result Z :=
  p ← umul x y; udiv p UNIT.

Definition divDecimal (x y : Z) : result Z :=
  p ← umul x UNIT; udiv p y.

Definition mulDecimalRound (x y : Z) : result Z :=
  p ← umul x y;
  quotient ← udiv p UNIT;
  p' ← umul x y;
  remainder ← umod p' UNIT;
  half ← udiv UNIT 2;
  if half <=? remainder then uadd quotient 1 else Ok quotient.

Definition divDecimalRound (x y : Z) : result Z :=
  p ← umul x UNIT;
  quotient ← udiv p y;
  p' ← umul x UNIT;
  remainder ← umod p' y;
  half ← udiv y 2;
  if half <=? remainder then uadd quotient 1 else Ok quotient.

Definition toDecimal (x : Z) : Decimal.D256 := Decimal.d256 x.
Definition toSignedDecimal (x : Z) : SignedDecimal.S256 := SignedDecimal.s256 x.

End SafeDecimalMath.

(** ** Fixed-point arithmetic: rounding, overflow, sign conversions *)

Section DecimalFurther.
Import Decimal.

Lemma UNIT_value : UNIT = 1000000000000000000.
Proof. reflexivity. Qed.

Lemma umod_nonzero (a b : Z) : b <> 0 -> umod a b = Ok (a mod b).
Proof. intros H. unfold umod. now rewrite (proj2 (Z.eqb_neq _ _) H). Qed.

(** Runs the binds whose first computation is already a value, without
    evaluating any arithmetic. *)
Ltac run_binds := unfold mbind, result_bind; cbv beta iota.

(** X6: [mulDecimalRound] succeeds whenever the product fits [uint256];
    its result is the truncated [mulDecimal] or one more, and it is the
    nearest multiple: twice the distance between [result * 10^18] and
    [x * y] is at most [10^18]. *)
Theorem X6_mulDecimalRound_is_nearest (x y : Z) :
  in_uint256 (x * y) ->
  exists r,
    SafeDecimalMath.mulDecimalRound x y = Ok r /\
    SafeDecimalMath.mulDecimal x y = Ok (x * y / UNIT) /\
    x * y / UNIT <= r <= x * y / UNIT + 1 /\
    2 * Z.abs (r * UNIT - x * y) <= UNIT.
Proof.
  intros Hfit. unfold SafeDecimalMath.mulDecimalRound, SafeDecimalMath.mulDecimal.
  rewrite (umul_fits _ _ Hfit). run_binds.
  pose proof (Z.div_mod (x * y) UNIT ltac:(rewrite UNIT_value; lia)) as Hdm.
  pose proof (Z.mod_pos_bound (x * y) UNIT ltac:(rewrite UNIT_value; lia)) as Hmod.
  rewrite (udiv_nonzero (x * y) UNIT) by (rewrite UNIT_value; lia).
  rewrite (umod_nonzero (x * y) UNIT) by (rewrite UNIT_value; lia).
  rewrite (udiv_nonzero UNIT 2) by lia. run_binds.
  change (UNIT / 2) with 500000000000000000.
  destruct (500000000000000000 <=? (x * y) mod UNIT) eqn:Hhalf;
    [apply Z.leb_le in Hhalf | apply Z.leb_gt in Hhalf].
  - assert (Hq : in_uint256 (x * y / UNIT + 1)).
    { unfold in_uint256, MAX_UINT256 in *. rewrite UNIT_value in *.
      assert (0 <= x * y / 1000000000000000000) by (apply Z.div_pos; lia).
      lia. }
    rewrite (uadd_fits _ _ Hq). eexists. split; [reflexivity |].
    split; [reflexivity |]. rewrite UNIT_value in *. split; lia.
  - eexists. split; [reflexivity |]. split; [reflexivity |].
    rewrite UNIT_value in *. split; lia.
Qed.

Lemma X6_mulDecimalRound_is_nearest_witness :
  exists r,
    SafeDecimalMath.mulDecimalRound 3 500000000000000000 = Ok r /\
    SafeDecimalMath.mulDecimal 3 500000000000000000
      = Ok (3 * 500000000000000000 / UNIT) /\
    3 * 500000000000000000 / UNIT <= r <= 3 * 500000000000000000 / UNIT + 1 /\
    2 * Z.abs (r * UNIT - 3 * 500000000000000000) <= UNIT.
Proof.
  apply (X6_mulDecimalRound_is_nearest 3 500000000000000000).
  vm_compute. split; discriminate.
Defined.

(** X7: [divDecimalRound] succeeds whenever [x * 10^18] fits [uint256]
    and the divisor is positive; it rounds up as soon as the remainder
    reaches [y / 2] rounded down, so [result * y] exceeds [x * 10^18] by at
    most [(y + 1) / 2] and falls short of it by less than [y / 2]. *)
Theorem X7_divDecimalRound_error_bound (x y : Z) :
  in_uint256 (x * UNIT) ->
  0 < y ->
  exists r,
    SafeDecimalMath.divDecimalRound x y = Ok r /\
    SafeDecimalMath.divDecimal x y = Ok (x * UNIT / y) /\
    x * UNIT / y <= r <= x * UNIT / y + 1 /\
    - (y / 2) < r * y - x * UNIT <= (y + 1) / 2.
Proof.
  intros Hfit Hy.
  unfold SafeDecimalMath.divDecimalRound, SafeDecimalMath.divDecimal.
  rewrite (umul_fits _ _ Hfit). run_binds.
  rewrite (udiv_nonzero (x * UNIT) y) by lia.
  rewrite (umod_nonzero (x * UNIT) y) by lia.
  rewrite (udiv_nonzero y 2) by lia. run_binds.
  set (n := x * UNIT) in *.
  pose proof (Z.div_mod n y ltac:(lia)) as Hdm.
  pose proof (Z.mod_pos_bound n y Hy) as Hmod.
  pose proof (Z.div_mod y 2 ltac:(lia)) as Hy2.
  pose proof (Z.mod_pos_bound y 2 ltac:(lia)) as Hy2m.
  pose proof (Z.div_mod (y + 1) 2 ltac:(lia)) as Hy3.
  pose proof (Z.mod_pos_bound (y + 1) 2 ltac:(lia)) as Hy3m.
  assert (Hn0 : 0 <= n) by apply Hfit.
  assert (Hq0 : 0 <= n / y) by (apply Z.div_pos; lia).
  assert (Hqn : n / y <= n).
  { apply Z.div_le_upper_bound; [lia | nia]. }
  assert (Hmul : y * (n / y) = (n / y) * y) by lia.
  destruct (y / 2 <=? n mod y) eqn:Hhalf;
    [apply Z.leb_le in Hhalf | apply Z.leb_gt in Hhalf].
  - assert (Hq : in_uint256 (n / y + 1)).
    { unfold in_uint256 in *. split; [lia |].
      assert (n <> MAX_UINT256).
      { subst n. rewrite UNIT_value. unfold MAX_UINT256.
        intros Heq. lia. }
      lia. }
    rewrite (uadd_fits _ _ Hq). eexists. split; [reflexivity |].
    split; [reflexivity |]. split; [lia |].
    replace ((n / y + 1) * y) with (n / y * y + y) by lia. lia.
  - eexists. split; [reflexivity |]. split; [reflexivity |]. split; lia.
Qed.

Lemma X7_divDecimalRound_error_bound_witness :
  exists r,
    SafeDecimalMath.divDecimalRound 1 3 = Ok r /\
    SafeDecimalMath.divDecimal 1 3 = Ok (1 * UNIT / 3) /\
    1 * UNIT / 3 <= r <= 1 * UNIT / 3 + 1 /\
    - (3 / 2) < r * 3 - 1 * UNIT <= (3 + 1) / 2.
Proof.
  apply (X7_divDecimalRound_error_bound 1 3).
  - vm_compute. split; discriminate.
  - reflexivity.
Defined.

(** X8: dividing by a divisor of 1 always rounds up, because the remainder
    0 reaches [1 / 2 = 0]: [divDecimalRound x 1] is [x * 10^18 + 1], one
    more than the exact quotient that [divDecimal x 1] returns. *)
Theorem X8_divDecimalRound_by_one_is_off_by_one (x : Z) :
  in_uint256 (x * UNIT) ->
  SafeDecimalMath.divDecimalRound x 1 = Ok (x * UNIT + 1) /\
  SafeDecimalMath.divDecimal x 1 = Ok (x * UNIT).
Proof.
  intros Hfit.
  unfold SafeDecimalMath.divDecimalRound, SafeDecimalMath.divDecimal.
  rewrite (umul_fits _ _ Hfit). run_binds.
  rewrite (udiv_nonzero (x * UNIT) 1) by lia.
  rewrite (umod_nonzero (x * UNIT) 1) by lia.
  rewrite (udiv_nonzero 1 2) by lia. run_binds.
  rewrite Z.div_1_r, Z.mod_1_r. change (1 / 2 <=? 0) with true. cbv iota.
  split; [| reflexivity].
  apply uadd_fits. unfold in_uint256 in *. split; [lia |].
  assert (x * UNIT <> MAX_UINT256).
  { rewrite UNIT_value. unfold MAX_UINT256. intros Heq. lia. }
  lia.
Qed.

Lemma X8_divDecimalRound_by_one_is_off_by_one_witness :
  SafeDecimalMath.divDecimalRound 5 1 = Ok (5 * UNIT + 1) /\
  SafeDecimalMath.divDecimal 5 1 = Ok (5 * UNIT).
Proof.
  apply (X8_divDecimalRound_by_one_is_off_by_one 5).
  vm_compute. split; discriminate.
Defined.

(** X9: multiplying or dividing a decimal by [one] gives the decimal back
    only while [a * 10^18] fits [uint256]; above that both panic with an
    overflow although the result itself would fit. *)
Theorem X9_one_is_neutral_until_overflow (a : Z) :
  0 <= a ->
  mulD (d256 a) one
    = (if a * 10 ^ 18 <=? MAX_UINT256 then Ok (d256 a)
       else Revert (Panic ArithmeticOverflow)) /\
  divD (d256 a) one
    = (if a * 10 ^ 18 <=? MAX_UINT256 then Ok (d256 a)
       else Revert (Panic ArithmeticOverflow)).
Proof.
  intros Ha. unfold mulD, divD, one, umul, fits_uint256.
  cbn [value].
  rewrite (proj2 (Z.leb_le 0 (a * 10 ^ 18))) by lia. rewrite andb_true_l.
  destruct (a * 10 ^ 18 <=? MAX_UINT256); [| split; reflexivity].
  run_binds. rewrite (udiv_nonzero (a * 10 ^ 18) (10 ^ 18)) by lia.
  run_binds. rewrite Z.div_mul by lia. split; reflexivity.
Qed.

Lemma X9_one_is_neutral_until_overflow_witness :
  mulD (d256 (2 ^ 200)) one
    = (if 2 ^ 200 * 10 ^ 18 <=? MAX_UINT256 then Ok (d256 (2 ^ 200))
       else Revert (Panic ArithmeticOverflow)) /\
  divD (d256 (2 ^ 200)) one
    = (if 2 ^ 200 * 10 ^ 18 <=? MAX_UINT256 then Ok (d256 (2 ^ 200))
       else Revert (Panic ArithmeticOverflow)).
Proof.
  apply (X9_one_is_neutral_until_overflow (2 ^ 200)).
  vm_compute. discriminate.
Defined.

(** X10: dividing a decimal by [b] and multiplying the quotient by [b]
    again never gains value, and loses at most [b / 10^18 + 1] units. *)
Theorem X10_divD_then_mulD_loses_little (a b q r : D256) :
  0 < value b ->
  divD a b = Ok q ->
  mulD q b = Ok r ->
  value a - value b / 10 ^ 18 - 1 <= value r <= value a.
Proof.
  intros Hb Hq Hr.
  pose proof (divD_floor _ _ _ Hq Hb) as Hfloor.
  unfold mulD in Hr. bind_as Hr p Hp. bind_as Hr v Hv. injection Hr as <-.
  apply umul_Ok in Hp as [-> _]. apply udiv_Ok in Hv as [-> _]. cbn [value].
  change (10 ^ 18) with 1000000000000000000 in *.
  pose proof (Z.div_mod (value q * value b) 1000000000000000000 ltac:(lia)).
  pose proof (Z.mod_pos_bound (value q * value b) 1000000000000000000 ltac:(lia)).
  pose proof (Z.div_mod (value b) 1000000000000000000 ltac:(lia)).
  pose proof (Z.mod_pos_bound (value b) 1000000000000000000 ltac:(lia)).
  lia.
Qed.

Lemma X10_divD_then_mulD_loses_little_witness :
  value (d256 (10 ^ 18)) - value (d256 (3 * 10 ^ 18)) / 10 ^ 18 - 1
  <= value (d256 999999999999999999)
  <= value (d256 (10 ^ 18)).
Proof.
  apply (X10_divD_then_mulD_loses_little (d256 (10 ^ 18)) (d256 (3 * 10 ^ 18))
           (d256 333333333333333333) (d256 999999999999999999)).
  - reflexivity.
  - vm_compute. reflexivity.
  - vm_compute. reflexivity.
Defined.

Lemma abs_value (x : Z) :
  MIN_INT256 < x <= MAX_INT256 ->
  SignedDecimal.abs (SignedDecimal.s256 x) = Ok (d256 (Z.abs x)).
Proof.
  unfold MIN_INT256, MAX_INT256. intros Hx.
  unfold SignedDecimal.abs. cbn [SignedDecimal.value].
  destruct (0 <=? x) eqn:Hsign;
    [apply Z.leb_le in Hsign | apply Z.leb_gt in Hsign].
  - rewrite to_uint256_small by (unfold in_uint256, MAX_UINT256; lia).
    now rewrite Z.abs_eq by lia.
  - rewrite sneg_fits by (unfold in_int256, MIN_INT256, MAX_INT256; lia).
    run_binds.
    rewrite to_uint256_small by (unfold in_uint256, MAX_UINT256; lia).
    now rewrite Z.abs_neq by lia.
Qed.

(** X11: turning an unsigned decimal into a signed one and back returns it
    only up to [2^255 - 1]; above that the signed value is negative and the
    way back fails with "Cannot convert negative".  [abs] is the absolute
    value on every [int256] except the minimum, where it panics. *)
Theorem X11_sign_conversions (d x : Z) :
  in_uint256 d ->
  in_int256 x ->
  SignedDecimal.toUnsigned (toSigned (d256 d))
    = (if d <=? MAX_INT256 then Ok (d256 d)
       else Revert (RequireFailed "Cannot convert negative")) /\
  SignedDecimal.abs (SignedDecimal.s256 x)
    = (if x =? MIN_INT256 then Revert (Panic ArithmeticOverflow)
       else Ok (d256 (Z.abs x))).
Proof.
  unfold in_uint256, in_int256, MAX_UINT256, MIN_INT256, MAX_INT256.
  intros Hd Hx. split.
  - unfold SignedDecimal.toUnsigned, toSigned, to_int256, MAX_INT256.
    cbn [Decimal.value SignedDecimal.value].
    destruct (d <=? 2 ^ 255 - 1) eqn:Hle;
      [apply Z.leb_le in Hle | apply Z.leb_gt in Hle].
    + rewrite (proj2 (Z.leb_le 0 d)) by lia. unfold require. run_binds.
      rewrite to_uint256_small by (unfold in_uint256, MAX_UINT256; lia).
      reflexivity.
    + rewrite (proj2 (Z.leb_gt 0 (d - 2 ^ 256))) by lia. reflexivity.
  - unfold SignedDecimal.abs. cbn [SignedDecimal.value].
    destruct (x =? - 2 ^ 255) eqn:Hmin;
      [apply Z.eqb_eq in Hmin | apply Z.eqb_neq in Hmin].
    + subst x. reflexivity.
    + destruct (0 <=? x) eqn:Hsign;
        [apply Z.leb_le in Hsign | apply Z.leb_gt in Hsign].
      * rewrite to_uint256_small by (unfold in_uint256, MAX_UINT256; lia).
        now rewrite Z.abs_eq by lia.
      * rewrite sneg_fits
          by (unfold in_int256, MIN_INT256, MAX_INT256; lia).
        run_binds.
        rewrite to_uint256_small by (unfold in_uint256, MAX_UINT256; lia).
        now rewrite Z.abs_neq by lia.
Qed.

Lemma X11_sign_conversions_witness :
  SignedDecimal.toUnsigned (toSigned (d256 (2 ^ 255)))
    = (if 2 ^ 255 <=? MAX_INT256 then Ok (d256 (2 ^ 255))
       else Revert (RequireFailed "Cannot convert negative")) /\
  SignedDecimal.abs (SignedDecimal.s256 (- 7))
    = (if - 7 =? MIN_INT256 then Revert (Panic ArithmeticOverflow)
       else Ok (d256 (Z.abs (- 7)))).
Proof.
  apply (X11_sign_conversions (2 ^ 255) (- 7)).
  - vm_compute. split; discriminate.
  - vm_compute. split; discriminate.
Defined.

End DecimalFurther.

(** ** The account ledger: round trips, losses, callers *)

Section AccountBalanceFurther.
Import Decimal AccountBalance.

Ltac run_binds := unfold mbind, result_bind; cbv beta iota.

Lemma getBalance_setBalance_ne (s : AccountBalance.State) (t t' : address) (v : D256) :
  t <> t' -> getBalance (setBalance s t v) t' = getBalance s t'.
Proof.
  intros Hne. unfold getBalance, setBalance. simpl.
  now rewrite lookup_insert_ne by assumption.
Qed.

Lemma deposit_correct (s : AccountBalance.State) (t : address) (amount : D256) :
  in_uint256 (value (getBalance s t) + value amount) ->
  deposit s (clearingHouse s) t amount
  = Ok (setBalance s t (d256 (value (getBalance s t) + value amount)), tt).
Proof.
  intros Hfit. unfold deposit, onlyClearingHouse, add.
  rewrite bool_decide_eq_true_2 by reflexivity. unfold require. run_binds.
  rewrite (uadd_fits _ _ Hfit). reflexivity.
Qed.

(** X12: a deposit by the clearing house that does not overflow credits
    the trader with the amount, and withdrawing the same amount right
    after brings the trader's balance back; no other trader's balance
    moves in either step. *)
Theorem X12_deposit_then_withdraw_restores_balance
    (s : AccountBalance.State) (t : address) (amount : D256) :
  in_uint256 (value (getBalance s t)) ->
  in_uint256 (value amount) ->
  in_uint256 (value (getBalance s t) + value amount) ->
  let s1 := step s (clearingHouse s) (Deposit t amount) in
  let s2 := step s1 (clearingHouse s) (Withdraw t amount) in
  getCollateral s1 t = getCollateral s t + value amount /\
  getCollateral s2 t = getCollateral s t /\
  (forall t', t' = t \/
     getCollateral s1 t' = getCollateral s t' /\
     getCollateral s2 t' = getCollateral s t').
Proof.
  intros Hbal Hamt Hsum s1 s2.
  assert (Hs1 : s1 = setBalance s t (d256 (value (getBalance s t) + value amount))).
  { subst s1. unfold step. now rewrite (deposit_correct s t amount Hsum). }
  assert (Hs2 : s2 = setBalance s1 t (d256 (value (getBalance s t)))).
  { subst s2. unfold step.
    assert (Hb1 : value (getBalance s1 t) = value (getBalance s t) + value amount)
      by (rewrite Hs1, getBalance_setBalance; reflexivity).
    replace (clearingHouse s) with (clearingHouse s1) by (rewrite Hs1; reflexivity).
    rewrite (withdraw_correct s1 t amount);
      [| rewrite Hb1; exact Hsum | exact Hamt].
    rewrite Hb1.
    assert (Hge : (value (getBalance s t) + value amount <? value amount) = false)
      by (apply Z.ltb_ge; unfold in_uint256 in *; lia).
    rewrite Hge. cbn [commit]. do 2 f_equal. lia. }
  unfold getCollateral. repeat split.
  - now rewrite Hs1, getBalance_setBalance.
  - now rewrite Hs2, getBalance_setBalance.
  - intros t'. destruct (decide (t' = t)) as [-> | Hne]; [now left | right].
    rewrite Hs2, Hs1. rewrite !getBalance_setBalance_ne by congruence. auto.
Qed.

Lemma X12_deposit_then_withdraw_restores_balance_witness :
  let s1 := step ledger0 (clearingHouse ledger0)
              (Deposit trader (d256 (50 * 10 ^ 18))) in
  let s2 := step s1 (clearingHouse ledger0)
              (Withdraw trader (d256 (50 * 10 ^ 18))) in
  getCollateral s1 trader
    = getCollateral ledger0 trader + value (d256 (50 * 10 ^ 18)) /\
  getCollateral s2 trader = getCollateral ledger0 trader /\
  (forall t', t' = trader \/
     getCollateral s1 t' = getCollateral ledger0 t' /\
     getCollateral s2 t' = getCollateral ledger0 t').
Proof.
  apply (X12_deposit_then_withdraw_restores_balance ledger0 trader
           (d256 (50 * 10 ^ 18))).
  - vm_compute. split; discriminate.
  - vm_compute. split; discriminate.
  - vm_compute. split; discriminate.
Defined.

Lemma getBalance_setPnl (s : AccountBalance.State) (t token t' : address)
    (v : SignedDecimal.S256) :
  getBalance (setPnl s t token v) t' = getBalance s t'.
Proof. reflexivity. Qed.

Lemma getPnl_setPnl (s : AccountBalance.State) (t token : address)
    (v : SignedDecimal.S256) :
  getPnl (setPnl s t token v) t token = v.
Proof. unfold getPnl, setPnl. simpl. now rewrite lookup_insert_eq. Qed.

Lemma post_balance_eq (s : AccountBalance.State) (t token : address) (a b : Z) :
  a = b ->
  Ok (setPnl (setBalance s t (d256 a)) t token SignedDecimal.zero, tt)
  = Ok (setPnl (setBalance s t (d256 b)) t token SignedDecimal.zero, tt).
Proof. now intros ->. Qed.

Lemma realizePnl_correct (s : AccountBalance.State) (t token : address) (pnl : Z) :
  in_uint256 (value (getBalance s t)) ->
  MIN_INT256 < pnl <= MAX_INT256 ->
  in_uint256 (Z.max 0 (value (getBalance s t) + pnl)) ->
  realizePnl s (clearingHouse s) t token (SignedDecimal.s256 pnl)
  = Ok (setPnl
          (setBalance s t (d256 (Z.max 0 (value (getBalance s t) + pnl))))
          t token SignedDecimal.zero, tt).
Proof.
  unfold in_uint256, MAX_UINT256, MIN_INT256, MAX_INT256.
  intros Hbal Hpnl Hfit.
  unfold realizePnl, onlyClearingHouse.
  rewrite bool_decide_eq_true_2 by reflexivity. unfold require. run_binds.
  assert (Habs : SignedDecimal.abs (SignedDecimal.s256 pnl) = Ok (d256 (Z.abs pnl))).
  { apply abs_value. unfold MIN_INT256, MAX_INT256. lia. }
  unfold SignedDecimal.isPositive. cbn [SignedDecimal.value].
  rewrite Habs. run_binds.
  destruct (0 <? pnl) eqn:Hpos; [apply Z.ltb_lt in Hpos | apply Z.ltb_ge in Hpos].
  - unfold add. cbn [value]. rewrite Z.abs_eq by lia.
    rewrite uadd_fits by (unfold in_uint256, MAX_UINT256; lia). run_binds.
    apply post_balance_eq; lia.
  - unfold gte. cbn [value]. rewrite Z.abs_neq by lia.
    destruct (- pnl <=? value (getBalance s t)) eqn:Hcov;
      [apply Z.leb_le in Hcov | apply Z.leb_gt in Hcov].
    + unfold sub. cbn [value].
      rewrite usub_fits by (unfold in_uint256, MAX_UINT256; lia). run_binds.
      apply post_balance_eq; lia.
    + unfold zero. apply post_balance_eq; lia.
Qed.

(** The ledger after [realizePnl]: the trader's balance is replaced, the
    trader's unrealized PnL for the token is set to zero, and the position
    values, every other entry and both addresses are the ones of [s]. *)
Definition realized (s : AccountBalance.State) (t token : address) (balance : Z)
    : AccountBalance.State :=
  AccountBalance.mkState
    (<[t := d256 balance]> (AccountBalance.collateral s))
    (positionValue s)
    (<[(t, token) := SignedDecimal.zero]> (unrealizedPnl s))
    (clearingHouse s) (vault s).

(** X13: [realizePnl], called by the clearing house with any [int256] PnL
    on a balance in [uint256], panics with an overflow in two cases only:
    the PnL is the minimum of [int256] (its absolute value does not exist),
    or it is a gain that takes the balance above [uint256].  In every other
    case it succeeds and the new balance is [max 0 (balance + pnl)]: a loss
    beyond the balance does not revert, it empties the balance, and the
    part not covered is stored nowhere, since the ledger afterwards differs
    from the one before in that balance and in the trader's unrealized PnL
    for the token, set to zero, and in nothing else. *)
Theorem X13_realizePnl_floors_at_zero
    (s : AccountBalance.State) (t token : address) (pnl : Z) :
  in_uint256 (value (getBalance s t)) ->
  in_int256 pnl ->
  let balance' := Z.max 0 (value (getBalance s t) + pnl) in
  realizePnl s (clearingHouse s) t token (SignedDecimal.s256 pnl)
  = (if (pnl =? MIN_INT256) || (MAX_UINT256 <? value (getBalance s t) + pnl)
     then Revert (Panic ArithmeticOverflow)
     else Ok (realized s t token balance', tt)) /\
  getCollateral (realized s t token balance') t
    = Z.max 0 (getCollateral s t + pnl) /\
  getUnrealizedPnl (realized s t token balance') t token = 0 /\
  (forall t', t' = t \/
     getCollateral (realized s t token balance') t' = getCollateral s t').
Proof.
  intros Hbal Hpnl balance'.
  split; [| split; [| split]].
  - destruct (pnl =? MIN_INT256) eqn:Hmin;
      [apply Z.eqb_eq in Hmin | apply Z.eqb_neq in Hmin].
    + subst pnl. cbn [orb].
      unfold realizePnl, onlyClearingHouse.
      rewrite bool_decide_eq_true_2 by reflexivity. reflexivity.
    + cbn [orb].
      destruct (MAX_UINT256 <? value (getBalance s t) + pnl) eqn:Hover;
        [apply Z.ltb_lt in Hover | apply Z.ltb_ge in Hover].
      * unfold realizePnl, onlyClearingHouse.
        rewrite bool_decide_eq_true_2 by reflexivity. unfold require. run_binds.
        rewrite abs_value by (unfold in_int256 in Hpnl; lia).
        unfold SignedDecimal.isPositive. cbn [SignedDecimal.value]. run_binds.
        destruct (0 <? pnl) eqn:Hpos;
          [apply Z.ltb_lt in Hpos
          | apply Z.ltb_ge in Hpos; unfold in_uint256 in Hbal; lia].
        unfold add, uadd, fits_uint256. cbn [value].
        rewrite Z.abs_eq by lia.
        rewrite (proj2 (Z.leb_gt (value (getBalance s t) + pnl) MAX_UINT256) Hover).
        rewrite andb_false_r. reflexivity.
      * apply realizePnl_correct; [assumption | |].
        -- unfold in_int256 in Hpnl. lia.
        -- unfold in_uint256 in *. lia.
  - unfold getCollateral, getBalance, realized. cbn [AccountBalance.collateral].
    now rewrite lookup_insert_eq.
  - unfold getUnrealizedPnl, getPnl, realized. cbn [unrealizedPnl].
    now rewrite lookup_insert_eq.
  - intros t'. destruct (decide (t' = t)) as [-> | Hne]; [now left | right].
    unfold getCollateral, getBalance, realized. cbn [AccountBalance.collateral].
    now rewrite lookup_insert_ne by congruence.
Qed.

(** A loss of 150 units against the balance of 100 units. *)
Lemma X13_realizePnl_floors_at_zero_witness :
  let balance' :=
    Z.max 0 (value (getBalance ledger0 trader) + - (150 * 10 ^ 18)) in
  realizePnl ledger0 (clearingHouse ledger0) trader marketToken
    (SignedDecimal.s256 (- (150 * 10 ^ 18)))
  = (if (- (150 * 10 ^ 18) =? MIN_INT256)
        || (MAX_UINT256 <? value (getBalance ledger0 trader) + - (150 * 10 ^ 18))
     then Revert (Panic ArithmeticOverflow)
     else Ok (realized ledger0 trader marketToken balance', tt)) /\
  getCollateral (realized ledger0 trader marketToken balance') trader
    = Z.max 0 (getCollateral ledger0 trader + - (150 * 10 ^ 18)) /\
  getUnrealizedPnl (realized ledger0 trader marketToken balance') trader marketToken
    = 0 /\
  (forall t', t' = trader \/
     getCollateral (realized ledger0 trader marketToken balance') t'
     = getCollateral ledger0 t').
Proof.
  apply (X13_realizePnl_floors_at_zero ledger0 trader marketToken
           (- (150 * 10 ^ 18))).
  - vm_compute. split; discriminate.
  - vm_compute. split; discriminate.
Defined.

(** Only the clearing house can change the ledger. *)
Lemma ledger_outsiders_change_nothing
    (s : AccountBalance.State) (sender : address) (c : AccountBalance.Call) :
  sender <> clearingHouse s ->
  step s sender c = s.
Proof.
  intros Hne.
  destruct c; simpl;
    unfold deposit, withdraw, updatePosition, realizePnl, onlyClearingHouse;
    now rewrite bool_decide_eq_false_2 by assumption.
Qed.

End AccountBalanceFurther.

(** ** The funding engine: settlement, caps, configuration, spacing *)

Section FundingFurther.
Import SignedDecimal Funding.

Ltac run_binds := unfold mbind, result_bind; cbv beta iota.

(** What every successful [updateFundingRate] has done. *)
Lemma updateFundingRate_Ok (s s' : Funding.State) (sender : address) (now : Z)
    (token : address) (markPrice indexPrice loi soi : Z) (rate : S256) :
  0 <= maxFundingRate s <= MAX_INT256 ->
  updateFundingRate s sender now token markPrice indexPrice loi soi = Ok (s', rate) ->
  sender = clearingHouse s /\
  timestamp (getGrowth s token) + fundingPeriod s <= now /\
  - maxFundingRate s <= value rate <= maxFundingRate s /\
  s' = settled s token now (value rate).
Proof.
  intros Hmax H. unfold updateFundingRate, onlyClearingHouse in H.
  bind_as H u1 Hs. apply require_Ok in Hs. apply bool_decide_eq_true_1 in Hs.
  bind_as H due Hdue. apply uadd_Ok in Hdue as [-> _].
  bind_as H u2 Hnow. apply require_Ok in Hnow. apply Z.leb_le in Hnow.
  bind_as H diff Hdiff. bind_as H scaled Hscaled. bind_as H premium Hpremium.
  bind_as H prorated Hprorated. bind_as H rate0 Hrate0.
  rewrite (to_int256_small (maxFundingRate s)) in H by lia.
  bind_as H negCap HnegCap. apply sneg_Ok in HnegCap as [-> _].
  bind_as H negRate HnegRate. apply sneg_Ok in HnegRate as [-> _].
  bind_as H cumulative Hcum. unfold add in Hcum. bind_as Hcum c Hc.
  injection Hcum as <-. apply sadd_Ok in Hc as [-> _].
  injection H as <- <-. cbn [value].
  split; [assumption |]. split; [assumption |].
  split; [| reflexivity].
  destruct (maxFundingRate s <? rate0) eqn:H1;
    [apply Z.ltb_lt in H1 | apply Z.ltb_ge in H1].
  - destruct (maxFundingRate s <? - maxFundingRate s) eqn:H2;
      [apply Z.ltb_lt in H2 | apply Z.ltb_ge in H2]; lia.
  - destruct (rate0 <? - maxFundingRate s) eqn:H2;
      [apply Z.ltb_lt in H2 | apply Z.ltb_ge in H2]; lia.
Qed.

Lemma getGrowth_settled (s : Funding.State) (token : address) (now rate : Z) :
  getGrowth (settled s token now rate) token
  = mkGrowth (s256 rate) (s256 (- rate)) now
      (s256 (value (cumulativeFunding (getGrowth s token)) + rate)).
Proof. unfold getGrowth at 1, settled. simpl. now rewrite lookup_insert_eq. Qed.

(** X14: [settleFunding] pays exactly what [getPendingFunding] announced
    just before, moves the trader's index to the market's cumulative index
    and leaves that cumulative index alone; right after it, nothing is
    pending for the trader on that market, whatever the position size. *)
Theorem X14_settle_pays_pending_then_nothing
    (s s' : Funding.State) (sender t token : address) (positionSize : Z)
    (owed : S256) :
  settleFunding s sender t token positionSize = Ok (s', owed) ->
  getPendingFunding s t token positionSize = Ok owed /\
  getIndex s' t token = cumulativeFunding (getGrowth s token) /\
  fundingGrowth s' = fundingGrowth s /\
  (forall size', getPendingFunding s' t token size' = Ok (s256 0)).
Proof.
  unfold settleFunding, getPendingFunding. intros H.
  bind_as H u1 Hs. bind_as H delta Hdelta. bind_as H p Hp. bind_as H q Hq.
  injection H as <- <-.
  rewrite Hdelta. run_binds. rewrite Hp. run_binds. rewrite Hq. run_binds.
  split; [reflexivity |].
  assert (Hidx : getIndex
                   (Funding.mkState (fundingGrowth s)
                      (<[(t, token) := cumulativeFunding (getGrowth s token)]>
                         (traderFundingIndex s))
                      (fundingPeriod s) (maxFundingRate s)
                      (clearingHouse s) (admin s)) t token
                 = cumulativeFunding (getGrowth s token)).
  { unfold getIndex. simpl. now rewrite lookup_insert_eq. }
  split; [exact Hidx |]. split; [reflexivity |].
  intros size'. rewrite Hidx.
  change (getGrowth (Funding.mkState _ _ _ _ _ _) token) with (getGrowth s token).
  unfold sub, ssub. rewrite Z.sub_diag. change (fits_int256 0) with true.
  run_binds. cbn [value]. unfold smul. rewrite Z.mul_0_r.
  change (fits_int256 0) with true. run_binds. reflexivity.
Qed.

(** The market of [funding0] after its first update, and a long position
    of one unit settled against it. *)
Definition funding1 : Funding.State := settled funding0 marketToken 28800 166.
Definition funding1_settled : Funding.State :=
  commit funding1 (settleFunding funding1 houseAccount trader marketToken (10 ^ 18)).

Lemma X14_settle_pays_pending_then_nothing_witness :
  getPendingFunding funding1 trader marketToken (10 ^ 18)
    = Ok (s256 16600000000000000) /\
  getIndex funding1_settled trader marketToken
    = cumulativeFunding (getGrowth funding1 marketToken) /\
  fundingGrowth funding1_settled = fundingGrowth funding1 /\
  (forall size',
     getPendingFunding funding1_settled trader marketToken size' = Ok (s256 0)).
Proof.
  apply (X14_settle_pays_pending_then_nothing funding1 funding1_settled
           houseAccount trader marketToken (10 ^ 18) (s256 16600000000000000)).
  vm_compute. reflexivity.
Defined.

(** X15: a successful [updateFundingRate] returns a rate within the
    configured maximum in absolute value, records it for longs and its
    opposite for shorts, moves the market's cumulative index by exactly
    that rate and stamps the market with the current time. *)
Theorem X15_funding_rate_within_cap
    (s s' : Funding.State) (sender : address) (now : Z) (token : address)
    (markPrice indexPrice loi soi : Z) (rate : S256) :
  0 <= maxFundingRate s <= MAX_INT256 ->
  updateFundingRate s sender now token markPrice indexPrice loi soi = Ok (s', rate) ->
  Z.abs (value rate) <= maxFundingRate s /\
  getFundingRate s' token = (value rate, - value rate) /\
  getCumulativeFunding s' token = getCumulativeFunding s token + value rate /\
  getLastFundingTime s' token = now.
Proof.
  intros Hmax H.
  destruct (updateFundingRate_Ok _ _ _ _ _ _ _ _ _ _ Hmax H)
    as (_ & _ & Hcap & ->).
  unfold getFundingRate, getCumulativeFunding, getLastFundingTime.
  rewrite getGrowth_settled. cbn.
  repeat split; lia.
Qed.

Lemma X15_funding_rate_within_cap_witness :
  Z.abs (value (s256 166)) <= maxFundingRate funding0 /\
  getFundingRate funding1 marketToken = (value (s256 166), - value (s256 166)) /\
  getCumulativeFunding funding1 marketToken
    = getCumulativeFunding funding0 marketToken + value (s256 166) /\
  getLastFundingTime funding1 marketToken = 28800.
Proof.
  apply (X15_funding_rate_within_cap funding0 funding1 houseAccount 28800
           marketToken (2100 * 10 ^ 18) (2000 * 10 ^ 18) 0 0 (s256 166)).
  - vm_compute. split; discriminate.
  - vm_compute. reflexivity.
Defined.

(** One call keeps the configuration sound. *)
Lemma step_keeps_configuration (s : Funding.State) (sender : address) (now : Z)
    (c : Funding.Call) :
  0 < fundingPeriod s ->
  maxFundingRate s <= 10000 ->
  0 < fundingPeriod (step s sender now c) /\
  maxFundingRate (step s sender now c) <= 10000 /\
  clearingHouse (step s sender now c) = clearingHouse s /\
  admin (step s sender now c) = admin s.
Proof.
  intros Hp Hm.
  destruct c as [tk mark index loi soi | tr tk sz | p | r]; simpl.
  - destruct (updateFundingRate s sender now tk mark index loi soi)
      as [[s' rate]|e] eqn:H; [| auto].
    unfold updateFundingRate in H. do 11 bind_inv H. injection H as <- _. auto.
  - destruct (settleFunding s sender tr tk sz) as [[s' owed]|e] eqn:H; [| auto].
    unfold settleFunding in H. do 4 bind_inv H. injection H as <- _. auto.
  - destruct (setFundingPeriod s sender p) as [[s' u]|e] eqn:H; [| auto].
    unfold setFundingPeriod in H. bind_as H u1 Ha. bind_as H u2 Hpos.
    apply require_Ok in Hpos. apply Z.ltb_lt in Hpos.
    injection H as <- _. auto.
  - destruct (setMaxFundingRate s sender r) as [[s' u]|e] eqn:H; [| auto].
    unfold setMaxFundingRate in H. bind_as H u1 Ha. bind_as H u2 Hle.
    apply require_Ok in Hle. apply Z.leb_le in Hle.
    injection H as <- _. auto.
Qed.

(** X16: whatever is called, by whomever and in whatever order, the
    funding period stays positive, the maximum rate stays at or below
    10000 basis points, and the clearing house and admin addresses never
    change. *)
Theorem X16_funding_configuration_stays_sound
    (s : Funding.State) (calls : list (address * Z * Funding.Call)) :
  0 < fundingPeriod s ->
  maxFundingRate s <= 10000 ->
  0 < fundingPeriod (run s calls) /\
  maxFundingRate (run s calls) <= 10000 /\
  clearingHouse (run s calls) = clearingHouse s /\
  admin (run s calls) = admin s.
Proof.
  revert s. induction calls as [| [[sender now] c] rest IH]; intros s Hp Hm.
  - simpl. auto.
  - simpl.
    destruct (step_keeps_configuration s sender now c Hp Hm)
      as (Hp' & Hm' & Hch & Had).
    destruct (IH _ Hp' Hm') as (H1 & H2 & H3 & H4).
    repeat split; congruence || assumption.
Qed.

Definition admin_attempts : list (address * Z * Funding.Call) :=
  [ (deployer, 10, SetMaxFundingRate 10001);
    (deployer, 11, SetFundingPeriod 0);
    (deployer, 12, SetMaxFundingRate 250);
    (trader, 13, SetFundingPeriod 1);
    (houseAccount, 28800,
       UpdateFundingRate marketToken (2100 * 10 ^ 18) (2000 * 10 ^ 18) 0 0) ].

Lemma X16_funding_configuration_stays_sound_witness :
  0 < fundingPeriod (run funding0 admin_attempts) /\
  maxFundingRate (run funding0 admin_attempts) <= 10000 /\
  clearingHouse (run funding0 admin_attempts) = clearingHouse funding0 /\
  admin (run funding0 admin_attempts) = admin funding0.
Proof.
  apply (X16_funding_configuration_stays_sound funding0 admin_attempts).
  - reflexivity.
  - vm_compute. discriminate.
Defined.

(** After a successful update of a market at time [now], any further
    update of that market before [now + fundingPeriod] fails with "Too
    early", whatever prices it brings. *)
Theorem updates_are_a_period_apart
    (s s' : Funding.State) (sender : address) (now now' : Z) (token : address)
    (markPrice indexPrice loi soi markPrice' indexPrice' loi' soi' : Z)
    (rate : S256) :
  0 <= maxFundingRate s <= MAX_INT256 ->
  in_uint256 (now + fundingPeriod s) ->
  updateFundingRate s sender now token markPrice indexPrice loi soi = Ok (s', rate) ->
  now' < now + fundingPeriod s ->
  updateFundingRate s' sender now' token markPrice' indexPrice' loi' soi'
  = Revert (RequireFailed "Too early").
Proof.
  intros Hmax Hdue H Hearly.
  destruct (updateFundingRate_Ok _ _ _ _ _ _ _ _ _ _ Hmax H)
    as (-> & _ & _ & ->).
  change (clearingHouse s)
    with (clearingHouse (settled s token now (value rate))).
  apply updateFundingRate_too_early_iff.
  - rewrite getGrowth_settled. exact Hdue.
  - rewrite getGrowth_settled. exact Hearly.
Qed.

Lemma updates_are_a_period_apart_witness :
  updateFundingRate funding1 houseAccount 57599 marketToken
    (3000 * 10 ^ 18) (2000 * 10 ^ 18) 0 0
  = Revert (RequireFailed "Too early").
Proof.
  apply (updates_are_a_period_apart funding0 funding1 houseAccount 28800
           57599 marketToken (2100 * 10 ^ 18) (2000 * 10 ^ 18) 0 0
           (3000 * 10 ^ 18) (2000 * 10 ^ 18) 0 0 (s256 166)).
  - vm_compute. split; discriminate.
  - vm_compute. split; discriminate.
  - vm_compute. reflexivity.
  - reflexivity.
Defined.

Lemma funding_outsiders_change_nothing
    (s : Funding.State) (sender : address) (now : Z) (c : Funding.Call) :
  sender <> clearingHouse s ->
  sender <> admin s ->
  step s sender now c = s.
Proof.
  intros Hch Hadmin.
  destruct c; simpl;
    unfold updateFundingRate, settleFunding, setFundingPeriod, setMaxFundingRate,
      onlyClearingHouse, onlyAdmin;
    now rewrite bool_decide_eq_false_2 by assumption.
Qed.

(** X5: an account that is neither the clearing house nor the admin of a
    contract cannot change it: whatever such an account calls on the market
    maker, on the ledger or on the funding engine, with whatever arguments,
    the state of that contract stays exactly as it was. *)
Theorem X5_outsiders_change_nothing
    (sender : address)
    (v : Vamm.State) (vc : Vamm.Call)
    (l : AccountBalance.State) (lc : AccountBalance.Call)
    (f : Funding.State) (now : Z) (fc : Funding.Call) :
  sender <> Vamm.clearingHouse v -> sender <> Vamm.admin v ->
  sender <> AccountBalance.clearingHouse l ->
  sender <> clearingHouse f -> sender <> admin f ->
  Vamm.step v sender vc = v /\
  AccountBalance.step l sender lc = l /\
  step f sender now fc = f.
Proof.
  intros Hv1 Hv2 Hl Hf1 Hf2.
  split; [now apply vamm_outsiders_change_nothing |].
  split; [now apply ledger_outsiders_change_nothing |].
  now apply funding_outsiders_change_nothing.
Qed.

Lemma X5_outsiders_change_nothing_witness :
  Vamm.step deployed trader
    (Vamm.AdjustReserves (Decimal.d256 1) (Decimal.d256 1)) = deployed /\
  AccountBalance.step ledger0 trader
    (AccountBalance.Deposit trader (Decimal.d256 (10 ^ 30))) = ledger0 /\
  step funding0 trader 28800 (SetMaxFundingRate 0) = funding0.
Proof.
  apply (X5_outsiders_change_nothing trader
           deployed (Vamm.AdjustReserves (Decimal.d256 1) (Decimal.d256 1))
           ledger0 (AccountBalance.Deposit trader (Decimal.d256 (10 ^ 30)))
           funding0 28800 (SetMaxFundingRate 0)).
  - vm_compute. discriminate.
  - vm_compute. discriminate.
  - vm_compute. discriminate.
  - vm_compute. discriminate.
  - vm_compute. discriminate.
Defined.

End FundingFurther.

(** ** The clearing house: what an operation touches, markets, edge cases *)

Section ClearingHouseFurther.
Import ClearingHouse.

Ltac run_binds := unfold mbind, result_bind; cbv beta iota.

Ltac case_checks :=
  repeat (match goal with
          | |- context [if ?c then _ else _] => destruct c eqn:?
          end; simpl).

(** The record a call works on: the caller's own for an open or a close,
    the named trader's for a liquidation. *)
Definition touched (sender : address) (c : Call) : address * address :=
  match c with
  | OpenPosition token _ _ _ _ => (sender, token)
  | ClosePosition token _ => (sender, token)
  | Liquidate owner token => (owner, token)
  end.

Lemma openPosition_shape (s s' : State) (sender : address) (timestamp : Z)
    (token : address) (isLong : bool) (coll lev minOut out : Z) :
  openPosition s sender timestamp token isLong coll lev minOut = Ok (s', out) ->
  exists p ev, s' = emit (setPos s sender token p) ev.
Proof.
  unfold openPosition. intros H. do 7 bind_inv H. injection H as <- _. eauto.
Qed.

Lemma closePosition_shape (s s' : State) (sender : address) (timestamp : Z)
    (token : address) (closeRatio pnl : Z) :
  closePosition s sender timestamp token closeRatio = Ok (s', pnl) ->
  exists ev, s' = emit (deletePos s sender token) ev \/
             exists p, s' = emit (setPos s sender token p) ev.
Proof.
  unfold closePosition. intros H. do 10 bind_inv H.
  bind_as H s1 Hs1. bind_inv H. injection H as <- _.
  destruct (closeRatio =? BASIS_POINTS).
  - injection Hs1 as <-. eauto.
  - do 7 bind_inv Hs1. injection Hs1 as <-. eauto.
Qed.

Lemma liquidate_shape (s s' : State) (sender owner token : address) :
  liquidate s sender owner token = Ok (s', tt) ->
  exists ev, s' = emit (deletePos s owner token) ev.
Proof.
  unfold liquidate. intros H. bind_inv H. bind_inv H.
  match goal with x : (Z * Z)%type |- _ => destruct x end.
  do 3 bind_inv H. injection H as <-. eauto.
Qed.

Lemma step_keeps_markets (s : State) (sender : address) (timestamp : Z) (c : Call) :
  markets (step s sender timestamp c) = markets s /\
  admin (step s sender timestamp c) = admin s.
Proof.
  destruct c as [token isLong coll lev minOut | token ratio | owner token]; simpl.
  - destruct (openPosition s sender timestamp token isLong coll lev minOut)
      as [[s' out]|e] eqn:H; simpl; [| auto].
    destruct (openPosition_shape _ _ _ _ _ _ _ _ _ _ H) as (p & ev & ->). auto.
  - destruct (closePosition s sender timestamp token ratio)
      as [[s' pnl]|e] eqn:H; simpl; [| auto].
    destruct (closePosition_shape _ _ _ _ _ _ _ H) as (ev & [-> | [p ->]]); auto.
  - destruct (liquidate s sender owner token) as [[s' []]|e] eqn:H; simpl; [| auto].
    destruct (liquidate_shape _ _ _ _ _ H) as (ev & ->). auto.
Qed.

(** X17: an open or a close changes at most the caller's own record for
    that token, and a liquidation at most the record of the trader it
    names; every other position, every market and the admin are left as
    they were. *)
Theorem X17_operations_touch_one_record
    (s : State) (sender : address) (timestamp : Z) (c : Call) :
  (forall key, key = touched sender c \/
     positions (step s sender timestamp c) !! key = positions s !! key) /\
  markets (step s sender timestamp c) = markets s /\
  admin (step s sender timestamp c) = admin s.
Proof.
  destruct c as [token isLong coll lev minOut | token ratio | owner token]; simpl.
  - destruct (openPosition s sender timestamp token isLong coll lev minOut)
      as [[s' out]|e] eqn:H; simpl; [| auto].
    destruct (openPosition_shape _ _ _ _ _ _ _ _ _ _ H) as (p & ev & ->).
    simpl. split; [| auto]. intros key.
    destruct (decide (key = (sender, token))) as [-> | Hne]; [now left | right].
    now rewrite lookup_insert_ne by congruence.
  - destruct (closePosition s sender timestamp token ratio)
      as [[s' pnl]|e] eqn:H; simpl; [| auto].
    destruct (closePosition_shape _ _ _ _ _ _ _ H) as (ev & [-> | [p ->]]);
      simpl; (split; [| auto]); intros key;
      (destruct (decide (key = (sender, token))) as [-> | Hne];
       [now left | right]).
    + now rewrite lookup_delete_ne by congruence.
    + now rewrite lookup_insert_ne by congruence.
  - destruct (liquidate s sender owner token) as [[s' []]|e] eqn:H; simpl; [| auto].
    destruct (liquidate_shape _ _ _ _ _ H) as (ev & ->).
    simpl. split; [| auto]. intros key.
    destruct (decide (key = (owner, token))) as [-> | Hne]; [now left | right].
    now rewrite lookup_delete_ne by congruence.
Qed.

(** [addMarket] succeeds only for the admin; it registers the market
    as active with the given pool and maximum leverage and with the fixed
    maintenance ratio 50 and liquidation fee 500, replacing whatever was
    registered for that token, and leaves the other markets and every
    position as they were. *)
Theorem addMarket_registers_fixed_parameters
    (s s' : State) (sender token vamm' : address) (maxLeverage' : Z) :
  addMarket s sender token vamm' maxLeverage' = Ok (s', tt) ->
  sender = admin s /\
  getMarket s' token = mkMarket token vamm' true maxLeverage' 50 500 /\
  (forall token', token' = token \/ getMarket s' token' = getMarket s token') /\
  positions s' = positions s.
Proof.
  unfold addMarket, onlyAdmin. intros H.
  bind_as H u1 Hs. apply require_Ok in Hs. apply bool_decide_eq_true_1 in Hs.
  injection H as <-. unfold getMarket. simpl.
  split; [assumption |]. split; [now rewrite lookup_insert_eq |].
  split; [| reflexivity].
  intros token'. destruct (decide (token' = token)) as [-> | Hne]; [now left | right].
  now rewrite lookup_insert_ne by congruence.
Qed.

Lemma addMarket_registers_fixed_parameters_witness :
  deployer = admin emptyHouse /\
  getMarket house0 marketToken = mkMarket marketToken marketToken true 10000 50 500 /\
  (forall token', token' = marketToken \/
     getMarket house0 token' = getMarket emptyHouse token') /\
  positions house0 = positions emptyHouse.
Proof.
  apply (addMarket_registers_fixed_parameters emptyHouse house0 deployer
           marketToken marketToken 10000).
  vm_compute. reflexivity.
Defined.

Lemma act_keeps_active (s : State) (sender : address) (timestamp : Z)
    (a : Action) (token : address) :
  isActive (getMarket s token) = true ->
  isActive (getMarket (act s sender timestamp a) token) = true.
Proof.
  intros Hact. destruct a as [c | tk vamm' lev]; simpl.
  - unfold getMarket.
    destruct (step_keeps_markets s sender timestamp c) as [-> _]. exact Hact.
  - destruct (addMarket s sender tk vamm' lev) as [[s' []]|e] eqn:H; simpl;
      [| exact Hact].
    unfold addMarket in H. bind_inv H. injection H as <-.
    unfold getMarket. simpl.
    destruct (decide (tk = token)) as [-> | Hne].
    + now rewrite lookup_insert_eq.
    + rewrite lookup_insert_ne by congruence. exact Hact.
Qed.

(** X18: a market that is active stays active through every sequence of
    calls to the clearing house, by any callers: no entry point pauses or
    removes a market. *)
Theorem X18_active_markets_stay_active
    (s : State) (actions : list (address * Z * Action)) (token : address) :
  isActive (getMarket s token) = true ->
  isActive (getMarket (play s actions) token) = true.
Proof.
  revert s. induction actions as [| [[sender timestamp] a] rest IH]; intros s Hact.
  - exact Hact.
  - simpl. apply IH. now apply act_keeps_active.
Qed.

Definition busy_day : list (address * Z * Action) :=
  [ (trader, 1000, OnPosition (OpenPosition marketToken true (100 * 10 ^ 18) 1000 0));
    (trader, 1001, AddMarket marketToken 0%N 0);
    (deployer, 1002, AddMarket marketToken 4%N 5);
    (trader, 1003, OnPosition (ClosePosition marketToken 10000)) ].

Lemma X18_active_markets_stay_active_witness :
  isActive (getMarket (play house0 busy_day) marketToken) = true.
Proof.
  apply (X18_active_markets_stay_active house0 busy_day marketToken).
  vm_compute. reflexivity.
Defined.

(** Past its two entry guards, [openPosition] can only fail on slippage
    or by a panic. *)
Lemma openPosition_after_guards (s : State) (sender : address) (timestamp : Z)
    (token : address) (isLong : bool) (coll lev minOut : Z) (e : Error) :
  isActive (getMarket s token) = true ->
  lev <= maxLeverage (getMarket s token) ->
  openPosition s sender timestamp token isLong coll lev minOut = Revert e ->
  e = RequireFailed "Slippage exceeded" \/ exists c, e = Panic c.
Proof.
  intros Hact Hlev. apply Z.leb_le in Hlev.
  unfold openPosition. rewrite Hact, Hlev.
  unfold absSize, require, umul, udiv, uadd, sadd, sneg, mbind, result_bind.
  cbv beta iota zeta.
  repeat (match goal with
          | |- context [if ?c then _ else _] => destruct c
          end; cbv beta iota zeta);
    intros [= <-]; eauto.
Qed.

(** X19: the two entry guards of [openPosition] in the order the code
    applies them: it fails with "Market not active" exactly when the token's
    market is not active (a token never added counts as inactive), and with
    "Leverage too high" exactly when the market is active and the leverage
    exceeds its maximum; a leverage equal to the maximum passes the guard. *)
Theorem X19_openPosition_guards
    (s : State) (sender : address) (timestamp : Z) (token : address)
    (isLong : bool) (coll lev minOut : Z) :
  (openPosition s sender timestamp token isLong coll lev minOut
     = Revert (RequireFailed "Market not active")
   <-> isActive (getMarket s token) = false) /\
  (openPosition s sender timestamp token isLong coll lev minOut
     = Revert (RequireFailed "Leverage too high")
   <-> isActive (getMarket s token) = true /\
       maxLeverage (getMarket s token) < lev).
Proof.
  destruct (isActive (getMarket s token)) eqn:Hact.
  - destruct (lev <=? maxLeverage (getMarket s token)) eqn:Hlev;
      [apply Z.leb_le in Hlev | apply Z.leb_gt in Hlev].
    + split; split; intros H; try discriminate.
      * destruct (openPosition_after_guards _ _ _ _ _ _ _ _ _ Hact Hlev H)
          as [He | [c He]]; discriminate.
      * destruct (openPosition_after_guards _ _ _ _ _ _ _ _ _ Hact Hlev H)
          as [He | [c He]]; discriminate.
      * destruct H. lia.
    + assert (Hres : openPosition s sender timestamp token isLong coll lev minOut
                     = Revert (RequireFailed "Leverage too high")).
      { unfold openPosition. rewrite Hact.
        rewrite (proj2 (Z.leb_gt _ _) Hlev). reflexivity. }
      rewrite Hres. split; split; intros H; try discriminate; auto.
  - assert (Hres : openPosition s sender timestamp token isLong coll lev minOut
                   = Revert (RequireFailed "Market not active")).
    { unfold openPosition. rewrite Hact. reflexivity. }
    rewrite Hres. split; split; intros H; try discriminate; try reflexivity.
    destruct H. discriminate.
Qed.

(** X20: on an active market, a trader without a position cannot open one
    whose notional [collateral * leverage / 10000] rounds to zero.  A
    leverage above the market's maximum is rejected first, with "Leverage
    too high"; within the maximum, the call panics with a division by zero
    if no minimum is asked for (the entry price divides by the size), and
    with a positive minimum it fails with "Slippage exceeded". *)
Theorem X20_dust_order_cannot_open
    (s : State) (sender : address) (timestamp : Z) (token : address)
    (isLong : bool) (coll lev minOut : Z) :
  isActive (getMarket s token) = true ->
  size (getPos s sender token) = 0 ->
  0 <= coll * lev < 10000 ->
  openPosition s sender timestamp token isLong coll lev minOut
  = (if maxLeverage (getMarket s token) <? lev
     then Revert (RequireFailed "Leverage too high")
     else if minOut <=? 0 then Revert (Panic DivisionByZero)
     else Revert (RequireFailed "Slippage exceeded")).
Proof.
  intros Hact Hsize Hdust. unfold openPosition, BASIS_POINTS.
  rewrite Hact. rewrite Z.ltb_antisym.
  destruct (lev <=? maxLeverage (getMarket s token)); cbn [negb];
    [| reflexivity].
  unfold require. run_binds.
  rewrite umul_fits by (unfold in_uint256, MAX_UINT256; lia). run_binds.
  rewrite udiv_nonzero by lia. run_binds.
  rewrite (Z.div_small (coll * lev) 10000) by lia.
  destruct (minOut <=? 0); [| reflexivity]. run_binds.
  change (to_int256 0) with 0.
  rewrite Hsize. change (0 =? 0) with true.
  destruct isLong; reflexivity.
Qed.

(** A collateral of 9 at leverage 1000 on the test market. *)
Lemma X20_dust_order_cannot_open_witness :
  openPosition house0 trader 1000 marketToken true 9 1000 0
  = (if maxLeverage (getMarket house0 marketToken) <? 1000
     then Revert (RequireFailed "Leverage too high")
     else if 0 <=? 0 then Revert (Panic DivisionByZero)
     else Revert (RequireFailed "Slippage exceeded")).
Proof.
  apply (X20_dust_order_cannot_open house0 trader 1000 marketToken true 9 1000 0).
  - vm_compute. reflexivity.
  - vm_compute. reflexivity.
  - vm_compute. split; [discriminate | reflexivity].
Defined.

Lemma absSize_Ok_abs (sz posSize : Z) :
  in_int256 sz -> absSize sz = Ok posSize -> posSize = Z.abs sz.
Proof.
  unfold in_int256, MIN_INT256, MAX_INT256, absSize. intros Hr.
  destruct (0 <? sz) eqn:Hpos; [apply Z.ltb_lt in Hpos | apply Z.ltb_ge in Hpos].
  - intros [= <-]. rewrite to_uint256_small by (unfold in_uint256, MAX_UINT256; lia).
    lia.
  - intros H. bind_as H n Hn. apply sneg_Ok in Hn as [-> [_ Hhi]].
    injection H as <-. unfold MAX_INT256 in Hhi.
    rewrite to_uint256_small by (unfold in_uint256, MAX_UINT256; lia). lia.
Qed.

(** X21: a successful close at a ratio below 10000 never closes the
    position: the size keeps its sign and shrinks in absolute value by
    [|size| * closeRatio / 10000], which is less than [|size|], so the
    record stays open, also when collateral and notional round to zero. *)
Theorem X21_partial_close_keeps_position_open
    (s s' : State) (sender : address) (timestamp : Z) (token : address)
    (closeRatio pnl : Z) :
  in_int256 (size (getPos s sender token)) ->
  closeRatio < 10000 ->
  closePosition s sender timestamp token closeRatio = Ok (s', pnl) ->
  let old := size (getPos s sender token) in
  let new := size (getPos s' sender token) in
  new <> 0 /\
  Z.sgn new = Z.sgn old /\
  Z.abs new = Z.abs old - Z.abs old * closeRatio / 10000 /\
  0 <= closeRatio.
Proof.
  intros Hrange Hratio H old new.
  pose proof H as Hsucc.
  destruct (closePosition_correct _ _ _ _ _ _ _ H)
    as (Hnz & _ & _ & _ & Hcase).
  rewrite (proj2 (Z.eqb_neq closeRatio 10000)) in Hcase by lia.
  destruct Hcase as (posSize & Habs & Hsize & _).
  pose proof (absSize_Ok_abs _ _ Hrange Habs) as ->.
  assert (Hfit : in_uint256 (Z.abs old * closeRatio)).
  { unfold closePosition in Hsucc. do 2 bind_inv Hsucc.
    bind_as Hsucc ps Hps. fold old in Habs. unfold old in *.
    rewrite Habs in Hps. injection Hps as <-.
    bind_as Hsucc scaled Hscaled. now apply umul_Ok in Hscaled as [_ ?]. }
  fold old in Hnz, Hsize, Hrange. fold new in Hsize.
  assert (Hr0 : 0 <= closeRatio).
  { unfold in_uint256 in Hfit. nia. }
  assert (Hlt : Z.abs old * closeRatio / 10000 < Z.abs old).
  { apply Z.div_lt_upper_bound; [lia | nia]. }
  assert (Hge : 0 <= Z.abs old * closeRatio / 10000).
  { apply Z.div_pos; [nia | lia]. }
  destruct (0 <? old) eqn:Hpos; [apply Z.ltb_lt in Hpos | apply Z.ltb_ge in Hpos];
    repeat split; lia.
Qed.

Lemma X21_partial_close_keeps_position_open_witness :
  let old := size (getPos (System.house sys1) trader marketToken) in
  let new := size (getPos (System.house sys1_reduced) trader marketToken) in
  new <> 0 /\
  Z.sgn new = Z.sgn old /\
  Z.abs new = Z.abs old - Z.abs old * 2500 / 10000 /\
  0 <= 2500.
Proof.
  apply (X21_partial_close_keeps_position_open (System.house sys1)
           (System.house sys1_reduced) trader 1001 marketToken 2500 0).
  - vm_compute. split; discriminate.
  - reflexivity.
  - vm_compute. reflexivity.
Defined.

End ClearingHouseFurther.

(** ** core/InsuranceFund.sol *)

Module InsuranceFund.
Import Decimal.

(** The events of this contract carry no state and are left out. *)
Record State := mkState {
  totalBalance : D256;
  clearingHouse : address;
  admin : address;
  contributions : gmap address D256
}.

Definition getContributionOf (s : State) (who : address) : D256 :=
  default zero (contributions s !! who).

Definition onlyClearingHouse (s : State) (sender : address) : result unit :=
  require (bool_decide (sender = clearingHouse s)) "Only ClearingHouse".
Definition onlyAdmin (s : State) (sender : address) : result unit :=
  require (bool_decide (sender = admin s)) "Only admin".

Definition constructor (sender _clearingHouse : address) : State :=
  mkState zero _clearingHouse sender ∅.

Definition coverBadDebt (s : State) (sender : address) (trader : address)
    (badDebt : D256) : result (State * bool) :=
  _ ← onlyClearingHouse s sender;
  if lt (totalBalance s) badDebt then
    let covered := totalBalance s in
    Ok (mkState zero (clearingHouse s) (admin s) (contributions s), false)
  else
    b ← sub (totalBalance s) badDebt;
    Ok (mkState b (clearingHouse s) (admin s) (contributions s), true).

Definition getInsuranceFundCapacity (s : State) : D256 := totalBalance s.
Definition getBalance (s : State) : Z := value (totalBalance s).
Definition getContribution (s : State) (who : address) : Z :=
  value (getContributionOf s who).
Definition isHealthy (s : State) : bool := 0 <? value (totalBalance s).

Section WithToken.

(** The collateral token is an ERC20 contract from outside the repository:
    its state, [transfer] (token state, caller, recipient, amount) and
    [transferFrom] (token state, caller, owner, recipient, amount) are
    parameters.  [self] is the address of the fund. *)
Context {Token : Type}.
Variable transfer : Token -> address -> address -> Z -> result Token.
Variable transferFrom : Token -> address -> address -> address -> Z -> result Token.

Definition addFund (self : address) (s : State) (tk : Token) (sender : address)
    (amount : D256) : result (State * Token) :=
  _ ← require (0 <? value amount) "Amount must be positive";
  tk1 ← transferFrom tk self sender self (value amount);
  total ← add (totalBalance s) amount;
  mine ← add (getContributionOf s sender) amount;
  Ok (mkState total (clearingHouse s) (admin s)
        (<[sender := mine]> (contributions s)), tk1).

Definition receiveLiquidationFee (self : address) (s : State) (tk : Token)
    (sender : address) (fee : D256) : result (State * Token) :=
  _ ← onlyClearingHouse s sender;
  tk1 ← transferFrom tk self sender self (value fee);
  total ← add (totalBalance s) fee;
  Ok (mkState total (clearingHouse s) (admin s) (contributions s), tk1).

Definition withdrawFund (self : address) (s : State) (tk : Token)
    (sender : address) (recipient : address) (amount : D256)
    : result (State * Token) :=
  _ ← onlyAdmin s sender;
  _ ← require (gte (totalBalance s) amount) "Insufficient balance";
  total ← sub (totalBalance s) amount;
  tk1 ← transfer tk self recipient (value amount);
  Ok (mkState total (clearingHouse s) (admin s) (contributions s), tk1).

(** The state-changing entry points as requests on the fund and the token
    together; a request that reverts leaves both as they were. *)
Inductive Call :=
| AddFund (amount : D256)
| CoverBadDebt (trader : address) (badDebt : D256)
| ReceiveLiquidationFee (fee : D256)
| WithdrawFund (recipient : address) (amount : D256).

Definition step (self : address) (st : State * Token) (sender : address)
    (c : Call) : State * Token :=
  match c with
  | AddFund amount =>
      match addFund self (fst st) (snd st) sender amount with
      | Ok st' => st'
      | Revert _ => st
      end
  | CoverBadDebt trader badDebt =>
      match coverBadDebt (fst st) sender trader badDebt with
      | Ok (s', _) => (s', snd st)
      | Revert _ => st
      end
  | ReceiveLiquidationFee fee =>
      match receiveLiquidationFee self (fst st) (snd st) sender fee with
      | Ok st' => st'
      | Revert _ => st
      end
  | WithdrawFund recipient amount =>
      match withdrawFund self (fst st) (snd st) sender recipient amount with
      | Ok st' => st'
      | Revert _ => st
      end
  end.

End WithToken.

End InsuranceFund.

(** ** A token to evaluate on

    Balances only: a transfer moves the amount when the owner holds it and
    reverts otherwise; allowances are not tracked. *)

Module PlainToken.

Definition State := gmap address Z.

Definition balanceOf (tk : gmap address Z) (who : address) : Z :=
  default 0 (tk !! who).

Definition move (tk : gmap address Z) (from to : address) (amount : Z)
    : result (gmap address Z) :=
  _ ← require (amount <=? balanceOf tk from) "ERC20: transfer amount exceeds balance";
  let tk1 := <[from := balanceOf tk from - amount]> tk in
  Ok (<[to := balanceOf tk1 to + amount]> tk1).

Definition transfer (tk : gmap address Z) (caller to : address) (amount : Z)
    : result (gmap address Z) :=
  move tk caller to amount.

Definition transferFrom (tk : gmap address Z) (caller from to : address)
    (amount : Z) : result (gmap address Z) :=
  move tk from to amount.

Definition approve (tk : gmap address Z) (caller spender : address) (amount : Z)
    : result (gmap address Z) :=
  Ok tk.

End PlainToken.

(** ** The router: whose position, what is paid, what can succeed *)

Section RouterFurther.
Import ClearingHouse.

Context {Token : Type}.
Variable transfer : Token -> address -> address -> Z -> result Token.
Variable transferFrom : Token -> address -> address -> address -> Z -> result Token.
Variable approve : Token -> address -> address -> Z -> result Token.

Lemma getPos_other_after_open (s s' : State) (sender other : address)
    (timestamp : Z) (token : address) (isLong : bool) (coll lev minOut out : Z) :
  openPosition s sender timestamp token isLong coll lev minOut = Ok (s', out) ->
  other <> sender ->
  getPos s' other token = getPos s other token.
Proof.
  intros H Hne.
  destruct (openPosition_shape _ _ _ _ _ _ _ _ _ _ H) as (p & ev & ->).
  unfold getPos. simpl. now rewrite lookup_insert_ne by congruence.
Qed.

Lemma getPos_other_after_close (s s' : State) (sender other : address)
    (timestamp : Z) (token : address) (closeRatio pnl : Z) :
  closePosition s sender timestamp token closeRatio = Ok (s', pnl) ->
  other <> sender ->
  getPos s' other token = getPos s other token.
Proof.
  intros H Hne.
  destruct (closePosition_shape _ _ _ _ _ _ _ H) as (ev & [-> | [p ->]]);
    unfold getPos; simpl.
  - now rewrite lookup_delete_ne by congruence.
  - now rewrite lookup_insert_ne by congruence.
Qed.

(** X22: a position opened through the router is recorded under the
    router's own address: the size returned, [collateral * leverage /
    10000], is added to the router's record for the token, and the record
    of the trader who called stays as it was.  The router accepts only a
    positive collateral and a leverage from 1 to 10000, up to the deadline. *)
Theorem X22_router_positions_belong_to_router
    (self house : address) (h h' : State) (tk tk' : Token) (sender : address)
    (timestamp : Z) (token : address) (isLong : bool)
    (coll lev minOut deadline out : Z) :
  sender <> self ->
  ExchangeRouter.openPositionWithCollateral transferFrom approve self house
    h tk sender timestamp token isLong coll lev minOut deadline
    = Ok (h', tk', out) ->
  out = coll * lev / 10000 /\
  size (getPos h' self token)
    = size (getPos h self token) + (if isLong then out else - out) /\
  getPos h' sender token = getPos h sender token /\
  timestamp <= deadline /\ 0 < coll /\ 0 < lev <= 10000.
Proof.
  intros Hne H. unfold ExchangeRouter.openPositionWithCollateral in H.
  bind_as H u1 Hd. apply require_Ok in Hd. apply Z.leb_le in Hd.
  bind_as H u2 Hc. apply require_Ok in Hc. apply Z.ltb_lt in Hc.
  bind_as H u3 Hl. apply require_Ok in Hl. apply andb_true_iff in Hl as [Hl0 Hl1].
  apply Z.ltb_lt in Hl0. apply Z.leb_le in Hl1.
  bind_as H tk1 Htk1. bind_as H tk2 Htk2.
  bind_as H r Hopen. destruct r as [h1 out1]. injection H as <- _ <-.
  destruct (openPosition_correct _ _ _ _ _ _ _ _ _ _ Hopen)
    as (_ & _ & _ & Hout & Hsize & _).
  pose proof (getPos_other_after_open _ _ _ sender _ _ _ _ _ _ _ Hopen Hne).
  repeat split; assumption.
Qed.

(** X23: a successful [closePositionToCollateral] closes the router's own
    record, reports a realized PnL of zero and pays nothing: the token is
    left exactly as it was, whatever the token contract would do, and the
    record of the trader who called is not touched.  It can only succeed
    with a minimum amount of zero. *)
Theorem X23_router_close_pays_nothing
    (self : address) (h h' : State) (tk tk' : Token) (sender : address)
    (timestamp : Z) (token : address) (closeRatio minQuoteAmount deadline pnl : Z) :
  sender <> self ->
  ExchangeRouter.closePositionToCollateral transfer self h tk sender timestamp
    token closeRatio minQuoteAmount deadline = Ok (h', tk', pnl) ->
  pnl = 0 /\ tk' = tk /\ minQuoteAmount <= 0 /\
  closePosition h self timestamp token closeRatio = Ok (h', 0) /\
  getPos h' sender token = getPos h sender token /\
  0 < closeRatio <= 10000 /\ timestamp <= deadline.
Proof.
  intros Hne H. unfold ExchangeRouter.closePositionToCollateral in H.
  bind_as H u1 Hd. apply require_Ok in Hd. apply Z.leb_le in Hd.
  bind_as H u2 Hr. apply require_Ok in Hr. apply andb_true_iff in Hr as [Hr0 Hr1].
  apply Z.ltb_lt in Hr0. apply Z.leb_le in Hr1.
  bind_as H r Hclose. destruct r as [h1 pnl1].
  destruct (closePosition_correct _ _ _ _ _ _ _ Hclose) as (_ & _ & Hzero & _).
  subst pnl1. change (0 <? 0) with false in H. cbv iota in H.
  bind_as H u3 Hmin. apply require_Ok in Hmin. apply Z.leb_le in Hmin.
  bind_as H tk1 Htk. injection Htk as <-. injection H as <- <- <-.
  pose proof (getPos_other_after_close _ _ _ sender _ _ _ _ Hclose Hne).
  unfold ExchangeRouter.BASIS_POINTS in *.
  repeat split; assumption.
Qed.

(** X24: unless the router is itself the clearing house of the ledger, its
    collateral functions cannot succeed: [addCollateral] reverts for every
    amount and every token behaviour, and [removeCollateral] fails with
    "Only ClearingHouse" for every positive amount, before any token moves. *)
Theorem X24_router_collateral_calls_cannot_succeed
    (self ledgerAccount : address) (l : AccountBalance.State) (tk : Token)
    (sender : address) (amount : Z) :
  self <> AccountBalance.clearingHouse l ->
  (forall r,
     ExchangeRouter.addCollateral transferFrom self ledgerAccount l tk sender amount
     <> Ok r) /\
  ExchangeRouter.removeCollateral transfer self l tk sender amount
  = Revert (RequireFailed (if 0 <? amount then "Only ClearingHouse"
                           else "Invalid amount")).
Proof.
  intros Hne. split.
  - intros r H. unfold ExchangeRouter.addCollateral in H.
    bind_as H u1 Ha. bind_as H tk1 Htk. bind_as H d Hdep.
    unfold AccountBalance.deposit, AccountBalance.onlyClearingHouse in Hdep.
    rewrite bool_decide_eq_false_2 in Hdep by assumption. discriminate.
  - unfold ExchangeRouter.removeCollateral.
    destruct (0 <? amount); [| reflexivity].
    unfold AccountBalance.withdraw, AccountBalance.onlyClearingHouse.
    now rewrite bool_decide_eq_false_2 by assumption.
Qed.

End RouterFurther.

(** *** The router on the test deployment

    The router is account 9; the trader holds 500 units of the token. *)
Definition routerAccount : address := 9%N.

Definition wallet0 : gmap address Z := {[ trader := 500 * 10 ^ 18 ]}.

Definition routed_open : result (ClearingHouse.State * gmap address Z * Z) :=
  ExchangeRouter.openPositionWithCollateral PlainToken.transferFrom
    PlainToken.approve routerAccount houseAccount house0 wallet0 trader 1000
    marketToken true (100 * 10 ^ 18) 1000 0 2000.

Definition house_routed : ClearingHouse.State :=
  match routed_open with Ok (h, _, _) => h | Revert _ => house0 end.
Definition wallet_routed : gmap address Z :=
  match routed_open with Ok (_, tk, _) => tk | Revert _ => wallet0 end.

Definition routed_close : result (ClearingHouse.State * gmap address Z * Z) :=
  ExchangeRouter.closePositionToCollateral PlainToken.transfer routerAccount
    house_routed wallet_routed trader 1001 marketToken 10000 0 2000.

Definition house_routed_closed : ClearingHouse.State :=
  match routed_close with Ok (h, _, _) => h | Revert _ => house_routed end.

Lemma X22_router_positions_belong_to_router_witness :
  10 * 10 ^ 18 = 100 * 10 ^ 18 * 1000 / 10000 /\
  ClearingHouse.size (ClearingHouse.getPos house_routed routerAccount marketToken)
    = ClearingHouse.size (ClearingHouse.getPos house0 routerAccount marketToken)
      + (if true then 10 * 10 ^ 18 else - (10 * 10 ^ 18)) /\
  ClearingHouse.getPos house_routed trader marketToken
    = ClearingHouse.getPos house0 trader marketToken /\
  1000 <= 2000 /\ 0 < 100 * 10 ^ 18 /\ 0 < 1000 <= 10000.
Proof.
  apply (X22_router_positions_belong_to_router PlainToken.transferFrom
           PlainToken.approve routerAccount houseAccount house0 house_routed
           wallet0 wallet_routed trader 1000 marketToken true (100 * 10 ^ 18)
           1000 0 2000 (10 * 10 ^ 18)).
  - vm_compute. discriminate.
  - vm_compute. reflexivity.
Defined.

Lemma X23_router_close_pays_nothing_witness :
  0 = 0 /\ wallet_routed = wallet_routed /\ 0 <= 0 /\
  ClearingHouse.closePosition house_routed routerAccount 1001 marketToken 10000
    = Ok (house_routed_closed, 0) /\
  ClearingHouse.getPos house_routed_closed trader marketToken
    = ClearingHouse.getPos house_routed trader marketToken /\
  0 < 10000 <= 10000 /\ 1001 <= 2000.
Proof.
  apply (X23_router_close_pays_nothing PlainToken.transfer routerAccount
           house_routed house_routed_closed wallet_routed wallet_routed trader
           1001 marketToken 10000 0 2000 0).
  - vm_compute. discriminate.
  - vm_compute. reflexivity.
Defined.

Lemma X24_router_collateral_calls_cannot_succeed_witness :
  (forall r,
     ExchangeRouter.addCollateral PlainToken.transferFrom routerAccount 5%N
       ledger0 wallet0 trader (10 ^ 18) <> Ok r) /\
  ExchangeRouter.removeCollateral PlainToken.transfer routerAccount ledger0
    wallet0 trader (10 ^ 18)
  = Revert (RequireFailed (if 0 <? 10 ^ 18 then "Only ClearingHouse"
                           else "Invalid amount")).
Proof.
  apply (X24_router_collateral_calls_cannot_succeed PlainToken.transfer
           PlainToken.transferFrom routerAccount 5%N ledger0 wallet0 trader
           (10 ^ 18)).
  vm_compute. discriminate.
Defined.

(** ** The insurance fund: coverage and what lowers the balance *)

Section InsuranceFundFurther.
Import Decimal InsuranceFund.

Ltac run_binds := unfold mbind, result_bind; cbv beta iota.

(** X25: [coverBadDebt], called by the clearing house, never reverts: it
    lowers the balance by the debt, down to zero, and returns whether the
    debt was covered in full.  When it was not, the fund is left empty and
    unhealthy and the missing part is recorded nowhere.  The contribution
    ledger is not touched. *)
Theorem X25_coverBadDebt_pays_down_to_zero
    (s : InsuranceFund.State) (t : address) (badDebt : D256) :
  in_uint256 (value (totalBalance s)) ->
  in_uint256 (value badDebt) ->
  coverBadDebt s (clearingHouse s) t badDebt
  = Ok (InsuranceFund.mkState
          (d256 (Z.max 0 (value (totalBalance s) - value badDebt)))
          (clearingHouse s) (admin s) (contributions s),
        value badDebt <=? value (totalBalance s)) /\
  isHealthy
    (InsuranceFund.mkState
       (d256 (Z.max 0 (value (totalBalance s) - value badDebt)))
       (clearingHouse s) (admin s) (contributions s))
  = (value badDebt <? value (totalBalance s)).
Proof.
  unfold in_uint256, MAX_UINT256. intros Hb Hd. split.
  - unfold coverBadDebt, onlyClearingHouse, lt.
    rewrite bool_decide_eq_true_2 by reflexivity. unfold require. run_binds.
    destruct (value (totalBalance s) <? value badDebt) eqn:Hlt;
      [apply Z.ltb_lt in Hlt | apply Z.ltb_ge in Hlt].
    + rewrite (proj2 (Z.leb_gt _ _)) by lia.
      rewrite Z.max_l by lia. reflexivity.
    + rewrite (proj2 (Z.leb_le _ _)) by lia.
      unfold sub. rewrite usub_fits by (unfold in_uint256, MAX_UINT256; lia).
      run_binds. rewrite Z.max_r by lia. reflexivity.
  - unfold isHealthy. cbn [totalBalance value].
    destruct (value badDebt <? value (totalBalance s)) eqn:Hlt;
      [apply Z.ltb_lt in Hlt; apply Z.ltb_lt | apply Z.ltb_ge in Hlt; apply Z.ltb_ge];
      lia.
Qed.

(** A fund of 30 units asked to cover a debt of 50. *)
Definition fund30 : InsuranceFund.State :=
  InsuranceFund.mkState (d256 (30 * 10 ^ 18)) houseAccount deployer ∅.

Lemma X25_coverBadDebt_pays_down_to_zero_witness :
  coverBadDebt fund30 (clearingHouse fund30) trader (d256 (50 * 10 ^ 18))
  = Ok (InsuranceFund.mkState
          (d256 (Z.max 0 (value (totalBalance fund30) - value (d256 (50 * 10 ^ 18)))))
          (clearingHouse fund30) (admin fund30) (contributions fund30),
        value (d256 (50 * 10 ^ 18)) <=? value (totalBalance fund30)) /\
  isHealthy
    (InsuranceFund.mkState
       (d256 (Z.max 0 (value (totalBalance fund30) - value (d256 (50 * 10 ^ 18)))))
       (clearingHouse fund30) (admin fund30) (contributions fund30))
  = (value (d256 (50 * 10 ^ 18)) <? value (totalBalance fund30)).
Proof.
  apply (X25_coverBadDebt_pays_down_to_zero fund30 trader (d256 (50 * 10 ^ 18))).
  - vm_compute. split; discriminate.
  - vm_compute. split; discriminate.
Defined.

Context {Token : Type}.
Variable transfer : Token -> address -> address -> Z -> result Token.
Variable transferFrom : Token -> address -> address -> address -> Z -> result Token.

(** The amount a request carries. *)
Definition call_amount (c : InsuranceFund.Call) : Z :=
  match c with
  | AddFund amount => value amount
  | CoverBadDebt _ badDebt => value badDebt
  | ReceiveLiquidationFee fee => value fee
  | WithdrawFund _ amount => value amount
  end.

(** X26: the balance of the fund goes down only through a coverage payout
    called by the clearing house or a withdrawal called by the admin; every
    other call, whoever makes it and whatever the token does, leaves the
    balance where it was or raises it. *)
Theorem X26_fund_balance_lowered_only_by_payout_or_admin
    (self : address) (s : InsuranceFund.State) (tk : Token) (sender : address)
    (c : InsuranceFund.Call) :
  0 <= call_amount c ->
  InsuranceFund.getBalance
    (fst (InsuranceFund.step transfer transferFrom self (s, tk) sender c))
  < InsuranceFund.getBalance s ->
  (sender = clearingHouse s /\ exists t d, c = CoverBadDebt t d) \/
  (sender = admin s /\ exists r a, c = WithdrawFund r a).
Proof.
  intros Hamt Hlow. unfold InsuranceFund.getBalance in Hlow.
  destruct c as [amount | t d | fee | r a]; simpl in *.
  - exfalso.
    destruct (addFund transferFrom self s tk sender amount) as [[s' tk']|e] eqn:H;
      simpl in Hlow; [| lia].
    unfold addFund in H. bind_as H u1 Hp. bind_as H tk1 Htk.
    bind_as H total Htotal. bind_as H mine Hmine. injection H as <- _.
    apply add_Ok in Htotal as [Ht _]. simpl in Hlow. lia.
  - left.
    destruct (coverBadDebt s sender t d) as [[s' ok]|e] eqn:H;
      simpl in Hlow; [| lia].
    unfold coverBadDebt, onlyClearingHouse in H.
    bind_as H u1 Hs. apply require_Ok in Hs. apply bool_decide_eq_true_1 in Hs.
    eauto.
  - exfalso.
    destruct (receiveLiquidationFee transferFrom self s tk sender fee)
      as [[s' tk']|e] eqn:H; simpl in Hlow; [| lia].
    unfold receiveLiquidationFee in H. bind_as H u1 Hs. bind_as H tk1 Htk.
    bind_as H total Htotal. injection H as <- _.
    apply add_Ok in Htotal as [Ht _]. simpl in Hlow. lia.
  - right.
    destruct (withdrawFund transfer self s tk sender r a) as [[s' tk']|e] eqn:H;
      simpl in Hlow; [| lia].
    unfold withdrawFund, onlyAdmin in H.
    bind_as H u1 Hs. apply require_Ok in Hs. apply bool_decide_eq_true_1 in Hs.
    eauto.
Qed.

End InsuranceFundFurther.

Definition fund_wallet : gmap address Z := {[ 6%N := 30 * 10 ^ 18 ]}.

Lemma X26_fund_balance_lowered_only_by_payout_or_admin_witness :
  (deployer = InsuranceFund.clearingHouse fund30 /\
   exists t d, InsuranceFund.WithdrawFund trader (Decimal.d256 (10 ^ 18))
               = InsuranceFund.CoverBadDebt t d) \/
  (deployer = InsuranceFund.admin fund30 /\
   exists r a, InsuranceFund.WithdrawFund trader (Decimal.d256 (10 ^ 18))
               = InsuranceFund.WithdrawFund r a).
Proof.
  apply (X26_fund_balance_lowered_only_by_payout_or_admin PlainToken.transfer
           PlainToken.transferFrom 6%N fund30 fund_wallet deployer
           (InsuranceFund.WithdrawFund trader (Decimal.d256 (10 ^ 18)))).
  - vm_compute. discriminate.
  - vm_compute. reflexivity.
Defined.

(** ** mocks/MockAggregator.sol *)

Module MockAggregator.

Record State := mkState {
  decimals : Z;     (* uint8 *)
  answer : Z;       (* int256 *)
  updatedAt : Z
}.

Definition constructor (timestamp : Z) (_decimals _answer : Z) : State :=
  mkState _decimals _answer timestamp.

(** (roundId, answer, startedAt, updatedAt, answeredInRound) *)
Definition latestRoundData (s : State) : Z * Z * Z * Z * Z :=
  (0, answer s, updatedAt s, updatedAt s, 0).

Definition setAnswer (s : State) (timestamp : Z) (_answer : Z) : State :=
  mkState (decimals s) _answer timestamp.

End MockAggregator.

(** ** oracle/Oracle.sol *)

(** Checked [uint256] power and checked [uint8] subtraction. *)
Definition upow (a b : Z) : result Z :=
  if fits_uint256 (a ^ b) then Ok (a ^ b) else Revert (Panic ArithmeticOverflow).
Definition usub8 (a b : Z) : result Z :=
  if (0 <=? a - b) && (a - b <=? 255) then Ok (a - b)
  else Revert (Panic ArithmeticOverflow).

Module Oracle.
Import Decimal.

Record PriceFeed := mkPriceFeed {
  feed : address;
  heartbeat : Z;
  decimals : Z;     (* uint8 *)
  isActive : bool
}.

(** The events of this contract carry no state and are left out. *)
Record State := mkState {
  priceFeeds : gmap address PriceFeed;
  cachedPrices : gmap address D256;
  lastUpdateTime : gmap address Z;
  admin : address
}.

Definition noFeed : PriceFeed := mkPriceFeed 0%N 0 0 false.

Definition getFeed (s : State) (token : address) : PriceFeed :=
  default noFeed (priceFeeds s !! token).
Definition getCached (s : State) (token : address) : D256 :=
  default zero (cachedPrices s !! token).
Definition getLastUpdate (s : State) (token : address) : Z :=
  default 0 (lastUpdateTime s !! token).

Definition onlyAdmin (s : State) (sender : address) : result unit :=
  require (bool_decide (sender = admin s)) "Only admin".

Definition constructor (sender : address) : State := mkState ∅ ∅ ∅ sender.

Section WithFeeds.

(** The aggregators are contracts outside the oracle, reached by address:
    the state of that outside world and the two calls the oracle makes on
    it are parameters. *)
Context {Feeds : Type}.
Variable feedDecimals : Feeds -> address -> result Z.
Variable feedLatestRoundData : Feeds -> address -> result (Z * Z * Z * Z * Z).

Definition getPrice (s : State) (w : Feeds) (now : Z) (token : address)
    : result D256 :=
  let f := getFeed s token in
  _ ← require (isActive f) "Inactive feed";
  '(_, price, _, updatedAt, _) ← feedLatestRoundData w (feed f);
  _ ← require (0 <? price) "Invalid price";
  age ← usub now updatedAt;
  _ ← require (age <=? heartbeat f) "Stale price";
  let normalizedPrice := to_uint256 price in
  normalized ←
    (if decimals f <? 18 then
       e ← usub8 18 (decimals f);
       p ← upow 10 e;
       umul normalizedPrice p
     else if 18 <? decimals f then
       e ← usub8 (decimals f) 18;
       p ← upow 10 e;
       udiv normalizedPrice p
     else Ok normalizedPrice);
  Ok (d256 normalized).

Definition updatePrice (s : State) (w : Feeds) (now : Z) (token : address)
    : result (State * D256) :=
  price ← getPrice s w now token;
  Ok (mkState (priceFeeds s) (<[token := price]> (cachedPrices s))
        (<[token := now]> (lastUpdateTime s)) (admin s),
      price).

Definition addPriceFeed (s : State) (w : Feeds) (sender : address) (now : Z)
    (token feedAddress : address) (heartbeat' : Z) : result (State * unit) :=
  _ ← onlyAdmin s sender;
  _ ← require (negb (bool_decide (token = 0%N))) "Invalid token";
  _ ← require (negb (bool_decide (feedAddress = 0%N))) "Invalid feed";
  _ ← require (0 <? heartbeat') "Invalid heartbeat";
  decimals' ← feedDecimals w feedAddress;
  let s1 := mkState
              (<[token := mkPriceFeed feedAddress heartbeat' decimals' true]>
                 (priceFeeds s))
              (cachedPrices s) (lastUpdateTime s) (admin s) in
  '(s2, _) ← updatePrice s1 w now token;
  Ok (s2, tt).

Definition getIndexPrice (s : State) (w : Feeds) (now : Z) (token : address)
    : result D256 := getPrice s w now token.
Definition getMarkPrice (s : State) (w : Feeds) (now : Z) (token : address)
    : result D256 := getPrice s w now token.

End WithFeeds.

Definition removePriceFeed (s : State) (sender : address) (token : address)
    : result (State * unit) :=
  _ ← onlyAdmin s sender;
  let f := getFeed s token in
  Ok (mkState
        (<[token := mkPriceFeed (feed f) (heartbeat f) (decimals f) false]>
           (priceFeeds s))
        (cachedPrices s) (lastUpdateTime s) (admin s), tt).

Definition getTwapPrice (s : State) (token : address) (interval : Z) : D256 :=
  getCached s token.

Definition isPriceStale (s : State) (now : Z) (token : address) : result bool :=
  let f := getFeed s token in
  if negb (isActive f) then Ok true else
  age ← usub now (getLastUpdate s token);
  Ok (heartbeat f <? age).

Definition getCachedPrice (s : State) (token : address) : Z :=
  value (getCached s token).

Definition getPriceFeedInfo (s : State) (token : address) : address * Z * Z * bool :=
  let f := getFeed s token in
  (feed f, heartbeat f, decimals f, isActive f).

Definition setAdmin (s : State) (sender newAdmin : address) : result (State * unit) :=
  _ ← onlyAdmin s sender;
  _ ← require (negb (bool_decide (newAdmin = 0%N))) "Invalid address";
  Ok (mkState (priceFeeds s) (cachedPrices s) (lastUpdateTime s) newAdmin, tt).

End Oracle.

(** The oracle reading mock aggregators: the outside world maps an address
    to the aggregator deployed there. *)
Definition mockDecimals (w : address -> MockAggregator.State) (a : address)
    : result Z := Ok (MockAggregator.decimals (w a)).
Definition mockLatestRoundData (w : address -> MockAggregator.State) (a : address)
    : result (Z * Z * Z * Z * Z) := Ok (MockAggregator.latestRoundData (w a)).

(** ** The oracle: normalised prices, the cache and its lifetime *)

Section OracleFurther.
Import Decimal Oracle.

Ltac run_binds := unfold mbind, result_bind; cbv beta iota.

Context {Feeds : Type}.
Variable feedDecimals : Feeds -> address -> result Z.
Variable feedLatestRoundData : Feeds -> address -> result (Z * Z * Z * Z * Z).

Lemma pow10_78_too_big : MAX_UINT256 < 10 ^ 78.
Proof. vm_compute. reflexivity. Qed.

(** X27: a price that [getPrice] returns comes from an active feed whose
    answer is positive and no older than the heartbeat, and it is that
    answer at 18 decimals: for a feed of at most 18 decimals,
    [price * 10^decimals = answer * 10^18] exactly; for more decimals the
    answer is divided by [10^(decimals - 18)], rounded down.  A feed with
    96 decimals or more is never readable: the scale overflows. *)
Theorem X27_getPrice_normalises_to_18_decimals
    (s : Oracle.State) (w : Feeds) (now : Z) (token : address) (p : D256)
    (roundId answer startedAt updatedAt answeredInRound : Z) :
  0 <= decimals (getFeed s token) ->
  0 <= answer <= MAX_UINT256 ->
  feedLatestRoundData w (feed (getFeed s token))
    = Ok (roundId, answer, startedAt, updatedAt, answeredInRound) ->
  getPrice feedLatestRoundData s w now token = Ok p ->
  let f := getFeed s token in
  isActive f = true /\
  0 < answer /\
  0 <= now - updatedAt <= heartbeat f /\
  decimals f < 96 /\
  (if decimals f <=? 18
   then value p * 10 ^ decimals f = answer * 10 ^ 18
   else value p = answer / 10 ^ (decimals f - 18)).
Proof.
  intros Hdec Hans Hfeed H f. unfold getPrice in H. fold f in H, Hfeed, Hdec.
  bind_as H u1 Hact. apply require_Ok in Hact.
  rewrite Hfeed in H. bind_as H data Hdata. injection Hdata as <-.
  cbv beta iota in H.
  bind_as H u2 Hpos. apply require_Ok in Hpos. apply Z.ltb_lt in Hpos.
  bind_as H age Hage. apply usub_Ok in Hage as [-> [Hage0 _]].
  bind_as H u3 Hfresh. apply require_Ok in Hfresh. apply Z.leb_le in Hfresh.
  bind_as H normalized Hnorm. injection H as <-. cbn [value].
  rewrite to_uint256_small in Hnorm by exact Hans.
  split; [assumption |]. split; [assumption |]. split; [lia |].
  destruct (decimals f <? 18) eqn:Hlt;
    [apply Z.ltb_lt in Hlt | apply Z.ltb_ge in Hlt].
  - bind_as Hnorm e He. bind_as Hnorm pw Hpw.
    unfold usub8 in He.
    destruct ((0 <=? 18 - decimals f) && (18 - decimals f <=? 255));
      [| discriminate]. injection He as <-.
    unfold upow in Hpw.
    destruct (fits_uint256 (10 ^ (18 - decimals f))); [| discriminate].
    injection Hpw as <-. apply umul_Ok in Hnorm as [-> _].
    split; [lia |].
    rewrite (proj2 (Z.leb_le _ _)) by lia.
    rewrite <- Z.mul_assoc, <- Z.pow_add_r by lia.
    replace (18 - decimals f + decimals f) with 18 by lia. reflexivity.
  - destruct (18 <? decimals f) eqn:Hgt;
      [apply Z.ltb_lt in Hgt | apply Z.ltb_ge in Hgt].
    + bind_as Hnorm e He. bind_as Hnorm pw Hpw.
      unfold usub8 in He.
      destruct ((0 <=? decimals f - 18) && (decimals f - 18 <=? 255));
        [| discriminate]. injection He as <-.
      unfold upow in Hpw.
      destruct (fits_uint256 (10 ^ (decimals f - 18))) eqn:Hfit; [| discriminate].
      injection Hpw as <-. apply fits_uint256_spec in Hfit as [_ Hfit].
      apply udiv_Ok in Hnorm as [-> _].
      split.
      * destruct (Z_lt_le_dec (decimals f) 96) as [Hok | Hbig]; [exact Hok |].
        exfalso.
        pose proof (Z.pow_le_mono_r 10 78 (decimals f - 18) ltac:(lia) ltac:(lia)).
        pose proof pow10_78_too_big. lia.
      * rewrite (proj2 (Z.leb_gt _ _)) by lia. reflexivity.
    + injection Hnorm as <-. assert (decimals f = 18) as -> by lia.
      split; [lia |]. reflexivity.
Qed.

Lemma getFeed_updatePrice (s s' : Oracle.State) (w : Feeds) (now : Z)
    (token : address) (p : D256) :
  updatePrice feedLatestRoundData s w now token = Ok (s', p) ->
  s' = Oracle.mkState (priceFeeds s) (<[token := p]> (cachedPrices s))
         (<[token := now]> (lastUpdateTime s)) (admin s) /\
  isActive (getFeed s token) = true.
Proof.
  unfold updatePrice. intros H. bind_as H price Hprice. injection H as <- <-.
  split; [reflexivity |].
  unfold getPrice in Hprice. bind_as Hprice u1 Hact. now apply require_Ok in Hact.
Qed.

(** X28: a successful [updatePrice] at time [now] caches the price it
    returns, which [getTwapPrice] then serves for every interval, and from
    then on [isPriceStale] answers false up to [now + heartbeat] and true
    after that, whatever the feed does in the meantime. *)
Theorem X28_cached_price_is_fresh_for_one_heartbeat
    (s s' : Oracle.State) (w : Feeds) (now : Z) (token : address) (p : D256) :
  0 <= now ->
  updatePrice feedLatestRoundData s w now token = Ok (s', p) ->
  getCachedPrice s' token = value p /\
  (forall interval, getTwapPrice s' token interval = p) /\
  (forall now', now <= now' <= MAX_UINT256 ->
     isPriceStale s' now' token
     = Ok (heartbeat (getFeed s token) <? now' - now)).
Proof.
  intros Hnow H.
  destruct (getFeed_updatePrice _ _ _ _ _ _ H) as [-> Hact].
  unfold getCachedPrice, getTwapPrice, getCached. cbn [cachedPrices].
  rewrite lookup_insert_eq. cbn [default].
  split; [reflexivity |]. split; [reflexivity |].
  intros now' Hrange. unfold isPriceStale, getLastUpdate.
  cbn [lastUpdateTime]. rewrite lookup_insert_eq. cbn [default].
  change (getFeed (Oracle.mkState _ _ _ _) token) with (getFeed s token).
  rewrite Hact. cbn [negb].
  assert (Hfit : in_uint256 (now' - now)) by (unfold in_uint256; lia).
  change (id now) with now.
  rewrite (usub_fits _ _ Hfit). reflexivity.
Qed.

End OracleFurther.

(** X29: the admin can always remove a feed.  From then on [getPrice]
    fails with "Inactive feed" and [isPriceStale] answers true at every
    time, yet the price cached before the removal is still what
    [getTwapPrice] and [getCachedPrice] return. *)
Theorem X29_removed_feed_keeps_serving_its_cache
    {Feeds : Type}
    (feedLatestRoundData : Feeds -> address -> result (Z * Z * Z * Z * Z))
    (s : Oracle.State) (token : address) :
  let removed := commit s (Oracle.removePriceFeed s (Oracle.admin s) token) in
  succeeds (Oracle.removePriceFeed s (Oracle.admin s) token) /\
  (forall w now,
     Oracle.getPrice feedLatestRoundData removed w now token
     = Revert (RequireFailed "Inactive feed")) /\
  (forall now, Oracle.isPriceStale removed now token = Ok true) /\
  Oracle.getCachedPrice removed token = Oracle.getCachedPrice s token /\
  (forall interval,
     Oracle.getTwapPrice removed token interval
     = Oracle.getTwapPrice s token interval).
Proof.
  unfold Oracle.removePriceFeed, Oracle.onlyAdmin.
  rewrite bool_decide_eq_true_2 by reflexivity. simpl.
  split; [eexists; reflexivity |].
  split; [| split; [| split; reflexivity]].
  - intros w now. unfold Oracle.getPrice, Oracle.getFeed. simpl.
    rewrite lookup_insert_eq. reflexivity.
  - intros now. unfold Oracle.isPriceStale, Oracle.getFeed. simpl.
    rewrite lookup_insert_eq. reflexivity.
Qed.

(** *** The oracle on the test feed

    The test "Should add price feed and fetch price": an aggregator of 8
    decimals answering 2000.00000000, added at time 100 with a heartbeat of
    one hour. *)
Definition testFeedWorld (a : address) : MockAggregator.State :=
  MockAggregator.constructor 100 8 200000000000.

Definition oracle0 : Oracle.State := Oracle.constructor deployer.

Definition oracle1 : Oracle.State :=
  commit oracle0
    (Oracle.addPriceFeed mockDecimals mockLatestRoundData oracle0 testFeedWorld
       deployer 100 marketToken 4%N 3600).

Definition oracle2 : Oracle.State :=
  commit oracle1
    (Oracle.updatePrice mockLatestRoundData oracle1 testFeedWorld 200 marketToken).

Example test_add_feed_and_fetch_price :
  Oracle.getPriceFeedInfo oracle1 marketToken = (4%N, 3600, 8, true) /\
  Oracle.getIndexPrice mockLatestRoundData oracle1 testFeedWorld 100 marketToken
    = Ok (Decimal.d256 (2000 * 10 ^ 18)) /\
  Oracle.getTwapPrice oracle1 marketToken 3600 = Decimal.d256 (2000 * 10 ^ 18) /\
  Oracle.isPriceStale oracle1 100 marketToken = Ok false /\
  Oracle.isPriceStale oracle1 3701 marketToken = Ok true.
Proof.
  split; [vm_compute; reflexivity |].
  split; [vm_compute; reflexivity |].
  split; [vm_compute; reflexivity |].
  split; vm_compute; reflexivity.
Qed.

Lemma X27_getPrice_normalises_to_18_decimals_witness :
  let f := Oracle.getFeed oracle1 marketToken in
  Oracle.isActive f = true /\
  0 < 200000000000 /\
  0 <= 200 - 100 <= Oracle.heartbeat f /\
  Oracle.decimals f < 96 /\
  (if Oracle.decimals f <=? 18
   then Decimal.value (Decimal.d256 (2000 * 10 ^ 18)) * 10 ^ Oracle.decimals f
        = 200000000000 * 10 ^ 18
   else Decimal.value (Decimal.d256 (2000 * 10 ^ 18))
        = 200000000000 / 10 ^ (Oracle.decimals f - 18)).
Proof.
  apply (X27_getPrice_normalises_to_18_decimals mockLatestRoundData oracle1
           testFeedWorld 200 marketToken (Decimal.d256 (2000 * 10 ^ 18))
           0 200000000000 100 100 0).
  - vm_compute. discriminate.
  - vm_compute. split; discriminate.
  - vm_compute. reflexivity.
  - vm_compute. reflexivity.
Defined.

Lemma X28_cached_price_is_fresh_for_one_heartbeat_witness :
  Oracle.getCachedPrice oracle2 marketToken
    = Decimal.value (Decimal.d256 (2000 * 10 ^ 18)) /\
  (forall interval,
     Oracle.getTwapPrice oracle2 marketToken interval
     = Decimal.d256 (2000 * 10 ^ 18)) /\
  (forall now', 200 <= now' <= MAX_UINT256 ->
     Oracle.isPriceStale oracle2 now' marketToken
     = Ok (Oracle.heartbeat (Oracle.getFeed oracle1 marketToken) <? now' - 200)).
Proof.
  apply (X28_cached_price_is_fresh_for_one_heartbeat mockLatestRoundData
           oracle1 oracle2 testFeedWorld 200 marketToken
           (Decimal.d256 (2000 * 10 ^ 18))).
  - vm_compute. discriminate.
  - vm_compute. reflexivity.
Defined.

(** ** amm/Pool.sol *)

Module Pool.
Import Decimal.

(** The events of this contract carry no state and are left out. *)
Record State := mkState {
  vamm : address;
  collateralToken : address;
  totalSupply : D256;
  lpBalances : gmap address D256;
  accumulatedFees : D256;
  clearingHouse : address;
  admin : address
}.

Definition MINIMUM_LIQUIDITY : Z := 1000.

Definition getLp (s : State) (who : address) : D256 :=
  default zero (lpBalances s !! who).

Definition onlyClearingHouse (s : State) (sender : address) : result unit :=
  require (bool_decide (sender = clearingHouse s)) "Only ClearingHouse".

Definition constructor (sender _vamm _collateralToken _clearingHouse : address)
    : State :=
  mkState _vamm _collateralToken zero ∅ zero _clearingHouse sender.

Definition collectTradingFee (s : State) (sender : address) (feeAmount : D256)
    : result (State * unit) :=
  _ ← onlyClearingHouse s sender;
  fees ← add (accumulatedFees s) feeAmount;
  Ok (mkState (vamm s) (collateralToken s) (totalSupply s) (lpBalances s) fees
        (clearingHouse s) (admin s), tt).

Definition balanceOf (s : State) (provider : address) : Z := value (getLp s provider).
Definition getTotalSupply (s : State) : Z := value (totalSupply s).
Definition getAccumulatedFees (s : State) : Z := value (accumulatedFees s).

Definition getPendingRewards (s : State) (provider : address) : result D256 :=
  if isZero (totalSupply s) then Ok zero else
  m ← mulD (accumulatedFees s) (getLp s provider);
  divD m (totalSupply s).

Section WithToken.

(** The collateral token is an ERC20 contract from outside the repository:
    its state, [transfer], [transferFrom] and [balanceOf] are parameters.
    [self] is the address of the pool. *)
Context {Token : Type}.
Variable transfer : Token -> address -> address -> Z -> result Token.
Variable transferFrom : Token -> address -> address -> address -> Z -> result Token.
Variable tokenBalanceOf : Token -> address -> Z.

Definition getTotalValue (self : address) (tk : Token) : D256 :=
  let balance := tokenBalanceOf tk self in
  d256 balance.

Definition addLiquidity (self : address) (s : State) (tk : Token)
    (sender : address) (amount : D256) : result (State * Token * D256) :=
  _ ← require (0 <? value amount) "Amount must be positive";
  tk1 ← transferFrom tk self sender self (value amount);
  shares ←
    (if isZero (totalSupply s) then
       let shares := amount in
       _ ← require (MINIMUM_LIQUIDITY <=? value shares)
             "Insufficient initial liquidity";
       Ok shares
     else
       let poolValue := getTotalValue self tk1 in
       m ← mulD amount (totalSupply s);
       divD m poolValue);
  mine ← add (getLp s sender) shares;
  total ← add (totalSupply s) shares;
  Ok (mkState (vamm s) (collateralToken s) total
        (<[sender := mine]> (lpBalances s)) (accumulatedFees s)
        (clearingHouse s) (admin s),
      tk1, shares).

Definition removeLiquidity (self : address) (s : State) (tk : Token)
    (sender : address) (shares : D256) : result (State * Token * D256) :=
  _ ← require (0 <? value shares) "Shares must be positive";
  _ ← require (gte (getLp s sender) shares) "Insufficient shares";
  let poolValue := getTotalValue self tk in
  m ← mulD shares poolValue;
  amount ← divD m (totalSupply s);
  mine ← sub (getLp s sender) shares;
  total ← sub (totalSupply s) shares;
  tk1 ← transfer tk self sender (value amount);
  Ok (mkState (vamm s) (collateralToken s) total
        (<[sender := mine]> (lpBalances s)) (accumulatedFees s)
        (clearingHouse s) (admin s),
      tk1, amount).

Definition claimRewards (self : address) (s : State) (tk : Token)
    (sender : address) : result (State * Token * D256) :=
  _ ← require (0 <? value (getLp s sender)) "No LP position";
  m ← mulD (accumulatedFees s) (getLp s sender);
  rewards ← divD m (totalSupply s);
  _ ← require (0 <? value rewards) "No rewards to claim";
  fees ← sub (accumulatedFees s) rewards;
  tk1 ← transfer tk self sender (value rewards);
  Ok (mkState (vamm s) (collateralToken s) (totalSupply s) (lpBalances s) fees
        (clearingHouse s) (admin s),
      tk1, rewards).

Definition getLiquidityValue (self : address) (s : State) (tk : Token)
    (provider : address) : result D256 :=
  if isZero (totalSupply s) then Ok zero else
  let poolValue := getTotalValue self tk in
  m ← mulD (getLp s provider) poolValue;
  divD m (totalSupply s).

End WithToken.

End Pool.

(** ** The pool: how a deposit is priced, what a claim leaves *)

Section PoolFurther.
Import Decimal Pool.

Context {Token : Type}.
Variable transfer : Token -> address -> address -> Z -> result Token.
Variable transferFrom : Token -> address -> address -> address -> Z -> result Token.
Variable tokenBalanceOf : Token -> address -> Z.

Lemma mulD_floor (a b c : D256) :
  mulD a b = Ok c -> value c * 10 ^ 18 <= value a * value b.
Proof.
  unfold mulD. intros H. bind_as H p Hp. bind_as H v Hv. injection H as <-.
  apply umul_Ok in Hp as [-> _]. apply udiv_Ok in Hv as [-> _]. cbn [value].
  pose proof (Z.mul_div_le (value a * value b) (10 ^ 18) ltac:(lia)). lia.
Qed.

(** X30: in a pool that already has shares, a deposit is priced against
    the token balance of the pool after the deposit has arrived: the shares
    minted satisfy [shares * (balance before + amount) <= amount *
    totalSupply].  So when that balance was at least the supply, the
    depositor receives strictly fewer shares than the amount paid in.  The
    shares are added to the depositor's balance and to the total supply. *)
Theorem X30_deposit_is_priced_after_it_arrives
    (self : address) (s s' : Pool.State) (tk tk1 tk' : Token) (sender : address)
    (amount shares : D256) :
  value (totalSupply s) <> 0 ->
  value (totalSupply s) <= tokenBalanceOf tk self ->
  transferFrom tk self sender self (value amount) = Ok tk1 ->
  tokenBalanceOf tk1 self = tokenBalanceOf tk self + value amount ->
  addLiquidity transferFrom tokenBalanceOf self s tk sender amount
    = Ok (s', tk', shares) ->
  value shares * (tokenBalanceOf tk self + value amount)
    <= value amount * value (totalSupply s) /\
  value shares < value amount /\
  Pool.balanceOf s' sender = Pool.balanceOf s sender + value shares /\
  getTotalSupply s' = getTotalSupply s + value shares.
Proof.
  intros Hsupply Hfair Htransfer Hbalance H. unfold addLiquidity in H.
  bind_as H u1 Hpos. apply require_Ok in Hpos. apply Z.ltb_lt in Hpos.
  rewrite Htransfer in H. bind_as H t1 Ht1. injection Ht1 as <-.
  unfold isZero in H. rewrite (proj2 (Z.eqb_neq _ _) Hsupply) in H.
  bind_as H sh Hsh. bind_as Hsh m Hm.
  bind_as H mine Hmine. bind_as H total Htotal. injection H as <- _ <-.
  unfold getTotalValue in Hsh. rewrite Hbalance in Hsh.
  pose proof (mulD_floor _ _ _ Hm) as Hmfloor.
  pose proof (divD_divisor_nonzero _ _ _ Hsh) as Hnz. cbn [value] in Hnz.
  assert (Hsupply0 : 0 <= value (totalSupply s)).
  { apply add_Ok in Htotal as [Ht [Ht0 _]].
    unfold mulD in Hm. bind_as Hm p Hp. apply umul_Ok in Hp as [_ [Hp0 _]]. nia. }
  pose proof (divD_floor _ _ _ Hsh ltac:(cbn [value]; lia)) as [Hfloor _].
  cbn [value] in Hfloor.
  assert (Hineq : value sh * (tokenBalanceOf tk self + value amount)
                  <= value amount * value (totalSupply s)) by lia.
  split; [exact Hineq |]. split; [nia |].
  apply add_Ok in Hmine as [Hmine _]. apply add_Ok in Htotal as [Htotal _].
  unfold Pool.balanceOf, getTotalSupply, getLp. cbn [lpBalances totalSupply].
  rewrite lookup_insert_eq. cbn [default]. split; assumption.
Qed.

End PoolFurther.

(** *** The pool with two depositors

    The pool is account 10.  Account 11 seeds it with 1000 units, then the
    trader deposits 1000 units. *)
Definition poolAccount : address := 10%N.

Definition pool_wallet0 : gmap address Z :=
  {[ 11%N := 1000 * 10 ^ 18; trader := 1000 * 10 ^ 18 ]}.

Definition pool0 : Pool.State :=
  Pool.constructor deployer marketToken 12%N houseAccount.

Definition seeded : result (Pool.State * gmap address Z * Decimal.D256) :=
  Pool.addLiquidity PlainToken.transferFrom PlainToken.balanceOf poolAccount
    pool0 pool_wallet0 11%N (Decimal.d256 (1000 * 10 ^ 18)).

Definition pool1 : Pool.State :=
  match seeded with Ok (s, _, _) => s | Revert _ => pool0 end.
Definition pool_wallet1 : gmap address Z :=
  match seeded with Ok (_, tk, _) => tk | Revert _ => pool_wallet0 end.

Definition joined : result (Pool.State * gmap address Z * Decimal.D256) :=
  Pool.addLiquidity PlainToken.transferFrom PlainToken.balanceOf poolAccount
    pool1 pool_wallet1 trader (Decimal.d256 (1000 * 10 ^ 18)).

Definition pool2 : Pool.State :=
  match joined with Ok (s, _, _) => s | Revert _ => pool1 end.
Definition pool_wallet2 : gmap address Z :=
  match joined with Ok (_, tk, _) => tk | Revert _ => pool_wallet1 end.

Lemma X30_deposit_is_priced_after_it_arrives_witness :
  Decimal.value (Decimal.d256 (500 * 10 ^ 18))
    * (PlainToken.balanceOf pool_wallet1 poolAccount
       + Decimal.value (Decimal.d256 (1000 * 10 ^ 18)))
    <= Decimal.value (Decimal.d256 (1000 * 10 ^ 18))
       * Decimal.value (Pool.totalSupply pool1) /\
  Decimal.value (Decimal.d256 (500 * 10 ^ 18))
    < Decimal.value (Decimal.d256 (1000 * 10 ^ 18)) /\
  Pool.balanceOf pool2 trader
    = Pool.balanceOf pool1 trader + Decimal.value (Decimal.d256 (500 * 10 ^ 18)) /\
  Pool.getTotalSupply pool2
    = Pool.getTotalSupply pool1 + Decimal.value (Decimal.d256 (500 * 10 ^ 18)).
Proof.
  apply (X30_deposit_is_priced_after_it_arrives PlainToken.transferFrom
           PlainToken.balanceOf poolAccount pool1 pool2 pool_wallet1
           pool_wallet2 pool_wallet2 trader (Decimal.d256 (1000 * 10 ^ 18))
           (Decimal.d256 (500 * 10 ^ 18))).
  - vm_compute. discriminate.
  - vm_compute. discriminate.
  - vm_compute. reflexivity.
  - vm_compute. reflexivity.
  - vm_compute. reflexivity.
Defined.
